(** * vscode-perforce: the spec parser, the quick-pick providers, the
      changelist search tree and the date formatter.

    A shallow embedding of [src/api/SpecParser.ts],
    [src/quickPick/FileQuickPick.ts], [src/quickPick/ChangeQuickPick.ts],
    [src/search/ChangelistTreeView.ts] and [src/DateFormatter.ts].

    JavaScript strings are modelled as [string] (sequences of 8-bit code
    units), [undefined] as [None], arrays as lists, objects as records (with
    an [oid] where their identity matters), promises as computations of a
    state-and-exception monad over the world the command-line client talks
    to.  The modules these files import and that are not among the sources
    are interfaces (type classes) where only their results matter, and
    models where a property rests on what they do. *)

From Stdlib Require Import ZArith Ascii String List Lia Bool DecimalString.
From stdpp Require Import base list strings gmap.

Import ListNotations.
Local Open Scope string_scope.
Local Open Scope Z_scope.

(** ** The host language's primitives *)

Module JS.

Fixpoint take (n : nat) (s : string) : string :=
  match n, s with
  | S n', String c rest => String c (take n' rest)
  | _, _ => EmptyString
  end.

Fixpoint drop (n : nat) (s : string) : string :=
  match n, s with
  | S n', String _ rest => drop n' rest
  | _, _ => s
  end.

Definition len (s : string) : Z := Z.of_nat (String.length s).

(** The relative-index rule of [String.prototype.slice]: a negative index
    counts from the end, and every index is clamped to [0 .. len]. *)
Definition relIndex (len i : Z) : Z :=
  if i <? 0 then Z.max (len + i) 0 else Z.min i len.

(** [s.slice(start, end)]; [end_ = None] is the one-argument call. *)
Definition slice (s : string) (start : Z) (end_ : option Z) : string :=
  let from := relIndex (len s) start in
  let to := match end_ with
            | None => len s
            | Some e => relIndex (len s) e
            end in
  take (Z.to_nat (Z.max (to - from) 0)) (drop (Z.to_nat from) s).

(** [s.indexOf(c)] for a one-character search string: the position of the
    first occurrence, [-1] when there is none. *)
Fixpoint indexOf (s : string) (c : ascii) : Z :=
  match s with
  | EmptyString => -1
  | String a rest =>
      if Ascii.eqb a c then 0
      else let r := indexOf rest c in
           if r <? 0 then -1 else r + 1
  end.

(** [s.startsWith(p)]. *)
Fixpoint startsWith (s p : string) {struct p} : bool :=
  match p, s with
  | EmptyString, _ => true
  | String a p', String b s' => Ascii.eqb a b && startsWith s' p'
  | String _ _, EmptyString => false
  end.

(** [a.join(sep)]. *)
Fixpoint join (sep : string) (a : list string) : string :=
  match a with
  | [] => ""
  | [x] => x
  | x :: rest => x ++ sep ++ join sep rest
  end.

(** [String(n)] for a natural number: its decimal digits. *)
Definition ofNat (n : nat) : string := NilZero.string_of_uint (Nat.to_uint n).

(** Truthiness of a [string | undefined]: [undefined] and the empty string
    are falsy. *)
Definition truthy (v : option string) : bool :=
  match v with
  | None => false
  | Some s => negb (String.eqb s "")
  end.

(** *** [parseInt] with no radix argument

    Leading white space is skipped, one sign is read, a [0x]/[0X] prefix
    selects radix 16, and the longest run of digits is converted; with no
    digit at all the result is [NaN], here [None]. *)

Definition isWhiteSpace (c : ascii) : bool :=
  let n := nat_of_ascii c in
  ((9 <=? n) && (n <=? 13) || (n =? 32) || (n =? 160))%nat.

Fixpoint skipWhiteSpace (s : string) : string :=
  match s with
  | String c rest => if isWhiteSpace c then skipWhiteSpace rest else s
  | EmptyString => s
  end.

Definition digitValue (radix : Z) (c : ascii) : option Z :=
  let n := Z.of_nat (nat_of_ascii c) in
  let v := if (48 <=? n) && (n <=? 57) then Some (n - 48)
           else if (97 <=? n) && (n <=? 122) then Some (n - 87)
           else if (65 <=? n) && (n <=? 90) then Some (n - 55)
           else None in
  match v with
  | Some d => if d <? radix then Some d else None
  | None => None
  end.

(** The digits of the longest prefix of [s] in the given radix. *)
Fixpoint digitsPrefix (radix : Z) (s : string) : list Z :=
  match s with
  | String c rest =>
      match digitValue radix c with
      | Some d => d :: digitsPrefix radix rest
      | None => []
      end
  | EmptyString => []
  end.

Definition digitsToInt (radix : Z) (ds : list Z) : Z :=
  fold_left (fun acc d => acc * radix + d) ds 0.

Definition parseInt (input : string) : option Z :=
  let s := skipWhiteSpace input in
  let '(sign, s) :=
    match s with
    | String "-" rest => (-1, rest)
    | String "+" rest => (1, rest)
    | _ => (1, s)
    end in
  let '(radix, s) :=
    match s with
    | String "0" (String "x" rest) => (16, rest)
    | String "0" (String "X" rest) => (16, rest)
    | _ => (10, s)
    end in
  match digitsPrefix radix s with
  | [] => None
  | ds => Some (sign * digitsToInt radix ds)
  end.

(** [isNaN(parseInt(s))]. *)
Definition isNaN_parseInt (s : string) : bool :=
  match parseInt s with
  | None => true
  | Some _ => false
  end.

End JS.

(** ** api/CommonTypes.ts: [RawField] *)

Record RawField := mkRawField {
  name : string;
  value : list string;
}.

(** ** api/CommandUtils.ts

    The four text helpers the spec parser imports.  The parser is written
    against this interface. *)

Class CommandUtils := {
  removeLeadingNewline : string -> string;
  splitIntoLines : string -> list string;
  removeIndent : list string -> list string;
  splitIntoSections : string -> list string;
}.

(** ** api/SpecParser.ts *)

Module SpecParser.
Section WithCommandUtils.
Context {CU : CommandUtils}.

Definition parseRawField (value : string) : list string :=
  removeIndent (splitIntoLines (removeLeadingNewline value)).

(** The body of the [map] callback of [parseRawFields]. *)
Definition parseOneField (field : string) : RawField :=
  let colPos := JS.indexOf field ":" in
  let name := JS.slice field 0 (Some colPos) in
  let value := parseRawField (JS.slice field (colPos + 2) None) in
  {| name := name; value := value |}.

Definition parseRawFields (parts : list string) : list RawField :=
  map parseOneField parts.

Definition getBasicField (fields : list RawField) (field : string)
  : option (list string) :=
  option_map value (find (fun i => String.eqb (name i) field) fields).

Definition isField (part : string) : bool :=
  negb (JS.startsWith part "#") && negb (String.eqb part "").

Definition excludeNonFields (parts : list string) : list string :=
  List.filter isField parts.

Definition parseSpecOutput (value : string) : list RawField :=
  parseRawFields (excludeNonFields (splitIntoSections value)).

End WithCommandUtils.
End SpecParser.

(** ** A model of api/CommandUtils.ts *)

Module CommandUtilsModel.

Definition LF : ascii := "010"%char.
Definition TAB : ascii := "009"%char.
Definition NL : string := String LF "".

(** Modelled from the spec: [removeLeadingNewline] of api/CommandUtils.ts
    is not among the sources; "a leading newline removed" is read as
    dropping one line feed at the start of the text. *)
Definition removeLeadingNewline (s : string) : string :=
  match s with
  | String c rest => if Ascii.eqb c LF then rest else s
  | EmptyString => s
  end.

(** Modelled from the spec: [splitIntoLines] of api/CommandUtils.ts is not
    among the sources; "split into lines" is read as cutting the text at
    every line feed, as [String.prototype.split] does. *)
Fixpoint splitIntoLines (s : string) : list string :=
  match s with
  | EmptyString => [""]
  | String c rest =>
      if Ascii.eqb c LF then "" :: splitIntoLines rest
      else match splitIntoLines rest with
           | l :: ls => String c l :: ls
           | [] => [String c ""]
           end
  end.

Definition removeIndentLine (line : string) : string :=
  match line with
  | String c rest => if Ascii.eqb c TAB then rest else line
  | EmptyString => line
  end.

(** Modelled from the spec: [removeIndent] of api/CommandUtils.ts is not
    among the sources; "trimming indentation per field" is read as
    dropping the tab that indents each line of a field's value. *)
Definition removeIndent (lines : list string) : list string :=
  map removeIndentLine lines.

(** Modelled from the spec: [splitIntoSections] of api/CommandUtils.ts is
    not among the sources; the sections of a spec are the blocks of text
    that an empty line separates. *)
Fixpoint splitIntoSections (s : string) : list string :=
  match s with
  | EmptyString => [""]
  | String c rest =>
      let continue_ :=
        match splitIntoSections rest with
        | l :: ls => String c l :: ls
        | [] => [String c ""]
        end in
      if Ascii.eqb c LF then
        match rest with
        | String c' rest' =>
            if Ascii.eqb c' LF then "" :: splitIntoSections rest'
            else continue_
        | EmptyString => continue_
        end
      else continue_
  end.

Definition model : CommandUtils :=
  Build_CommandUtils
    removeLeadingNewline splitIntoLines removeIndent splitIntoSections.

End CommandUtilsModel.

(** ** Values of the editor and of the command-line wrapper

    The records below list the fields the translated code reads; their
    declarations (vscode, api/PerforceApi.ts, api/CommonTypes.ts) are not
    among the sources. *)

(** [vscode.Uri]. *)
Record Uri := mkUri {
  scheme : string;
  authority : string;
  path : string;
  query : string;
  fragment : string;
}.

(** A [Date], as its time value in milliseconds. *)
Definition Date := Z.

(** [Intl.DateTimeFormatOptions]; an absent member is [None]. *)
Record DateTimeFormatOptions := {
  weekday : option string;
  year : option string;
  month : option string;
  day : option string;
  hour : option string;
  minute : option string;
}.

(** What the translated code uses of the editor and of node: the configured
    display language, the locale-sensitive date formatting of the engine,
    [Date.prototype.toString], [Uri.toString], the strict [Uri.parse] ([None]
    when it throws) and [path.basename]. *)
Class Vscode := {
  language : string;
  toLocaleString : Date -> string -> DateTimeFormatOptions -> string;
  dateToString : Date -> string;
  uriToString : Uri -> string;
  uriParseStrict : string -> option Uri;
  basename : string -> string;
}.

(** PerforceUri.ts, as far as the translated code calls it. *)
Class PerforceUri := {
  getRevOrAtLabel : Uri -> option string;
  fromUriWithRevision : Uri -> string -> Uri;
  fromDepotPath : Uri -> string -> string -> Uri;
  getUsableWorkspace : Uri -> option Uri;
  fsPathWithoutRev : Uri -> string;
}.

Inductive Direction := TO | FROM.

Definition Direction_eqb (a b : Direction) : bool :=
  match a, b with
  | TO, TO | FROM, FROM => true
  | _, _ => false
  end.

Module Integration.
Record t := {
  file : string;
  startRev : option string;
  endRev : string;
  operation : string;
  direction : Direction;
}.
End Integration.

(** One revision of a file's history.  [oid] stands for the identity of the
    object, which [===] and [!==] compare. *)
Module FileLogItem.
Record t := {
  oid : nat;
  file : string;
  description : string;
  revision : string;
  chnum : string;
  operation : string;
  date : option Date;
  user : string;
  integrations : list Integration.t;
}.
End FileLogItem.

Module HaveFile.
Record t := {
  depotPath : string;
  revision : string;
  depotUri : Uri;
  localUri : Uri;
}.
End HaveFile.

Module DepotFileOperation.
Record t := {
  depotPath : string;
  revision : string;
  operation : string;
}.
End DepotFileOperation.

Module FixedJob.
Record t := {
  id : string;
  description : list string;
}.
End FixedJob.

Module ChangeInfo.
Record t := {
  chnum : string;
  description : list string;
  date : option Date;
  user : string;
  client : string;
  isPending : bool;
}.
End ChangeInfo.

Module DescribedChangelist.
Record t := {
  chnum : string;
  description : list string;
  date : option Date;
  user : string;
  client : string;
  isPending : bool;
  affectedFiles : list DepotFileOperation.t;
  shelvedFiles : list DepotFileOperation.t;
  fixedJobs : list FixedJob.t;
}.

(** A described changelist seen as the [ChangeInfo] it extends. *)
Definition asChangeInfo (d : t) : ChangeInfo.t := {|
  ChangeInfo.chnum := chnum d;
  ChangeInfo.description := description d;
  ChangeInfo.date := date d;
  ChangeInfo.user := user d;
  ChangeInfo.client := client d;
  ChangeInfo.isPending := isPending d;
|}.
End DescribedChangelist.

Module DescribeOptions.
Record t := {
  chnums : list string;
  omitDiffs : option bool;
  shelved : option bool;
}.
End DescribeOptions.

(** ** Promises: state and exceptions

    A computation runs on a state made of the world the command-line client
    queries and of the trace of what the extension did to the outside; it
    returns a value or throws. *)

Inductive JsError :=
| Error (message : string)
| TypeError (message : string).

Inductive Outcome (A : Type) :=
| Ok (a : A)
| Throw (e : JsError).

Arguments Ok {A} a.
Arguments Throw {A} e.

Inductive Event :=
| CliHave (resource : Uri) (file : Uri)
| CliGetFileHistory (resource : Uri) (file : Uri) (followBranches : option bool)
| CliDescribe (resource : Uri) (options : DescribeOptions.t)
| CliGetChangelists (resource : Uri)
| ShowMessage (message : string)
| ShowError (message : string)
| ShowImportantError (message : string)
| DidChange (item : nat)
| Reveal (item : nat)
| Disposed (item : nat).

(** [nextOid] is the allocator of object identities: the objects made so
    far have the identities below it. *)
Record State (W : Type) := mkState {
  world : W;
  trace : list Event;
  nextOid : nat;
}.

Arguments mkState {W}.
Arguments world {W}.
Arguments trace {W}.
Arguments nextOid {W}.

Definition M (W A : Type) : Type := State W -> Outcome A * State W.

Definition ret {W A} (a : A) : M W A := fun st => (Ok a, st).

Definition throw {W A} (e : JsError) : M W A := fun st => (Throw e, st).

Definition bind {W A B} (m : M W A) (k : A -> M W B) : M W B :=
  fun st =>
    match m st with
    | (Ok a, st') => k a st'
    | (Throw e, st') => (Throw e, st')
    end.

Definition emit {W} (e : Event) : M W unit :=
  fun st => (Ok tt, mkState (world st) (trace st ++ [e]) (nextOid st)).

(** The identity of a new object. *)
Definition fresh {W} : M W nat :=
  fun st => (Ok (nextOid st), mkState (world st) (trace st) (S (nextOid st))).

(** A call of the command-line client: the call is recorded, the world
    answers and moves on. *)
Definition cli {W A} (e : Event) (answer : W -> Outcome A * W) : M W A :=
  fun st =>
    let '(r, w) := answer (world st) in
    (r, mkState w (trace st ++ [e]) (nextOid st)).

Declare Scope js_scope.
Delimit Scope js_scope with js.
Notation "'let*' x := m 'in' k" := (bind m (fun x => k))
  (at level 10, x name, m at level 100, k at level 200) : js_scope.
Notation "m ;; k" := (bind m (fun _ => k))
  (at level 100, k at level 200, right associativity) : js_scope.

(** [o.member] on a value that may be [undefined]. *)
Definition member {A} (what : string) (o : option A) : Outcome A :=
  match o with
  | Some a => Ok a
  | None =>
      Throw (TypeError
        ("Cannot read property '" ++ what ++ "' of undefined")%string)
  end.

Definition lift {W A} (o : Outcome A) : M W A := fun st => (o, st).

(** [a[i]] for an integer [i]: [undefined] outside [0 .. a.length - 1]. *)
Definition at_ {A} (a : list A) (i : Z) : option A :=
  if i <? 0 then None else a !! Z.to_nat i.

(** [a.findIndex(p)]. *)
Fixpoint findIndex {A} (p : A -> bool) (a : list A) : Z :=
  match a with
  | [] => -1
  | x :: rest =>
      if p x then 0
      else let r := findIndex p rest in
           if r <? 0 then -1 else r + 1
  end.

(** The command-line wrapper api/PerforceApi.ts: each call answers from the
    world it is asked in, or fails. *)
Class PerforceApi (W : Type) := {
  answerHave : Uri -> Uri -> W -> Outcome (option HaveFile.t) * W;
  answerGetFileHistory :
    Uri -> Uri -> option bool -> W -> Outcome (list FileLogItem.t) * W;
  answerDescribe :
    Uri -> DescribeOptions.t -> W -> Outcome (list DescribedChangelist.t) * W;
}.

Module Display.
Definition showMessage {W} (message : string) : M W unit :=
  emit (ShowMessage message).
Definition showError {W} (message : string) : M W unit :=
  emit (ShowError message).
Definition showImportantError {W} (message : string) : M W unit :=
  emit (ShowImportantError message).
End Display.

Module p4.
Section WithApi.
Context {W : Type} {API : PerforceApi W}.

Definition have (resource : Uri) (file : Uri) : M W (option HaveFile.t) :=
  cli (CliHave resource file) (answerHave resource file).

Definition getFileHistory (resource : Uri) (file : Uri)
    (followBranches : option bool) : M W (list FileLogItem.t) :=
  cli (CliGetFileHistory resource file followBranches)
      (answerGetFileHistory resource file followBranches).

Definition describe (resource : Uri) (options : DescribeOptions.t)
    : M W (list DescribedChangelist.t) :=
  cli (CliDescribe resource options) (answerDescribe resource options).

End WithApi.
End p4.

(** ** DateFormatter.ts *)

Module DateFormatter.
Section WithVscode.
Context {VS : Vscode}.

Definition toReadableDateTime (date : option Date) : string :=
  match date with
  | None => "???"
  | Some date =>
      let dateOptions := {|
        weekday := Some "long";
        year := Some "numeric";
        month := Some "long";
        day := Some "numeric";
        hour := Some "numeric";
        minute := Some "numeric";
      |} in
      toLocaleString date language dateOptions
  end.

Definition toReadableDate (date : option Date) : string :=
  match date with
  | None => "???"
  | Some date =>
      let dateOptions := {|
        weekday := Some "long";
        year := Some "numeric";
        month := Some "long";
        day := Some "numeric";
        hour := None;
        minute := None;
      |} in
      toLocaleString date language dateOptions
  end.

End WithVscode.
End DateFormatter.

(** ** quickPick/QuickPickProvider.ts

    A pick is a label, a description, a detail and what choosing it does.
    The closure [performAction] is represented by the call it makes, with
    the values it closes over. *)

Module qp.

Record CachedOutput := {
  filelog : option (list FileLogItem.t);
  haveFile : option HaveFile.t;
}.

Inductive Action :=
| ShowQuickPickForFile (uri : Uri) (cached : option CachedOutput)
| ShowRevChooserForFile (uri : Uri) (cached : option CachedOutput)
| ShowIntegPickForFile (uri : Uri)
| ShowDiffChooserForFile (uri : Uri)
| ShowTextDocument (uri : Uri)
| Annotate (uri : Uri)
| DiffPreviousIgnoringLeftInfo (uri : Uri)
| DiffFiles (left right : Uri)
| SyncThenShowMessage (uri : Uri) (files : list string) (message : string)
| ShowQuickPickForChangelist (uri : Uri) (chnum : string)
| FocusChangelist (resource : Uri) (change : DescribedChangelist.t)
| OpenExternal (uri : Uri)
| EditSpec (uri : Uri) (chnum : string)
| ShowUnshelveQuickPick (uri : Uri) (chnum : string)
| UnshelveViaBranchMapping (uri : Uri) (chnum : string)
| ShowQuickPickForShelvedFile
    (uri : Uri) (file : DepotFileOperation.t) (change : DescribedChangelist.t)
| ShowQuickPickForJob (uri : Uri) (id : string)
| WriteClipboard (text : string).

Record ActionableQuickPickItem := {
  label : string;
  description : option string;
  detail : option string;
  performAction : option Action;
}.

Record ActionableQuickPick := {
  items : list ActionableQuickPickItem;
  excludeFromHistory : option bool;
  placeHolder : string;
  recentKey : option string;
}.

End qp.

(** What the translated code calls of quickPick/QuickPickProvider.ts and of
    DiffProvider.ts, ConfigService.ts. *)
Class Collaborators := {
  asUri : Uri + string -> Uri;
  makeClipPick : string -> string -> qp.ActionableQuickPickItem;
  diffTitleForDepotPaths : string -> string -> string -> string -> string;
  getSwarmLink : string -> option string;
}.

(** [[...].filter(isTruthy)] on an array of picks, some [undefined]. *)
Definition filterTruthy {A} (a : list (option A)) : list A :=
  omap id a.

Definition nbsp : string := String (ascii_of_nat 160) "".

Fixpoint repeat_ (s : string) (n : nat) : string :=
  match n with
  | O => ""
  | S n' => s ++ repeat_ s n'
  end.

(** ** quickPick/FileQuickPick.ts *)

Module FileQuickPick.

(** The source declares [current: p4.FileLogItem]; it is filled with
    [filelog[currentIndex]], which is [undefined] when no entry matches, so
    the field is an option here. *)
Record ChangeDetails := {
  all : list FileLogItem.t;
  current : option FileLogItem.t;
  currentIndex : Z;
  next : option FileLogItem.t;
  prev : option FileLogItem.t;
  latest : FileLogItem.t;
  haveFile : option HaveFile.t;
}.

Definition makeCache (details : ChangeDetails) : qp.CachedOutput := {|
  qp.filelog := Some (all details);
  qp.haveFile := haveFile details;
|}.

Section WithHost.
Context {VS : Vscode} {PU : PerforceUri} {CO : Collaborators}.

(** [makeRevisionSummary(changes.current)]: reading a member of an
    [undefined] revision throws. *)
Definition makeRevisionSummary (change : option FileLogItem.t)
    : Outcome string :=
  match member "file" change with
  | Throw e => Throw e
  | Ok change =>
      Ok (FileLogItem.file change ++ "#" ++ FileLogItem.revision change ++
          " " ++ FileLogItem.operation change ++ " on " ++
          DateFormatter.toReadableDateTime (FileLogItem.date change) ++
          " by " ++ FileLogItem.user change ++ " : " ++
          FileLogItem.description change)%string
  end.

Definition makeShortSummary (change : FileLogItem.t) : string :=
  ("#" ++ FileLogItem.revision change ++
   match FileLogItem.date change with
   | Some d => "  $(calendar) " ++ dateToString d
   | None => ""
   end ++
   " $(person) " ++ FileLogItem.user change ++
   " $(circle-filled) " ++
   JS.slice (FileLogItem.description change) 0 (Some 32))%string.

(** The revision [getChangeDetails] works with: the one of the URI when it
    parses as a number, else the one of the have record. *)
Definition useRev (uri : Uri) (haveFile : option HaveFile.t)
    : option string :=
  let uriRev := getRevOrAtLabel uri in
  if negb (JS.truthy uriRev)
     || match uriRev with
        | Some r => JS.isNaN_parseInt r
        | None => true
        end
  then option_map HaveFile.revision haveFile
  else uriRev.

Definition revisionIs (rev : option string) (c : FileLogItem.t) : bool :=
  match rev with
  | Some r => String.eqb (FileLogItem.revision c) r
  | None => false
  end.

Section WithApi.
Context {W : Type} {API : PerforceApi W}.
Local Open Scope js_scope.

(** [cached?.haveFile ?? (await p4.have(uri, { file: uri }))]. *)
Definition fetchHave (uri : Uri) (cached : option qp.CachedOutput)
    : M W (option HaveFile.t) :=
  match cached ≫= qp.haveFile with
  | Some h => ret (Some h)
  | None => p4.have uri uri
  end.

(** [cached?.filelog ?? (await p4.getFileHistory(uri, ...))]. *)
Definition fetchFilelog (uri : Uri) (cached : option qp.CachedOutput)
    (followBranches : option bool) : M W (list FileLogItem.t) :=
  match cached ≫= qp.filelog with
  | Some l => ret l
  | None =>
      let arg := fromUriWithRevision uri "" in
      p4.getFileHistory uri arg followBranches
  end.

(** The test [filelog.length === 0] and the later [filelog[0]] are the two
    branches of the [match] on the history. *)
Definition getChangeDetails (uri : Uri) (cached : option qp.CachedOutput)
    (followBranches : option bool) : M W ChangeDetails :=
  let* haveFile := fetchHave uri cached in
  let useRev := useRev uri haveFile in
  if negb (JS.truthy useRev) then
    Display.showError "Unable to get file details without a revision" ;;
    throw (Error ("No revision available for " ++ uriToString uri)%string)
  else
    let* filelog := fetchFilelog uri cached followBranches in
    match filelog with
    | [] =>
        Display.showImportantError "No file history found" ;;
        throw (Error "Filelog info empty")
    | latest :: _ =>
        let currentIndex := findIndex (revisionIs useRev) filelog in
        let current := at_ filelog currentIndex in
        let next := at_ filelog (currentIndex - 1) in
        let prev := at_ filelog (currentIndex + 1) in
        ret {| all := filelog; current := current;
               currentIndex := currentIndex; next := next; prev := prev;
               latest := latest; haveFile := haveFile |}
    end.

End WithApi.

Definition pick (label : string) (description : option string)
    (performAction : option qp.Action) : qp.ActionableQuickPickItem := {|
  qp.label := label;
  qp.description := description;
  qp.detail := None;
  qp.performAction := performAction;
|}.

(** [PerforceUri.fromDepotPath(PerforceUri.getUsableWorkspace(uri) ?? uri,
    file, revision)]. *)
Definition depotUri (uri : Uri) (file revision : string) : Uri :=
  fromDepotPath (default uri (getUsableWorkspace uri)) file revision.

(** The five builders below read members of [changes.current] while they
    build their picks; they throw when it is [undefined]. *)
Definition makeNextAndPrevPicks (uri : Uri) (changes : ChangeDetails)
    : Outcome (list qp.ActionableQuickPickItem) :=
  let prev := prev changes in
  let next := next changes in
  match member "integrations" (current changes) with
  | Throw e => Throw e
  | Ok cur =>
      let integFrom :=
        find (fun i => Direction_eqb (Integration.direction i) FROM)
             (FileLogItem.integrations cur) in
      Ok (filterTruthy [
        Some match prev with
             | Some prev =>
                 pick "$(arrow-small-left) Previous revision"
                   (Some (makeShortSummary prev))
                   (Some (qp.ShowQuickPickForFile
                      (depotUri uri (FileLogItem.file prev)
                                (FileLogItem.revision prev))
                      (Some (makeCache changes))))
             | None =>
                 pick "$(arrow-small-left) Previous revision" (Some "n/a") None
             end;
        Some match next with
             | Some next =>
                 pick "$(arrow-small-right) Next revision"
                   (Some (makeShortSummary next))
                   (Some (qp.ShowQuickPickForFile
                      (depotUri uri (FileLogItem.file next)
                                (FileLogItem.revision next))
                      (Some (makeCache changes))))
             | None =>
                 pick "$(arrow-small-right) Next revision" (Some "n/a") None
             end;
        Some (pick "$(symbol-numeric) File history..."
                (Some "Go to a specific revision")
                (Some (qp.ShowRevChooserForFile uri
                         (Some (makeCache changes)))));
        match integFrom with
        | Some integFrom =>
            Some (pick "$(git-merge) Go to integration source revision"
                    (Some (Integration.operation integFrom ++ " from " ++
                           Integration.file integFrom ++ "#" ++
                           Integration.endRev integFrom)%string)
                    (Some (qp.ShowQuickPickForFile
                       (depotUri uri (Integration.file integFrom)
                                 (Integration.endRev integFrom))
                       None)))
        | None => None
        end;
        Some (pick "$(source-control) Go to integration target..."
                (Some "See integrations that include this revision")
                (Some (qp.ShowIntegPickForFile uri)))
      ])
  end.

Definition makeClipboardPicks (_uri : Uri) (changes : ChangeDetails)
    : Outcome (list qp.ActionableQuickPickItem) :=
  match member "file" (current changes) with
  | Throw e => Throw e
  | Ok cur =>
      Ok [ makeClipPick "depot path"
             (FileLogItem.file cur ++ "#" ++ FileLogItem.revision cur)%string ]
  end.

Definition makeSyncPicks (uri : Uri) (change : ChangeDetails)
    : Outcome (list qp.ActionableQuickPickItem) :=
  match member "file" (current change) with
  | Throw e => Throw e
  | Ok cur =>
      Ok [ pick "$(repo-pull) Sync this revision"
             (Some ("Sync " ++ basename (FileLogItem.file cur) ++ "#" ++
                    FileLogItem.revision cur)%string)
             (Some (qp.SyncThenShowMessage uri
                      [(FileLogItem.file cur ++ "#" ++
                        FileLogItem.revision cur)%string]
                      "File synced")) ]
  end.

Definition makeDiffPicks (uri : Uri) (changes : ChangeDetails)
    : Outcome (list qp.ActionableQuickPickItem) :=
  let prev := prev changes in
  let latest := latest changes in
  let have := haveFile changes in
  match member "file" (current changes) with
  | Throw e => Throw e
  | Ok cur =>
      let currentUri :=
        depotUri uri (FileLogItem.file cur) (FileLogItem.revision cur) in
      Ok (filterTruthy [
        Some (pick "$(file) Show this revision"
                (Some "Open this revision in the editor")
                (Some (qp.ShowTextDocument uri)));
        match have with
        | Some have =>
            Some (pick "$(file) Open workspace file"
                    (Some "Open the local file in the editor")
                    (Some (qp.ShowTextDocument (HaveFile.localUri have))))
        | None => None
        end;
        Some (pick "$(list-ordered) Annotate this revision"
                (Some "Open in the editor, with change details for each line")
                (Some (qp.Annotate uri)));
        match prev with
        | Some prev =>
            Some (pick "$(diff) Diff against previous revision"
                    (Some (diffTitleForDepotPaths
                             (FileLogItem.file prev)
                             (FileLogItem.revision prev)
                             (FileLogItem.file cur)
                             (FileLogItem.revision cur)))
                    (Some (qp.DiffPreviousIgnoringLeftInfo uri)))
        | None => None
        end;
        if negb (Nat.eqb (FileLogItem.oid latest) (FileLogItem.oid cur))
        then
          Some (pick "$(diff) Diff against latest revision"
                  (Some (diffTitleForDepotPaths
                           (FileLogItem.file cur)
                           (FileLogItem.revision cur)
                           (FileLogItem.file latest)
                           (FileLogItem.revision latest)))
                  (Some (qp.DiffFiles currentUri
                           (depotUri uri (FileLogItem.file latest)
                                     (FileLogItem.revision latest)))))
        else None;
        Some (pick "$(diff) Diff against workspace file"
                (Some match have with
                      | Some _ => ""
                      | None => "No matching workspace file found"
                      end)
                match have with
                | Some have =>
                    Some (qp.DiffFiles currentUri (HaveFile.localUri have))
                | None => None
                end);
        Some (pick "$(diff) Diff against..."
                (Some "Choose another revision to diff against")
                (Some (qp.ShowDiffChooserForFile uri)))
      ])
  end.

Definition makeChangelistPicks (uri : Uri) (changes : ChangeDetails)
    : Outcome (list qp.ActionableQuickPickItem) :=
  match member "chnum" (current changes) with
  | Throw e => Throw e
  | Ok cur =>
      Ok [ pick "$(list-flat) Go to changelist details"
             (Some ("Change " ++ FileLogItem.chnum cur ++ nbsp ++
                    " $(book) " ++ nbsp ++
                    FileLogItem.description cur)%string)
             (Some (qp.ShowQuickPickForChangelist uri
                      (FileLogItem.chnum cur))) ]
  end.

Section WithApi.
Context {W : Type} {API : PerforceApi W}.
Local Open Scope js_scope.

(** [fileQuickPickProvider.provideActions]. *)
Definition provideActions (uriOrStr : Uri + string)
    (cached : option qp.CachedOutput) : M W qp.ActionableQuickPick :=
  let uri := asUri uriOrStr in
  let* changes := getChangeDetails uri cached None in
  let* nextAndPrev := lift (makeNextAndPrevPicks uri changes) in
  let* clipboard := lift (makeClipboardPicks uri changes) in
  let* sync := lift (makeSyncPicks uri changes) in
  let* diff := lift (makeDiffPicks uri changes) in
  let* changelist := lift (makeChangelistPicks uri changes) in
  let actions :=
    (nextAndPrev ++ clipboard ++ sync ++ diff ++ changelist)%list in
  let* placeHolder := lift (makeRevisionSummary (current changes)) in
  ret {| qp.items := actions;
         qp.excludeFromHistory := None;
         qp.placeHolder := placeHolder;
         qp.recentKey := Some ("file:" ++ fsPathWithoutRev uri)%string |}.

End WithApi.
End WithHost.
End FileQuickPick.

(** ** quickPick/ChangeQuickPick.ts *)

Module ChangeQuickPick.
Section WithHost.
Context {VS : Vscode} {PU : PerforceUri} {CO : Collaborators}.

Definition labelOnly (label : string) : qp.ActionableQuickPickItem := {|
  qp.label := label;
  qp.description := None;
  qp.detail := None;
  qp.performAction := None;
|}.

Definition getOperationIcon (operation : string) : string :=
  if String.eqb operation "add" then "diff-added"
  else if String.eqb operation "delete"
          || String.eqb operation "move/delete"
          || String.eqb operation "purge" then "diff-removed"
  else if String.eqb operation "move/add"
          || String.eqb operation "integrate"
          || String.eqb operation "branch" then "diff-renamed"
  else "diff-modified".

Definition makeFocusPick (resource : Uri) (change : DescribedChangelist.t)
    : list qp.ActionableQuickPickItem :=
  [ FileQuickPick.pick "$(multiple-windows) Focus in changelist search view"
      None (Some (qp.FocusChangelist resource change)) ].

Definition makeSwarmPick {W} (change : DescribedChangelist.t)
    : M W (list qp.ActionableQuickPickItem) :=
  match getSwarmLink (DescribedChangelist.chnum change) with
  | None => ret []
  | Some swarmAddr =>
      if String.eqb swarmAddr "" then ret []
      else
        match uriParseStrict swarmAddr with
        | Some uri =>
            ret [ FileQuickPick.pick "$(eye) Open in review tool"
                    (Some ("$(link-external) " ++ uriToString uri)%string)
                    (Some (qp.OpenExternal uri)) ]
        | None =>
            bind
              (Display.showImportantError
                 ("Could not parse swarm link " ++ swarmAddr ++
                  " - make sure you have included the protocol, e.g. https://")%string)
              (fun _ => ret [])
        end
  end.

Definition makeEditPicks (uri : Uri) (change : DescribedChangelist.t)
    : list qp.ActionableQuickPickItem :=
  [ FileQuickPick.pick "$(edit) Edit changelist"
      (Some "Edit the full changelist spec in the editor")
      (Some (qp.EditSpec uri (DescribedChangelist.chnum change))) ].

Definition makeClipboardPicks (_uri : Uri) (change : DescribedChangelist.t)
    : list qp.ActionableQuickPickItem :=
  [ makeClipPick "change number" (DescribedChangelist.chnum change);
    makeClipPick "user" (DescribedChangelist.user change);
    makeClipPick "change description"
      (JS.join CommandUtilsModel.NL (DescribedChangelist.description change)) ].

Definition filePickLabel (file : DepotFileOperation.t) : string :=
  (repeat_ nbsp 3 ++ "$(" ++
   getOperationIcon (DepotFileOperation.operation file) ++ ")" ++ " " ++
   DepotFileOperation.depotPath file ++ "#" ++
   DepotFileOperation.revision file)%string.

Definition makeFilePicks (uri : Uri) (change : DescribedChangelist.t)
    : list qp.ActionableQuickPickItem :=
  [ labelOnly ("Changed files: " ++
               JS.ofNat (length (DescribedChangelist.affectedFiles change))) ]
  ++ map (fun file =>
            FileQuickPick.pick (filePickLabel file)
              (Some (DepotFileOperation.operation file))
              (Some (qp.ShowQuickPickForFile
                       (FileQuickPick.depotUri uri
                          (DepotFileOperation.depotPath file)
                          (DepotFileOperation.revision file))
                       None)))
         (DescribedChangelist.affectedFiles change).

Definition makeUnshelvePicks (uri : Uri)
    (change : option DescribedChangelist.t)
    : list qp.ActionableQuickPickItem :=
  match change with
  | None => []
  | Some change =>
      if (length (DescribedChangelist.shelvedFiles change) <? 1)%nat then []
      else
        [ FileQuickPick.pick "$(cloud-download) Unshelve changelist..."
            (Some "Unshelve into a selected changelist")
            (Some (qp.ShowUnshelveQuickPick uri
                     (DescribedChangelist.chnum change)));
          FileQuickPick.pick "$(cloud-download) Unshelve via branch mapping..."
            (Some "Unshelve, mapping through a branch spec")
            (Some (qp.UnshelveViaBranchMapping uri
                     (DescribedChangelist.chnum change))) ]
  end.

Definition makeShelvedFilePicks (uri : Uri)
    (change : option DescribedChangelist.t)
    : list qp.ActionableQuickPickItem :=
  match change with
  | None => []
  | Some change =>
      if (length (DescribedChangelist.shelvedFiles change) <? 1)%nat then []
      else
        [ labelOnly ("Shelved files: " ++
                     JS.ofNat (length (DescribedChangelist.shelvedFiles change))) ]
        ++ map (fun file =>
                  FileQuickPick.pick (filePickLabel file)
                    (Some (DepotFileOperation.operation file))
                    (Some (qp.ShowQuickPickForShelvedFile
                             (default uri (getUsableWorkspace uri))
                             file change)))
               (DescribedChangelist.shelvedFiles change)
  end.

Definition makeJobPicks (uri : Uri) (change : DescribedChangelist.t)
    : list qp.ActionableQuickPickItem :=
  [ labelOnly ("Jobs fixed: " ++
               JS.ofNat (length (DescribedChangelist.fixedJobs change))) ]
  ++ map (fun job =>
            FileQuickPick.pick
              (repeat_ nbsp 3 ++ "$(tools) " ++ FixedJob.id job)%string
              (Some (JS.join " " (FixedJob.description job)))
              (Some (qp.ShowQuickPickForJob uri (FixedJob.id job))))
         (DescribedChangelist.fixedJobs change).

Section WithApi.
Context {W : Type} {API : PerforceApi W}.
Local Open Scope js_scope.

(** The second [describe] of [provideActions]: the shelved files of the
    change, asked for a pending change only. *)
Definition fetchShelved (resource : Uri) (chnum : string)
    (change : DescribedChangelist.t) : M W (list DescribedChangelist.t) :=
  if DescribedChangelist.isPending change then
    p4.describe resource {|
      DescribeOptions.chnums := [chnum];
      DescribeOptions.omitDiffs := Some true;
      DescribeOptions.shelved := Some true;
    |}
  else ret [].

(** [changeQuickPickProvider.provideActions]. *)
Definition provideActions (resourceOrStr : Uri + string) (chnum : string)
    : M W qp.ActionableQuickPick :=
  let resource := asUri resourceOrStr in
  let* changes := p4.describe resource {|
      DescribeOptions.chnums := [chnum];
      DescribeOptions.omitDiffs := Some true;
      DescribeOptions.shelved := None;
    |} in
  match changes with
  | [] =>
      Display.showImportantError "Unable to find change details" ;;
      throw (Error "Unable to find change details")
  | change :: _ =>
      let* shelvedChanges := fetchShelved resource chnum change in
      let shelvedChange := head shelvedChanges in
      let* swarm := makeSwarmPick change in
      let actions :=
        (makeFocusPick resource change ++
         swarm ++
         makeClipboardPicks resource change ++
         makeEditPicks resource change ++
         makeUnshelvePicks resource shelvedChange ++
         makeJobPicks resource change ++
         makeFilePicks resource change ++
         makeShelvedFilePicks resource shelvedChange)%list in
      ret {| qp.items := actions;
             qp.excludeFromHistory := None;
             qp.placeHolder :=
               ((if DescribedChangelist.isPending change
                 then "Pending" else "Submitted") ++
                " change " ++ chnum ++ " by " ++
                DescribedChangelist.user change ++ " on " ++
                DateFormatter.toReadableDateTime
                  (DescribedChangelist.date change) ++
                " : " ++
                JS.join " " (DescribedChangelist.description change))%string;
             qp.recentKey := None |}
  end.

End WithApi.
End WithHost.
End ChangeQuickPick.

(** ** TsUtils.ts *)

Module TsUtils.

(** The items whose key is not in [seen] and not the key of an earlier
    item. *)
Fixpoint dedupeFrom {A} (key : A -> string) (seen : gset string)
    (items : list A) : list A :=
  match items with
  | [] => []
  | x :: rest =>
      if decide (key x ∈ seen) then dedupeFrom key seen rest
      else x :: dedupeFrom key ({[key x]} ∪ seen) rest
  end.

(** Modelled from the spec: [dedupe] of TsUtils.ts is not among the sources;
    "duplicate changelists returned by the CLI are removed by dedupe on the
    chnum key" is read as keeping, in order, the first item of every key. *)
Definition dedupe {A} (items : list A) (key : A -> string) : list A :=
  dedupeFrom key ∅ items.

End TsUtils.

(** ** TreeView.ts

    The base class of the tree items owns the list of the children of an
    item.  The operations below act on that list. *)

Module TreeView.
Section WithWorld.
Context {W : Type}.

Fixpoint mapM {A B} (f : A -> M W B) (l : list A) : M W (list B) :=
  match l with
  | [] => ret []
  | x :: rest =>
      bind (f x) (fun y => bind (mapM f rest) (fun ys => ret (y :: ys)))
  end.

(** Modelled from the spec: [addChild] of TreeView.ts is not among the
    sources; an item "owning child node lists" gets the new child at the end
    of its list. *)
Definition addChild {A} (children : list A) (child : A) : list A :=
  children ++ [child].

(** Modelled from the spec: [insertChild] of TreeView.ts is not among the
    sources; it is read as putting the new child at the head of the list. *)
Definition insertChild {A} (children : list A) (child : A) : list A :=
  child :: children.

(** Modelled from the spec: [clearChildren] of TreeView.ts is not among the
    sources; the "lifecycle tied to expand/refresh/dispose events" is read
    as disposing of every child and leaving the list empty. *)
Definition clearChildren {A} (oid : A -> nat) (children : list A)
    : M W (list A) :=
  bind (mapM (fun c => emit (Disposed (oid c))) children) (fun _ => ret []).

(** Modelled from the spec: [dispose] of TreeView.ts is not among the
    sources; disposing of the children that satisfy [p] is read as taking
    them off the list of their parent. *)
Definition disposeWhere {A} (oid : A -> nat) (p : A -> bool)
    (children : list A) : M W (list A) :=
  bind (mapM (fun c => emit (Disposed (oid c))) (List.filter p children))
       (fun _ => ret (List.filter (fun c => negb (p c)) children)).

Definition didChange (oid : nat) : M W unit := emit (DidChange oid).

Definition reveal (oid : nat) : M W unit := emit (Reveal oid).

End WithWorld.
End TreeView.

(** search/Filters.ts, ConfigService.ts and the changelist query of
    api/PerforceApi.ts, as far as the search tree calls them. *)
Class SearchApi (W : Type) := {
  Filters : Type;
  makeFilterLabelText : Filters -> nat -> string;
  changelistSearchMaxResults : Z;
  answerGetChangelists :
    Uri -> Filters -> Z -> W -> Outcome (list ChangeInfo.t) * W;
}.

(** ** search/ChangelistTreeView.ts *)

Module ChangelistTreeView.

Inductive TreeItemCollapsibleState := NoneState | Collapsed | Expanded.

Definition isExpanded (s : TreeItemCollapsibleState) : bool :=
  match s with
  | Expanded => true
  | _ => false
  end.

Module SearchResultShelvedFile.
Record t := {
  oid : nat;
  _resource : Uri;
  _file : DepotFileOperation.t;
  _chnum : string;
  label : string;
  description : string;
}.
End SearchResultShelvedFile.

Module SearchResultShelvedSubTree.
Record t := {
  oid : nat;
  label : string;
  collapsibleState : TreeItemCollapsibleState;
  children : list SearchResultShelvedFile.t;
}.
End SearchResultShelvedSubTree.

Module SearchResultFile.
Record t := {
  oid : nat;
  _resource : Uri;
  _file : DepotFileOperation.t;
  _change : DescribedChangelist.t;
  label : string;
  description : string;
}.
End SearchResultFile.

(** A child of a search result: an affected file or the group of the
    shelved files. *)
Inductive ItemChild :=
| FileChild (f : SearchResultFile.t)
| ShelvedChild (s : SearchResultShelvedSubTree.t).

Definition childOid (c : ItemChild) : nat :=
  match c with
  | FileChild f => SearchResultFile.oid f
  | ShelvedChild s => SearchResultShelvedSubTree.oid s
  end.

Definition labelText (c : ItemChild) : string :=
  match c with
  | FileChild f => SearchResultFile.label f
  | ShelvedChild s => SearchResultShelvedSubTree.label s
  end.

Module SearchResultItem.
Record t := {
  oid : nat;
  _resource : Uri;
  _change : ChangeInfo.t;
  label : string;
  description : string;
  tooltip : string;
  collapsibleState : TreeItemCollapsibleState;
  children : list ItemChild;
}.

Definition chnum (i : t) : string := ChangeInfo.chnum (_change i).
End SearchResultItem.

(** The two concrete classes of result trees. *)
Inductive Kind {W} {SA : SearchApi W} :=
| SingleChange (_result : DescribedChangelist.t)
| MultiSearch (_filters : Filters).

Module SearchResultTree.
Record t {W} {SA : SearchApi W} := {
  oid : nat;
  kind : Kind;
  _resource : Uri;
  _isPinned : bool;
  _results : list ChangeInfo.t;
  label : string;
  collapsibleState : TreeItemCollapsibleState;
  contextValue : string;
  children : list SearchResultItem.t;
}.
End SearchResultTree.

Section WithApi.
Context {W : Type} {API : PerforceApi W} {SA : SearchApi W}.
Local Open Scope js_scope.

Definition newSearchResultShelvedFile (resource : Uri)
    (file : DepotFileOperation.t) (chnum : string)
    : M W SearchResultShelvedFile.t :=
  let* oid := fresh in
  ret {| SearchResultShelvedFile.oid := oid;
         SearchResultShelvedFile._resource := resource;
         SearchResultShelvedFile._file := file;
         SearchResultShelvedFile._chnum := chnum;
         SearchResultShelvedFile.label :=
           (DepotFileOperation.depotPath file ++ "#" ++
            DepotFileOperation.revision file)%string;
         SearchResultShelvedFile.description :=
           DepotFileOperation.operation file |}.

Definition newSearchResultShelvedSubTree (resource : Uri)
    (change : DescribedChangelist.t) : M W SearchResultShelvedSubTree.t :=
  let* oid := fresh in
  let* files :=
    TreeView.mapM
      (fun file =>
         newSearchResultShelvedFile resource file
           (DescribedChangelist.chnum change))
      (DescribedChangelist.shelvedFiles change) in
  ret {| SearchResultShelvedSubTree.oid := oid;
         SearchResultShelvedSubTree.label :=
           ("Shelved Files (" ++
            JS.ofNat (length (DescribedChangelist.shelvedFiles change)) ++
            ")")%string;
         SearchResultShelvedSubTree.collapsibleState := Collapsed;
         SearchResultShelvedSubTree.children :=
           fold_left TreeView.addChild files [] |}.

Definition newSearchResultFile (resource : Uri) (file : DepotFileOperation.t)
    (change : DescribedChangelist.t) : M W SearchResultFile.t :=
  let* oid := fresh in
  ret {| SearchResultFile.oid := oid;
         SearchResultFile._resource := resource;
         SearchResultFile._file := file;
         SearchResultFile._change := change;
         SearchResultFile.label :=
           (DepotFileOperation.depotPath file ++ "#" ++
            DepotFileOperation.revision file)%string;
         SearchResultFile.description := DepotFileOperation.operation file |}.

Definition newSearchResultItem (resource : Uri) (change : ChangeInfo.t)
    : M W SearchResultItem.t :=
  let* oid := fresh in
  ret {| SearchResultItem.oid := oid;
         SearchResultItem._resource := resource;
         SearchResultItem._change := change;
         SearchResultItem.label :=
           (ChangeInfo.chnum change ++ ": " ++
            JS.slice (JS.join " " (ChangeInfo.description change))
                     0 (Some 32))%string;
         SearchResultItem.description := ChangeInfo.user change;
         SearchResultItem.tooltip :=
           JS.join " " (ChangeInfo.description change);
         SearchResultItem.collapsibleState := NoneState;
         SearchResultItem.children := [] |}.

(** [SearchResultItem.addDetails]. *)
Definition addDetails (detail : DescribedChangelist.t)
    (this : SearchResultItem.t) : M W SearchResultItem.t :=
  let* cleared :=
    TreeView.clearChildren childOid (SearchResultItem.children this) in
  let* files :=
    TreeView.mapM
      (fun file =>
         newSearchResultFile (SearchResultItem._resource this) file detail)
      (DescribedChangelist.affectedFiles detail) in
  let children :=
    fold_left TreeView.addChild (map FileChild files) cleared in
  let curState := SearchResultItem.collapsibleState this in
  ret {| SearchResultItem.oid := SearchResultItem.oid this;
         SearchResultItem._resource := SearchResultItem._resource this;
         SearchResultItem._change := SearchResultItem._change this;
         SearchResultItem.label := SearchResultItem.label this;
         SearchResultItem.description := SearchResultItem.description this;
         SearchResultItem.tooltip := SearchResultItem.tooltip this;
         SearchResultItem.collapsibleState :=
           if isExpanded curState then curState else Collapsed;
         SearchResultItem.children := children |}.

(** [SearchResultItem.addShelvedFiles]. *)
Definition addShelvedFiles (detail : DescribedChangelist.t)
    (this : SearchResultItem.t) : M W SearchResultItem.t :=
  let* kept :=
    TreeView.disposeWhere childOid
      (fun child => JS.startsWith (labelText child) "Shelved Files")
      (SearchResultItem.children this) in
  let* children :=
    if (0 <? length (DescribedChangelist.shelvedFiles detail))%nat then
      let* group :=
        newSearchResultShelvedSubTree (SearchResultItem._resource this)
          detail in
      ret (TreeView.insertChild kept (ShelvedChild group))
    else ret kept in
  ret {| SearchResultItem.oid := SearchResultItem.oid this;
         SearchResultItem._resource := SearchResultItem._resource this;
         SearchResultItem._change := SearchResultItem._change this;
         SearchResultItem.label := SearchResultItem.label this;
         SearchResultItem.description := SearchResultItem.description this;
         SearchResultItem.tooltip := SearchResultItem.tooltip this;
         SearchResultItem.collapsibleState :=
           SearchResultItem.collapsibleState this;
         SearchResultItem.children := children |}.

(** [curChildren.find((c) => c.chnum === d.chnum)] followed by the call of
    [update] on the child found, if any: the first child of that changelist
    is updated where it stands. *)
Fixpoint updateFound (chnum : string)
    (update : SearchResultItem.t -> M W SearchResultItem.t)
    (curChildren : list SearchResultItem.t) : M W (list SearchResultItem.t) :=
  match curChildren with
  | [] => ret []
  | c :: rest =>
      if String.eqb (SearchResultItem.chnum c) chnum then
        let* c' := update c in ret (c' :: rest)
      else
        let* rest' := updateFound chnum update rest in ret (c :: rest')
  end.

(** [descriptions.forEach((d) => { ...; child?.update(d) })]. *)
Fixpoint forEachDescription
    (update : DescribedChangelist.t ->
              SearchResultItem.t -> M W SearchResultItem.t)
    (descriptions : list DescribedChangelist.t)
    (curChildren : list SearchResultItem.t) : M W (list SearchResultItem.t) :=
  match descriptions with
  | [] => ret curChildren
  | d :: rest =>
      let* children :=
        updateFound (DescribedChangelist.chnum d) (update d) curChildren in
      forEachDescription update rest children
  end.

Definition withChildren (this : SearchResultTree.t)
    (children : list SearchResultItem.t) : SearchResultTree.t :=
  {| SearchResultTree.oid := SearchResultTree.oid this;
     SearchResultTree.kind := SearchResultTree.kind this;
     SearchResultTree._resource := SearchResultTree._resource this;
     SearchResultTree._isPinned := SearchResultTree._isPinned this;
     SearchResultTree._results := SearchResultTree._results this;
     SearchResultTree.label := SearchResultTree.label this;
     SearchResultTree.collapsibleState :=
       SearchResultTree.collapsibleState this;
     SearchResultTree.contextValue := SearchResultTree.contextValue this;
     SearchResultTree.children := children |}.

(** An [async] method called without [await] runs up to its first [await]:
    the request goes out, and the rest of the method runs when the answer is
    there.  Each such method is a [..._request] and a [..._resume]. *)

(** [populateShelvedFiles] up to its [await]. *)
Definition populateShelvedFiles_request (this : SearchResultTree.t)
    : M W unit :=
  let couldHaveShelved :=
    map ChangeInfo.chnum
      (List.filter ChangeInfo.isPending (SearchResultTree._results this)) in
  if (length couldHaveShelved <? 1)%nat then ret tt
  else
    emit (CliDescribe (SearchResultTree._resource this) {|
      DescribeOptions.chnums := couldHaveShelved;
      DescribeOptions.omitDiffs := Some true;
      DescribeOptions.shelved := Some true;
    |}).

(** [populateShelvedFiles] from its [await] on. *)
Definition populateShelvedFiles_resume
    (shelvedDescriptions : list DescribedChangelist.t)
    (this : SearchResultTree.t) : M W SearchResultTree.t :=
  let curChildren := SearchResultTree.children this in
  let* children :=
    forEachDescription addShelvedFiles shelvedDescriptions curChildren in
  TreeView.didChange (SearchResultTree.oid this) ;;
  ret (withChildren this children).

(** [populateChangeDetails] up to its [await]. *)
Definition populateChangeDetails_request (this : SearchResultTree.t)
    : M W unit :=
  if (length (SearchResultTree._results this) <? 1)%nat then ret tt
  else
    let allChanges :=
      map ChangeInfo.chnum (SearchResultTree._results this) in
    emit (CliDescribe (SearchResultTree._resource this) {|
      DescribeOptions.chnums := allChanges;
      DescribeOptions.omitDiffs := Some true;
      DescribeOptions.shelved := None;
    |}).

(** [populateChangeDetails] from its [await] on. *)
Definition populateChangeDetails_resume
    (descriptions : list DescribedChangelist.t)
    (this : SearchResultTree.t) : M W SearchResultTree.t :=
  let curChildren := SearchResultTree.children this in
  let* children :=
    forEachDescription addDetails descriptions curChildren in
  TreeView.didChange (SearchResultTree.oid this) ;;
  let this := withChildren this children in
  populateShelvedFiles_request this ;;
  ret this.

(** The constructor of [SearchResultTree]. *)
Definition newSearchResultTree (kind : Kind) (_resource : Uri)
    (results : list ChangeInfo.t) (label : string)
    : M W SearchResultTree.t :=
  let* oid := fresh in
  let _results := TsUtils.dedupe results ChangeInfo.chnum in
  let* children := TreeView.mapM (newSearchResultItem _resource) _results in
  let this := {|
    SearchResultTree.oid := oid;
    SearchResultTree.kind := kind;
    SearchResultTree._resource := _resource;
    SearchResultTree._isPinned := false;
    SearchResultTree._results := _results;
    SearchResultTree.label := label;
    SearchResultTree.collapsibleState := Expanded;
    SearchResultTree.contextValue := "results-unpinned";
    SearchResultTree.children := fold_left TreeView.addChild children [];
  |} in
  populateChangeDetails_request this ;;
  ret this.

Definition setPinned (pinned : bool) (this : SearchResultTree.t)
    : M W SearchResultTree.t :=
  TreeView.didChange (SearchResultTree.oid this) ;;
  ret {| SearchResultTree.oid := SearchResultTree.oid this;
         SearchResultTree.kind := SearchResultTree.kind this;
         SearchResultTree._resource := SearchResultTree._resource this;
         SearchResultTree._isPinned := pinned;
         SearchResultTree._results := SearchResultTree._results this;
         SearchResultTree.label := SearchResultTree.label this;
         SearchResultTree.collapsibleState :=
           SearchResultTree.collapsibleState this;
         SearchResultTree.contextValue := SearchResultTree.contextValue this;
         SearchResultTree.children := SearchResultTree.children this |}.

Definition pin : SearchResultTree.t -> M W SearchResultTree.t :=
  setPinned true.

Definition unpin : SearchResultTree.t -> M W SearchResultTree.t :=
  setPinned false.

(** The constructor of [SingleChangeResultTree]. *)
Definition newSingleChangeResultTree (resource : Uri)
    (_result : DescribedChangelist.t) : M W SearchResultTree.t :=
  let* this :=
    newSearchResultTree (SingleChange _result) resource
      [DescribedChangelist.asChangeInfo _result]
      ("Focused changelist " ++ DescribedChangelist.chnum _result)%string in
  pin this.

(** The constructor of [MultiSearchResultTree]. *)
Definition newMultiSearchResultTree (resource : Uri) (_filters : Filters)
    (results : list ChangeInfo.t) : M W SearchResultTree.t :=
  newSearchResultTree (MultiSearch _filters) resource results
    (makeFilterLabelText _filters (length results)).

(** [getNewResults] of the two classes. *)
Definition getNewResults (this : SearchResultTree.t)
    : M W (list ChangeInfo.t) :=
  match SearchResultTree.kind this with
  | SingleChange _result =>
      let* described :=
        p4.describe (SearchResultTree._resource this) {|
          DescribeOptions.chnums := [DescribedChangelist.chnum _result];
          DescribeOptions.omitDiffs := Some true;
          DescribeOptions.shelved := None;
        |} in
      ret (map DescribedChangelist.asChangeInfo described)
  | MultiSearch _filters =>
      cli (CliGetChangelists (SearchResultTree._resource this))
          (answerGetChangelists (SearchResultTree._resource this) _filters
             changelistSearchMaxResults)
  end.

(** [SearchResultTree.refresh] from its [await] on: what it does with the
    results the command-line client answered. *)
Definition refresh_resume (newResults : list ChangeInfo.t)
    (this : SearchResultTree.t) : M W SearchResultTree.t :=
  let _results := TsUtils.dedupe newResults ChangeInfo.chnum in
  let* cleared :=
    TreeView.clearChildren SearchResultItem.oid
      (SearchResultTree.children this) in
  let* children :=
    TreeView.mapM (newSearchResultItem (SearchResultTree._resource this))
      _results in
  let this := {|
    SearchResultTree.oid := SearchResultTree.oid this;
    SearchResultTree.kind := SearchResultTree.kind this;
    SearchResultTree._resource := SearchResultTree._resource this;
    SearchResultTree._isPinned := SearchResultTree._isPinned this;
    SearchResultTree._results := _results;
    SearchResultTree.label := SearchResultTree.label this;
    SearchResultTree.collapsibleState :=
      SearchResultTree.collapsibleState this;
    SearchResultTree.contextValue := SearchResultTree.contextValue this;
    SearchResultTree.children := fold_left TreeView.addChild children cleared;
  |} in
  TreeView.reveal (SearchResultTree.oid this) ;;
  populateChangeDetails_request this ;;
  ret this.

(** [SearchResultTree.refresh], awaited. *)
Definition refresh (this : SearchResultTree.t) : M W SearchResultTree.t :=
  let* newResults := getNewResults this in
  refresh_resume newResults this.

(** The life of a result tree: it is constructed, and then refreshed,
    pinned, unpinned, and completed by the answers to its detached requests,
    in any order and with any answer; meanwhile the rest of the extension
    runs, which moves the world, the trace and the allocator on. *)
Inductive reachable : SearchResultTree.t -> State W -> Prop :=
| reach_single resource _result st this st' :
    newSingleChangeResultTree resource _result st = (Ok this, st') ->
    reachable this st'
| reach_multi resource _filters results st this st' :
    newMultiSearchResultTree resource _filters results st = (Ok this, st') ->
    reachable this st'
| reach_refresh newResults this st this' st' :
    reachable this st ->
    refresh_resume newResults this st = (Ok this', st') ->
    reachable this' st'
| reach_details descriptions this st this' st' :
    reachable this st ->
    populateChangeDetails_resume descriptions this st = (Ok this', st') ->
    reachable this' st'
| reach_shelved shelvedDescriptions this st this' st' :
    reachable this st ->
    populateShelvedFiles_resume shelvedDescriptions this st = (Ok this', st') ->
    reachable this' st'
| reach_pin pinned this st this' st' :
    reachable this st ->
    setPinned pinned this st = (Ok this', st') ->
    reachable this' st'
| reach_elsewhere this st st' :
    reachable this st ->
    (nextOid st <= nextOid st')%nat ->
    reachable this st'.

End WithApi.
End ChangelistTreeView.

(** ** quickPick/FileQuickPick.ts: the revision choosers *)

(** [qp.toRevString] of quickPick/QuickPickProvider.ts, which prints a range
    of revisions. *)
Class RevStrings := {
  toRevString : option string -> string -> string;
}.

Module FileRevisionPicks.

(** What a pick of the choosers does: one of the actions of the other
    quick picks, or a chooser opened again with other options. *)
Inductive ChooserAction :=
| Plain (action : qp.Action)
| ShowRevChooserWithIntegrations
    (uri : Uri) (includeIntegrations includeIntegrationTargets
     includeNewerRevisions : bool) (cached : option qp.CachedOutput)
| ShowDiffChooserWithOptions (uri : Uri) (includeNewerRevisions : bool).

Record ChooserItem := {
  label : string;
  description : option string;
  detail : option string;
  performAction : option ChooserAction;
}.

Record Chooser := {
  items : list ChooserItem;
  excludeFromHistory : option bool;
  placeHolder : string;
}.

(** [a.slice(start)] on an array. *)
Definition arraySlice {A} (a : list A) (start : Z) : list A :=
  drop (Z.to_nat (JS.relIndex (Z.of_nat (length a)) start)) a.

(** [change === changes.current]. *)
Definition isCurrent (changes : FileQuickPick.ChangeDetails)
    (change : FileLogItem.t) : bool :=
  match FileQuickPick.current changes with
  | Some cur => Nat.eqb (FileLogItem.oid change) (FileLogItem.oid cur)
  | None => false
  end.

(** The revisions a chooser shows: all of them, or the ones from the first
    entry of the changelist of the current revision on.  The callback of
    [findIndex] reads [changes.current.chnum], once the history has an entry
    to call it on. *)
Definition ageFiltered (changes : FileQuickPick.ChangeDetails)
    (includeNewerRevisions : bool) : Outcome (list FileLogItem.t) :=
  if includeNewerRevisions then Ok (FileQuickPick.all changes)
  else
    match FileQuickPick.all changes with
    | [] => Ok (arraySlice (FileQuickPick.all changes) (-1))
    | _ :: _ =>
        match member "chnum" (FileQuickPick.current changes) with
        | Throw e => Throw e
        | Ok cur =>
            Ok (arraySlice (FileQuickPick.all changes)
                  (findIndex
                     (fun c => String.eqb (FileLogItem.chnum c)
                                          (FileLogItem.chnum cur))
                     (FileQuickPick.all changes)))
        end
    end.

Section WithHost.
Context {VS : Vscode} {PU : PerforceUri} {CO : Collaborators} {RS : RevStrings}.

Definition isDirection (d : Direction) (i : Integration.t) : bool :=
  Direction_eqb (Integration.direction i) d.

(** The picks of one revision in [makeAllRevisionPicks]: the revision, the
    integrations into other files, the integrations from other files. *)
Definition revisionPicks (uri : Uri) (changes : FileQuickPick.ChangeDetails)
    (includeIntegrations includeIntegrationTargets : bool)
    (change : FileLogItem.t) : list ChooserItem :=
  let icon :=
    if isCurrent changes change then "$(location)"
    else "$(debug-stackframe-dot)" in
  let fromRevs :=
    if includeIntegrations
    then List.filter (isDirection FROM) (FileLogItem.integrations change)
    else [] in
  let toRevs :=
    if includeIntegrationTargets
    then List.filter (isDirection TO) (FileLogItem.integrations change)
    else [] in
  let revPick := {|
    label := (icon ++ " #" ++ FileLogItem.revision change)%string;
    description := Some (FileLogItem.description change);
    detail :=
      Some (repeat_ nbsp 10 ++ FileLogItem.operation change ++
            " $(person) " ++ FileLogItem.user change ++ nbsp ++
            " $(calendar) " ++ nbsp ++
            DateFormatter.toReadableDateTime (FileLogItem.date change))%string;
    performAction :=
      Some (Plain (qp.ShowQuickPickForFile
              (FileQuickPick.depotUri uri (FileLogItem.file change)
                 (FileLogItem.revision change))
              (Some (FileQuickPick.makeCache changes))));
  |} in
  let fromPicks :=
    map (fun rev => {|
           label :=
             (repeat_ nbsp 10 ++ "$(git-merge) " ++
              Integration.operation rev ++ " from " ++
              Integration.file rev ++ "#" ++
              toRevString (Integration.startRev rev)
                (Integration.endRev rev))%string;
           description := None;
           detail := None;
           performAction :=
             Some (Plain (qp.ShowQuickPickForFile
                     (FileQuickPick.depotUri uri (Integration.file rev)
                        (Integration.endRev rev))
                     None));
         |}) fromRevs in
  let toPicks :=
    map (fun rev => {|
           label :=
             (repeat_ nbsp 10 ++ "$(source-control) " ++
              Integration.operation rev ++ " into " ++
              Integration.file rev ++ "#" ++ Integration.endRev rev)%string;
           description := None;
           detail := None;
           performAction :=
             Some (Plain (qp.ShowQuickPickForFile
                     (FileQuickPick.depotUri uri (Integration.file rev)
                        (Integration.endRev rev))
                     None));
         |}) toRevs in
  revPick :: toPicks ++ fromPicks.

Definition control (label : string) (action : ChooserAction) : ChooserItem := {|
  label := label;
  description := None;
  detail := None;
  performAction := Some action;
|}.

Definition makeAllRevisionPicks (uri : Uri)
    (changes : FileQuickPick.ChangeDetails)
    (includeIntegrations includeIntegrationTargets
     includeNewerRevisions : bool) : Outcome (list ChooserItem) :=
  match ageFiltered changes includeNewerRevisions with
  | Throw e => Throw e
  | Ok ageFiltered =>
      let revPicks :=
        flat_map
          (revisionPicks uri changes includeIntegrations
             includeIntegrationTargets)
          ageFiltered in
      let controls := [
        control
          (if includeIntegrationTargets
           then "$(exclude) Hide integration target files"
           else "$(gear) Show integration target files")
          (ShowRevChooserWithIntegrations uri includeIntegrations
             (negb includeIntegrationTargets) includeNewerRevisions
             (Some (FileQuickPick.makeCache changes)));
        control
          (if includeIntegrations
           then "$(exclude) Hide integration source files"
           else "$(gear) Show integration source files")
          (ShowRevChooserWithIntegrations uri (negb includeIntegrations)
             includeIntegrationTargets includeNewerRevisions
             (Some (FileQuickPick.makeCache changes)));
        control
          (if includeNewerRevisions
           then "$(exclude) Hide newer revisions"
           else "$(gear) Show newer revisions")
          (ShowRevChooserWithIntegrations uri includeIntegrations
             includeIntegrationTargets (negb includeNewerRevisions)
             (Some (FileQuickPick.makeCache changes)))
      ] in
      Ok (controls ++ revPicks)%list
  end.

(** The pick of the revision at position [i] of the shown list in
    [makeDiffRevisionPicks]. *)
Definition diffRevisionPick (uri : Uri)
    (changes : FileQuickPick.ChangeDetails) (cur : FileLogItem.t)
    (currentUri : Uri) (i : nat) (change : FileLogItem.t) : ChooserItem :=
  let prefix :=
    if isCurrent changes change then "$(location) "
    else if String.eqb (FileLogItem.file change) (FileLogItem.file cur)
    then "$(debug-stackframe-dot) "
    else ("$(git-merge) " ++ FileLogItem.file change)%string in
  let isOldRev := FileQuickPick.currentIndex changes <? Z.of_nat i in
  let thisUri :=
    FileQuickPick.depotUri uri (FileLogItem.file change)
      (FileLogItem.revision change) in
  {| label := (prefix ++ "#" ++ FileLogItem.revision change)%string;
     description :=
       Some (FileLogItem.operation change ++ " $(person) " ++
             FileLogItem.user change ++ nbsp ++ " $(book) " ++ nbsp ++
             FileLogItem.description change)%string;
     detail := None;
     performAction :=
       Some (Plain (qp.DiffFiles
               (if isOldRev then thisUri else currentUri)
               (if isOldRev then currentUri else thisUri))) |}.

Definition makeDiffRevisionPicks (uri : Uri)
    (changes : FileQuickPick.ChangeDetails) (includeNewerRevisions : bool)
    : Outcome (list ChooserItem) :=
  match member "file" (FileQuickPick.current changes) with
  | Throw e => Throw e
  | Ok cur =>
      let currentUri :=
        FileQuickPick.depotUri uri (FileLogItem.file cur)
          (FileLogItem.revision cur) in
      let controls := [
        control
          (if includeNewerRevisions
           then "$(exclude) Hide newer revisions"
           else "$(gear) Show newer revisions")
          (ShowDiffChooserWithOptions uri (negb includeNewerRevisions))
      ] in
      match ageFiltered changes includeNewerRevisions with
      | Throw e => Throw e
      | Ok ageFiltered =>
          let revPicks :=
            imap (diffRevisionPick uri changes cur currentUri) ageFiltered in
          Ok (controls ++ revPicks)%list
      end
  end.

Section WithApi.
Context {W : Type} {API : PerforceApi W}.
Local Open Scope js_scope.

(** [fileRevisionQuickPickProvider.provideActions]. *)
Definition provideRevisionActions (uriOrStr : Uri + string)
    (includeIntegrations includeIntegrationTargets
     includeNewerRevisions : bool) (cached : option qp.CachedOutput)
    : M W Chooser :=
  let uri := asUri uriOrStr in
  let* changes := FileQuickPick.getChangeDetails uri cached None in
  let* actions :=
    lift (makeAllRevisionPicks uri changes includeIntegrations
            includeIntegrationTargets includeNewerRevisions) in
  let* cur := lift (member "file" (FileQuickPick.current changes)) in
  ret {| items := actions;
         excludeFromHistory := Some true;
         placeHolder :=
           ("Choose revision for " ++ FileLogItem.file cur ++ "#" ++
            FileLogItem.revision cur)%string |}.

(** [fileDiffQuickPickProvider.provideActions]. *)
Definition provideDiffActions (uriOrStr : Uri + string)
    (includeNewerRevisions : bool) : M W Chooser :=
  let uri := asUri uriOrStr in
  let* changes := FileQuickPick.getChangeDetails uri None (Some true) in
  let* actions :=
    lift (makeDiffRevisionPicks uri changes includeNewerRevisions) in
  let* cur := lift (member "file" (FileQuickPick.current changes)) in
  ret {| items := actions;
         excludeFromHistory := Some true;
         placeHolder :=
           ("Diff revision for " ++ FileLogItem.file cur ++ "#" ++
            FileLogItem.revision cur)%string |}.

End WithApi.
End WithHost.
End FileRevisionPicks.

(** ** search/ChangelistTreeView.ts: the file items and the list of all
    results *)

(** scm/Status.ts, as far as the file items call it. *)
Class StatusApi := {
  Status : Type;
  GetStatus : string -> Status;
  operationCreatesFile : Status -> bool;
  operationDeletesFile : Status -> bool;
}.

Module ResultFiles.
Section WithStatus.
Context {ST : StatusApi}.
Import ChangelistTreeView.

(** [SearchResultShelvedFile.canDiff], [canOpen] and the context value its
    constructor computes. *)
Definition shelvedCanDiff (this : SearchResultShelvedFile.t) : bool :=
  let status :=
    GetStatus (DepotFileOperation.operation
                 (SearchResultShelvedFile._file this)) in
  if operationCreatesFile status then false else true.

Definition shelvedCanOpen (this : SearchResultShelvedFile.t) : bool :=
  let status :=
    GetStatus (DepotFileOperation.operation
                 (SearchResultShelvedFile._file this)) in
  negb (operationDeletesFile status).

Definition shelvedContextValue (this : SearchResultShelvedFile.t) : string :=
  ("fileResult-shelved" ++
   (if shelvedCanDiff this then "-diffable" else "") ++
   (if shelvedCanOpen this then "-openable" else ""))%string.

(** [SearchResultFile.canDiff], [canOpen] and the context value its
    constructor computes. *)
Definition canDiff (this : SearchResultFile.t) : bool :=
  negb (DescribedChangelist.isPending (SearchResultFile._change this)).

Definition canOpen (this : SearchResultFile.t) : bool :=
  if DescribedChangelist.isPending (SearchResultFile._change this) then false
  else
    let status :=
      GetStatus (DepotFileOperation.operation (SearchResultFile._file this)) in
    negb (operationDeletesFile status).

Definition contextValue (this : SearchResultFile.t) : string :=
  ("fileResult" ++
   (if canDiff this then "-diffable" else "") ++
   (if canOpen this then "-openable" else ""))%string.

End WithStatus.
End ResultFiles.

Module AllResultsTree.
Import ChangelistTreeView.

(** The item "Results" and the result trees it owns. *)
Record t {W} {SA : SearchApi W} := {
  oid : nat;
  children : list SearchResultTree.t;
}.

(** [ClientRoot] of extension.ts, as far as the search reads it. *)
Record ClientRoot := {
  configSource : Uri;
  clientName : string;
  userName : string;
}.

Section WithApi.
Context {W : Type} {API : PerforceApi W} {SA : SearchApi W}.
Local Open Scope js_scope.

(** [isPinnable(child) && !child.pinned]: every result tree has [pin] and
    [unpin]. *)
Definition isUnpinned (child : SearchResultTree.t) : bool :=
  negb (SearchResultTree._isPinned child).

Definition removeUnpinned (this : t) : M W t :=
  let* children :=
    TreeView.disposeWhere SearchResultTree.oid isUnpinned (children this) in
  ret {| oid := oid this; children := children |}.

Definition addResults (selectedClient : ClientRoot) (filters : Filters)
    (results : list ChangeInfo.t) (this : t) : M W t :=
  let* this := removeUnpinned this in
  let* child :=
    newMultiSearchResultTree (configSource selectedClient) filters results in
  let this := {| oid := oid this;
                 children := TreeView.addChild (children this) child |} in
  TreeView.didChange (oid this) ;;
  TreeView.reveal (SearchResultTree.oid child) ;;
  ret this.

Definition addSingleResult (resource : Uri) (result : DescribedChangelist.t)
    (this : t) : M W t :=
  let* child := newSingleChangeResultTree resource result in
  let this := {| oid := oid this;
                 children := TreeView.addChild (children this) child |} in
  TreeView.didChange (oid this) ;;
  TreeView.reveal (SearchResultTree.oid child) ;;
  ret this.

(** The function [executeSearch]: the changelists that match the filters,
    at most the configured number of them. *)
Definition executeSearch (resource : Uri) (filters : Filters)
    : M W (list ChangeInfo.t) :=
  let maxChangelists := changelistSearchMaxResults in
  cli (CliGetChangelists resource)
      (answerGetChangelists resource filters maxChangelists).

(** [ChangelistTreeRoot.executeSearch], on the parts of the root it reads
    and writes: the selected client, the current filters, the list of all
    results and the identity of the root. *)
Definition rootExecuteSearch (root : nat) (selectedClient : option ClientRoot)
    (currentFilters : Filters) (_allResults : t) : M W t :=
  match selectedClient with
  | None =>
      Display.showImportantError "Please choose a context before searching" ;;
      throw (Error "No context for changelist search")
  | Some selectedClient =>
      let filters := currentFilters in
      let* results := executeSearch (configSource selectedClient) filters in
      let* _allResults :=
        addResults selectedClient filters results _allResults in
      TreeView.didChange root ;;
      ret _allResults
  end.

(** [ChangelistTreeRoot.focusChangelist], up to the command that gives the
    view the focus. *)
Definition focusChangelist (root : nat) (resource : Uri)
    (described : DescribedChangelist.t) (_allResults : t) : M W t :=
  let* _allResults := addSingleResult resource described _allResults in
  TreeView.didChange root ;;
  ret _allResults.

End WithApi.
End AllResultsTree.
(** * Properties *)

(** ** Strings *)

Section StringFacts.

Lemma take_length_ge (n : nat) (s : string) :
  (String.length s <= n)%nat -> JS.take n s = s.
Proof.
  revert n; induction s as [|c s IH]; intros [|n] H; simpl in *;
    try reflexivity; try lia.
  f_equal. apply IH. lia.
Qed.

Lemma drop_length (n : nat) (s : string) :
  String.length (JS.drop n s) = (String.length s - n)%nat.
Proof.
  revert n; induction s as [|c s IH]; intros [|n]; simpl; try reflexivity.
  apply IH.
Qed.

Lemma drop_length_ge (n : nat) (s : string) :
  (String.length s <= n)%nat -> JS.drop n s = "".
Proof.
  revert n; induction s as [|c s IH]; intros [|n] H; simpl in *;
    try reflexivity; try lia.
  apply IH. lia.
Qed.

(** [s.slice(k)] with [0 <= k] drops the first [k] code units. *)
Lemma slice_from (s : string) (k : Z) :
  0 <= k -> JS.slice s k None = JS.drop (Z.to_nat k) s.
Proof.
  intros Hk. unfold JS.slice, JS.relIndex, JS.len.
  destruct (k <? 0) eqn:E; [lia|].
  destruct (Z.le_gt_cases k (Z.of_nat (String.length s))) as [Hle|Hgt].
  - rewrite Z.min_l by lia. apply take_length_ge.
    rewrite drop_length. lia.
  - rewrite Z.min_r by lia. rewrite Nat2Z.id.
    rewrite (drop_length_ge (String.length s)) by lia.
    rewrite drop_length_ge by lia. now destruct (Z.to_nat _).
Qed.

(** [s.slice(0, k)] with [0 <= k <= s.length] keeps the first [k] code
    units. *)
Lemma slice_to (s : string) (k : Z) :
  0 <= k <= JS.len s -> JS.slice s 0 (Some k) = JS.take (Z.to_nat k) s.
Proof.
  intros Hk. unfold JS.slice, JS.relIndex, JS.len in *. simpl.
  destruct (k <? 0) eqn:E; [lia|].
  rewrite Z.min_l by lia. rewrite Z.min_l by lia. simpl.
  now rewrite Z.sub_0_r, Z.max_l by lia.
Qed.

(** Whatever the end index, a slice from 0 starts with the first code unit
    of the text or is empty. *)
Lemma slice_0_head (s : string) (e : option Z) :
  JS.slice s 0 e = "" \/
  exists c rest rest', s = String c rest /\ JS.slice s 0 e = String c rest'.
Proof.
  unfold JS.slice. replace (JS.relIndex (JS.len s) 0) with 0.
  2:{ unfold JS.relIndex, JS.len. simpl. lia. }
  simpl. destruct (Z.to_nat _) as [|n]; [left; now destruct s|].
  destruct s as [|c rest]; [now left|]. right. simpl. eauto.
Qed.

Lemma indexOf_bounds (s : string) (c : ascii) :
  -1 <= JS.indexOf s c < JS.len s \/ (s = "" /\ JS.indexOf s c = -1).
Proof.
  induction s as [|a s IH]; [now right|]. left.
  unfold JS.len in *. simpl String.length. simpl JS.indexOf.
  destruct (Ascii.eqb a c); [lia|].
  destruct (JS.indexOf s c <? 0) eqn:E; [lia|].
  apply Z.ltb_ge in E. destruct IH as [IH|[-> IH]]; [lia|simpl in *; lia].
Qed.

End StringFacts.

(** ** The spec parser *)

(** The text of a section before its first colon (all of it when it has
    none). *)
Fixpoint beforeFirstColon (s : string) : string :=
  match s with
  | EmptyString => ""
  | String c rest =>
      if Ascii.eqb c ":" then "" else String c (beforeFirstColon rest)
  end.

Definition hasColon (s : string) : Prop := In ":"%char (list_ascii_of_string s).

Section SpecParserFacts.
Context {CU : CommandUtils}.
Import SpecParser.

Lemma indexOf_colon (s : string) :
  hasColon s ->
  JS.indexOf s ":" = Z.of_nat (String.length (beforeFirstColon s)).
Proof.
  unfold hasColon. induction s as [|c s IH]; simpl; [tauto|].
  intros H. destruct (Ascii.eqb c ":") eqn:E; [reflexivity|].
  destruct H as [H|H]; [subst; now rewrite Ascii.eqb_refl in E|].
  rewrite (IH H). simpl String.length.
  destruct (_ <? 0) eqn:E'; lia.
Qed.

Lemma indexOf_no_colon (s : string) :
  ~ hasColon s -> JS.indexOf s ":" = -1.
Proof.
  unfold hasColon. induction s as [|c s IH]; simpl; [reflexivity|].
  intros H. destruct (Ascii.eqb c ":") eqn:E.
  - apply Ascii.eqb_eq in E. tauto.
  - rewrite IH by tauto. reflexivity.
Qed.

Lemma beforeFirstColon_prefix (s : string) :
  JS.take (String.length (beforeFirstColon s)) s = beforeFirstColon s.
Proof.
  induction s as [|c s IH]; simpl; [reflexivity|].
  destruct (Ascii.eqb c ":"); simpl; [reflexivity | now f_equal].
Qed.

Lemma beforeFirstColon_length (s : string) :
  (String.length (beforeFirstColon s) <= String.length s)%nat.
Proof.
  induction s as [|c s IH]; simpl; [lia|].
  destruct (Ascii.eqb c ":"); simpl; lia.
Qed.

(** What the [map] callback of [parseRawFields] makes of a section that
    has a colon. *)
Lemma parseOneField_colon (s : string) :
  hasColon s ->
  name (parseOneField s) = beforeFirstColon s /\
  value (parseOneField s) =
    removeIndent (splitIntoLines (removeLeadingNewline
      (JS.drop (String.length (beforeFirstColon s) + 2) s))).
Proof.
  intros H. unfold parseOneField, parseRawField. simpl.
  rewrite (indexOf_colon s H). split.
  - rewrite slice_to.
    + rewrite Nat2Z.id. apply beforeFirstColon_prefix.
    + pose proof (beforeFirstColon_length s). unfold JS.len. lia.
  - rewrite slice_from by lia.
    do 4 f_equal. lia.
Qed.

Lemma parseOneField_name_no_hash (s : string) :
  JS.startsWith s "#" = false ->
  JS.startsWith (name (parseOneField s)) "#" = false.
Proof.
  intros H. unfold parseOneField. simpl.
  destruct (slice_0_head s (Some (JS.indexOf s ":")))
    as [->|(c & rest & rest' & -> & ->)]; [reflexivity|].
  cbn [JS.startsWith] in *. exact H.
Qed.

(** On a section without a colon [indexOf] answers [-1]: the name is the
    section without its last code unit, and the value is read from its
    second code unit on. *)
Lemma parseOneField_no_colon (s : string) :
  ~ hasColon s ->
  name (parseOneField s) = JS.take (String.length s - 1) s /\
  value (parseOneField s) = parseRawField (JS.drop 1 s).
Proof.
  intros H. unfold parseOneField. cbn [name value].
  rewrite (indexOf_no_colon s H). split.
  - unfold JS.slice, JS.relIndex, JS.len. cbn [Z.ltb Z.compare].
    rewrite Z.min_l by lia. cbn [Z.to_nat JS.drop].
    f_equal. lia.
  - change (-1 + 2) with 1. now rewrite slice_from by lia.
Qed.

Lemma isField_spec (part : string) :
  isField part = true <-> JS.startsWith part "#" = false /\ part <> "".
Proof.
  unfold isField. rewrite andb_true_iff, !negb_true_iff.
  now rewrite String.eqb_neq.
Qed.

End SpecParserFacts.

Section SpecParserClaims.
Context {CU : CommandUtils}.
Import SpecParser.

(** The sections that survive [excludeNonFields]. *)
Definition retainedSections (value : string) : list string :=
  excludeNonFields (splitIntoSections value).

(** The reading of a section as a field: the name is the text before the
    first colon, the value the text from two code units after that colon,
    leading newline removed, split into lines, indentation removed. *)
Definition fieldOfSection (s : string) (f : RawField) : Prop :=
  name f = beforeFirstColon s /\
  value f =
    removeIndent (splitIntoLines (removeLeadingNewline
      (JS.drop (String.length (beforeFirstColon s) + 2) s))).

(** C1 (amended): [parseSpecOutput] returns one field per retained
    section, in order, and for every retained section that contains a
    colon the field's name is the section text before the first colon and
    its value is the section text from two code units after that colon,
    with the leading newline removed, split into lines and the indentation
    removed. *)
Theorem parseSpecOutput_fields (value : string) :
  length (parseSpecOutput value) = length (retainedSections value) /\
  forall (i : nat) (s : string),
    retainedSections value !! i = Some s ->
    exists f, parseSpecOutput value !! i = Some f /\
              (hasColon s -> fieldOfSection s f).
Proof.
  unfold parseSpecOutput, parseRawFields, retainedSections. split.
  - now rewrite length_map.
  - intros i s Hs. exists (parseOneField s). split.
    + change (map parseOneField ?l) with (parseOneField <$> l).
      now rewrite list_lookup_fmap, Hs.
    + intros Hc. now apply parseOneField_colon.
Qed.

(** C8: no field comes from a section that starts with [#] or is empty:
    each field of the result is the reading of a section of the input that
    passed the filter, and its name does not start with [#]. *)
Theorem parseSpecOutput_no_comment_fields (value : string) (f : RawField) :
  In f (parseSpecOutput value) ->
  exists s, In s (splitIntoSections value) /\
            f = parseOneField s /\
            JS.startsWith s "#" = false /\
            s <> "" /\
            JS.startsWith (name f) "#" = false.
Proof.
  unfold parseSpecOutput, parseRawFields, excludeNonFields.
  intros H. apply in_map_iff in H as (s & <- & H).
  apply filter_In in H as [Hin Hf]. apply isField_spec in Hf as [Hh He].
  exists s. repeat split; auto using parseOneField_name_no_hash.
Qed.

(** Sections that start with [#] or are empty never reach the field
    parser. *)
Lemma excludeNonFields_spec (parts : list string) (s : string) :
  In s (excludeNonFields parts) <->
  In s parts /\ JS.startsWith s "#" = false /\ s <> "".
Proof.
  unfold excludeNonFields. now rewrite filter_In, isField_spec.
Qed.

End SpecParserClaims.

(** ** The spec parser over the modelled text helpers *)

Section SpecParserModel.
Import SpecParser.

#[local] Existing Instance CommandUtilsModel.model.

#[local] Abbreviation LF := CommandUtilsModel.LF.
#[local] Abbreviation TAB := CommandUtilsModel.TAB.

#[local] Abbreviation NL := CommandUtilsModel.NL.

Lemma filter_sublist {A} (p : A -> bool) (l : list A) :
  sublist (List.filter p l) l.
Proof.
  induction l as [|x l IH]; simpl; [constructor|].
  destruct (p x); now constructor.
Qed.

Lemma join_cons_head (c : ascii) (l : string) (ls : list string) :
  JS.join NL (String c l :: ls) = String c (JS.join NL (l :: ls)).
Proof. now destruct ls. Qed.

(** Joining the lines of a text with line feeds gives the text back: the
    lines are all there, in their order. *)
Lemma join_splitIntoLines (s : string) :
  JS.join NL (CommandUtilsModel.splitIntoLines s) = s.
Proof.
  induction s as [|c s IH]; [reflexivity|].
  cbn [CommandUtilsModel.splitIntoLines]. destruct (Ascii.eqb c LF) eqn:E.
  - apply Ascii.eqb_eq in E. subst c.
    destruct (CommandUtilsModel.splitIntoLines s) as [|l ls] eqn:El.
    + now destruct s; [|cbn in El; destruct (Ascii.eqb _ _), (CommandUtilsModel.splitIntoLines s)].
    + change (JS.join NL ("" :: l :: ls)) with (NL ++ JS.join NL (l :: ls))%string.
      now rewrite IH.
  - destruct (CommandUtilsModel.splitIntoLines s) as [|l ls] eqn:El.
    + now destruct s; [|cbn in El; destruct (Ascii.eqb _ _), (CommandUtilsModel.splitIntoLines s)].
    + rewrite join_cons_head. now rewrite IH.
Qed.

(** C7: the fields come in the order of their sections in the input (the
    retained sections are a subsequence of the sections of the text, and
    the i-th field is read from the i-th of them), and the value of a field
    holds the lines of its text in their order: joined by line feeds, the
    lines the value was made of give the text of the field back. *)
Theorem parseSpecOutput_order (text : string) :
  sublist (retainedSections text) (splitIntoSections text) /\
  parseSpecOutput text = map parseOneField (retainedSections text) /\
  forall (i : nat) (f : RawField),
    parseSpecOutput text !! i = Some f ->
    exists s lines,
      retainedSections text !! i = Some s /\
      f = parseOneField s /\
      value f = map CommandUtilsModel.removeIndentLine lines /\
      JS.join NL lines =
        removeLeadingNewline (JS.slice s (JS.indexOf s ":" + 2) None).
Proof.
  split; [apply filter_sublist|]. split; [reflexivity|].
  intros i f Hf. unfold parseSpecOutput, parseRawFields in Hf.
  change (map parseOneField ?l) with (parseOneField <$> l) in Hf.
  rewrite list_lookup_fmap in Hf.
  fold (retainedSections text) in Hf.
  destruct (retainedSections text !! i) as [s|] eqn:Hs; [|discriminate].
  injection Hf as <-.
  exists s, (splitIntoLines
               (removeLeadingNewline (JS.slice s (JS.indexOf s ":" + 2) None))).
  repeat split. apply join_splitIntoLines.
Qed.

(** A change specification as the command-line client prints it. *)
Definition sampleSpec : string :=
  ("# A Perforce Change Specification." ++ NL ++ "#" ++ NL ++ NL ++
   "Change:" ++ String TAB "123" ++ NL ++ NL ++
   "Description:" ++ NL ++
   String TAB "line one" ++ NL ++ String TAB "line two" ++ NL ++ NL ++
   "Files:" ++ NL ++ String TAB "//depot/a" ++ NL)%string.

Example parseSpecOutput_sampleSpec :
  parseSpecOutput sampleSpec =
    [ {| name := "Change"; value := ["123"] |};
      {| name := "Description"; value := ["line one"; "line two"] |};
      {| name := "Files"; value := ["//depot/a"; ""] |} ].
Proof. reflexivity. Qed.

Example getBasicField_sampleSpec :
  getBasicField (parseSpecOutput sampleSpec) "Description"
  = Some ["line one"; "line two"].
Proof. reflexivity. Qed.

(** C1 as the specification words it, for every retained section. *)
Definition fieldsAsStated (text : string) : Prop :=
  forall (i : nat) (s : string),
    retainedSections text !! i = Some s ->
    exists f, parseSpecOutput text !! i = Some f /\ fieldOfSection s f.

(** C1 fails on a section without a colon: [indexOf] answers [-1], the
    name loses the last code unit of the section and the value starts at
    its second code unit. *)
Lemma parseSpecOutput_no_colon :
  retainedSections "abc" = ["abc"] /\
  parseSpecOutput "abc" = [ {| name := "ab"; value := ["bc"] |} ] /\
  ~ fieldsAsStated "abc".
Proof.
  split; [reflexivity|]. split; [reflexivity|].
  intros H. destruct (H 0%nat "abc" eq_refl) as (f & Hf & Hn & _).
  injection Hf as <-. discriminate Hn.
Qed.

Lemma parseSpecOutput_fields_witness :
  exists f, parseSpecOutput sampleSpec !! 1%nat = Some f /\
            name f = "Description" /\
            value f = ["line one"; "line two"].
Proof.
  destruct (parseSpecOutput_fields sampleSpec) as [_ H].
  destruct (H 1%nat _ eq_refl) as (f & Hf & Hc).
  exists f. split; [exact Hf|].
  apply Hc. unfold hasColon. vm_compute. tauto.
Defined.

Lemma parseSpecOutput_no_comment_fields_witness :
  exists s, In s (splitIntoSections sampleSpec) /\
            {| name := "Change"; value := ["123"] |} = parseOneField s /\
            JS.startsWith s "#" = false /\
            s <> "" /\
            JS.startsWith "Change" "#" = false.
Proof.
  apply (parseSpecOutput_no_comment_fields sampleSpec
           {| name := "Change"; value := ["123"] |}).
  vm_compute. tauto.
Defined.

Lemma parseSpecOutput_order_witness :
  exists s lines,
    retainedSections sampleSpec !! 2%nat = Some s /\
    {| name := "Files"; value := ["//depot/a"; ""] |} = parseOneField s /\
    ["//depot/a"; ""] = map CommandUtilsModel.removeIndentLine lines /\
    JS.join NL lines =
      removeLeadingNewline (JS.slice s (JS.indexOf s ":" + 2) None).
Proof.
  destruct (parseSpecOutput_order sampleSpec) as (_ & _ & H).
  apply (H 2%nat {| name := "Files"; value := ["//depot/a"; ""] |}).
  reflexivity.
Defined.

End SpecParserModel.

(** ** A scripted world

    Concrete collaborators, for running the providers: a world that holds
    the answers the command-line client gives. *)

Module Scenario.

Record World := {
  haveRecord : option HaveFile.t;
  history : list FileLogItem.t;
  described : list DescribedChangelist.t;
  shelvedDescribed : list DescribedChangelist.t;
  searchResults : list ChangeInfo.t;
}.

#[export] Instance api : PerforceApi World := {|
  answerHave := fun _ _ w => (Ok (haveRecord w), w);
  answerGetFileHistory := fun _ _ _ w => (Ok (history w), w);
  answerDescribe := fun _ options w =>
    (Ok (match DescribeOptions.shelved options with
         | Some true => shelvedDescribed w
         | _ => described w
         end), w);
|}.

#[export] Instance vscode : Vscode := {|
  language := "en";
  toLocaleString := fun d lang options =>
    (lang ++ ":" ++ JS.ofNat (Z.to_nat d) ++
     match hour options with Some _ => " hh:mm" | None => "" end)%string;
  dateToString := fun d => JS.ofNat (Z.to_nat d);
  uriToString := fun u =>
    (scheme u ++ "://" ++ authority u ++ path u ++
     (if String.eqb (fragment u) "" then "" else "#" ++ fragment u))%string;
  uriParseStrict := fun s =>
    if JS.indexOf s ":" <? 1 then None else Some (mkUri s "" "" "" "");
  basename := fun p => p;
|}.

#[export] Instance perforceUri : PerforceUri := {|
  getRevOrAtLabel := fun u =>
    if String.eqb (fragment u) "" then None else Some (fragment u);
  fromUriWithRevision := fun u rev =>
    mkUri (scheme u) (authority u) (path u) (query u) rev;
  fromDepotPath := fun u file rev => mkUri "perforce" (authority u) file "" rev;
  getUsableWorkspace := fun _ => None;
  fsPathWithoutRev := path;
|}.

#[export] Instance collaborators : Collaborators := {|
  asUri := fun x =>
    match x with
    | inl u => u
    | inr s => mkUri "file" "" s "" ""
    end;
  makeClipPick := fun what text =>
    FileQuickPick.pick ("$(clippy) Copy " ++ what ++ " to clipboard")%string
      (Some text) (Some (qp.WriteClipboard text));
  diffTitleForDepotPaths := fun lf lr rf rr =>
    (lf ++ "#" ++ lr ++ " vs " ++ rf ++ "#" ++ rr)%string;
  getSwarmLink := fun _ => None;
|}.

#[export] Instance searchApi : SearchApi World := {|
  Filters := unit;
  makeFilterLabelText := fun _ n => ("Results (" ++ JS.ofNat n ++ ")")%string;
  changelistSearchMaxResults := 200;
  answerGetChangelists := fun _ _ _ w => (Ok (searchResults w), w);
|}.

Definition rev (n : nat) (revision chnum : string) : FileLogItem.t := {|
  FileLogItem.oid := n;
  FileLogItem.file := "//depot/a.txt";
  FileLogItem.description := "edit";
  FileLogItem.revision := revision;
  FileLogItem.chnum := chnum;
  FileLogItem.operation := "edit";
  FileLogItem.date := None;
  FileLogItem.user := "zoe";
  FileLogItem.integrations := [];
|}.

Definition threeRevisions : list FileLogItem.t :=
  [rev 0 "3" "30"; rev 1 "2" "20"; rev 2 "1" "10"].

Definition haveAt (revision : string) : HaveFile.t := {|
  HaveFile.depotPath := "//depot/a.txt";
  HaveFile.revision := revision;
  HaveFile.depotUri := mkUri "perforce" "" "//depot/a.txt" "" revision;
  HaveFile.localUri := mkUri "file" "" "/ws/a.txt" "" "";
|}.

Definition shelvedFile : DepotFileOperation.t := {|
  DepotFileOperation.depotPath := "//depot/a.txt";
  DepotFileOperation.revision := "3";
  DepotFileOperation.operation := "edit";
|}.

Definition change (chnum : string) (pending : bool)
    (shelved : list DepotFileOperation.t) : DescribedChangelist.t := {|
  DescribedChangelist.chnum := chnum;
  DescribedChangelist.description := ["fix"];
  DescribedChangelist.date := None;
  DescribedChangelist.user := "zoe";
  DescribedChangelist.client := "ws";
  DescribedChangelist.isPending := pending;
  DescribedChangelist.affectedFiles := [];
  DescribedChangelist.shelvedFiles := shelved;
  DescribedChangelist.fixedJobs := [];
|}.

Definition aWorld : World := {|
  haveRecord := Some (haveAt "2");
  history := threeRevisions;
  described := [change "40" true []];
  shelvedDescribed := [change "40" true [shelvedFile]];
  searchResults :=
    map DescribedChangelist.asChangeInfo
      [change "20" false []; change "30" true []; change "20" false []];
|}.

Definition start (w : World) : State World := mkState w [] 0.

Definition fileUri (revision : string) : Uri :=
  mkUri "perforce" "" "//depot/a.txt" "" revision.

End Scenario.

(** ** The date formatter *)

Section DateFormatterClaims.
Context {VS : Vscode}.
Import DateFormatter.

(** The date members of the options: a long weekday and month, a numeric
    year and day. *)
Definition dateParts (o : DateTimeFormatOptions) : Prop :=
  weekday o = Some "long" /\ year o = Some "numeric" /\
  month o = Some "long" /\ day o = Some "numeric".

(** C10: both formatters answer ["???"] for an absent date; for a date they
    format it in the display language of the editor, [toReadableDateTime]
    with the date parts, the hour and the minute, [toReadableDate] with the
    date parts only. *)
Theorem toReadable_formats :
  toReadableDateTime None = "???" /\
  toReadableDate None = "???" /\
  forall d : Date,
    (exists o, toReadableDateTime (Some d) = toLocaleString d language o /\
               dateParts o /\
               hour o = Some "numeric" /\ minute o = Some "numeric") /\
    (exists o, toReadableDate (Some d) = toLocaleString d language o /\
               dateParts o /\
               hour o = None /\ minute o = None).
Proof.
  split; [reflexivity|]. split; [reflexivity|].
  intros d. split; eexists; (split; [reflexivity|]); unfold dateParts; cbn; auto.
Qed.

End DateFormatterClaims.

(** ** Computations *)

Section MonadFacts.
Context {W : Type}.

Lemma bind_ok {A B} (m : M W A) (k : A -> M W B) (st st' : State W) (a : A) :
  m st = (Ok a, st') -> bind m k st = k a st'.
Proof. unfold bind. now intros ->. Qed.

Lemma bind_throw {A B} (m : M W A) (k : A -> M W B) (st st' : State W) e :
  m st = (Throw e, st') -> bind m k st = (Throw e, st').
Proof. unfold bind. now intros ->. Qed.

End MonadFacts.

(** ** Arrays *)

Section ArrayFacts.
Context {A : Type}.

Lemma findIndex_bounds (p : A -> bool) (a : list A) :
  -1 <= findIndex p a < Z.of_nat (length a) \/
  (a = [] /\ findIndex p a = -1).
Proof.
  induction a as [|x a IH]; [now right|]. left. cbn [findIndex length].
  destruct (p x); [lia|].
  destruct (findIndex p a <? 0) eqn:E; [lia|].
  apply Z.ltb_ge in E. destruct IH as [IH|[-> IH]]; [lia|cbn in *; lia].
Qed.

(** [findIndex] answers the position of the first element that satisfies
    the predicate. *)
Lemma findIndex_first (p : A -> bool) (a : list A) (x0 : A) :
  x0 ∈ a -> p x0 = true ->
  exists (i : nat) (x : A),
    findIndex p a = Z.of_nat i /\ a !! i = Some x /\ p x = true /\
    forall (j : nat) (y : A), (j < i)%nat -> a !! j = Some y -> p y = false.
Proof.
  induction a as [|x a IH]; intros Hin Hp; [now apply elem_of_nil in Hin|].
  cbn [findIndex]. destruct (p x) eqn:Ex.
  - exists 0%nat, x. repeat split; auto. intros j y Hj. lia.
  - apply elem_of_cons in Hin as [->|Hin]; [congruence|].
    destruct (IH Hin Hp) as (i & y & Hi & Hy & Hpy & Hfirst).
    exists (S i), y. rewrite Hi.
    destruct (Z.ltb_spec (Z.of_nat i) 0); [lia|].
    repeat split; auto; [lia|].
    intros [|j] z Hj Hz; cbn in Hz; [congruence|].
    apply (Hfirst j); [lia | assumption].
Qed.


Lemma at_of_nat (a : list A) (i : nat) : at_ a (Z.of_nat i) = a !! i.
Proof.
  unfold at_. destruct (Z.ltb_spec (Z.of_nat i) 0); [lia|]. now rewrite Nat2Z.id.
Qed.

Lemma at_negative (a : list A) (i : Z) : i < 0 -> at_ a i = None.
Proof. unfold at_. intros H. destruct (Z.ltb_spec i 0); [reflexivity | lia]. Qed.

Lemma at_pred (a : list A) (i : nat) :
  at_ a (Z.of_nat i - 1) =
  match i with
  | O => None
  | S j => a !! j
  end.
Proof.
  destruct i as [|j]; [now apply at_negative|].
  replace (Z.of_nat (S j) - 1) with (Z.of_nat j) by lia. apply at_of_nat.
Qed.

Lemma at_succ (a : list A) (i : nat) : at_ a (Z.of_nat i + 1) = a !! S i.
Proof.
  replace (Z.of_nat i + 1) with (Z.of_nat (S i)) by lia. apply at_of_nat.
Qed.

End ArrayFacts.

(** ** The change details of a file *)

Section ChangeDetailsClaims.
Context {VS : Vscode} {PU : PerforceUri} {CO : Collaborators}.
Context {W : Type} {API : PerforceApi W}.
Import FileQuickPick.




(** The run of [getChangeDetails] once the have record is there and a
    revision is resolved. *)
Lemma getChangeDetails_run (uri : Uri) (cached : option qp.CachedOutput)
    (fb : option bool) (st st1 st2 : State W)
    (h : option HaveFile.t) (latest : FileLogItem.t) (rest : list FileLogItem.t) :
  fetchHave uri cached st = (Ok h, st1) ->
  JS.truthy (useRev uri h) = true ->
  fetchFilelog uri cached fb st1 = (Ok (latest :: rest), st2) ->
  getChangeDetails uri cached fb st =
    (Ok (let fl := latest :: rest in
         let i := findIndex (revisionIs (useRev uri h)) fl in
         {| all := fl; current := at_ fl i; currentIndex := i;
            next := at_ fl (i - 1); prev := at_ fl (i + 1);
            latest := latest; haveFile := h |}), st2).
Proof.
  intros Hh Hrev Hfl. unfold getChangeDetails.
  rewrite (bind_ok _ _ _ _ _ Hh). rewrite Hrev. cbn [negb].
  rewrite (bind_ok _ _ _ _ _ Hfl). reflexivity.
Qed.

(** C2: when the history is fetched and holds an entry of the resolved
    revision, [getChangeDetails] returns details whose [current] is the
    entry of that revision (the first one, should several entries carry
    it; the entry itself when it is the only one), whose [next] is the entry
    just before it in the list and [prev] the entry just after it, each
    undefined at its end of the list, whose [latest] is the first entry and
    whose [all] is the list.  The details are a function of the history
    fetched in this run. *)
Theorem getChangeDetails_pointers (uri : Uri) (cached : option qp.CachedOutput)
    (fb : option bool) (st st1 st2 : State W)
    (h : option HaveFile.t) (fl : list FileLogItem.t) (e0 : FileLogItem.t) :
  fetchHave uri cached st = (Ok h, st1) ->
  JS.truthy (useRev uri h) = true ->
  fetchFilelog uri cached fb st1 = (Ok fl, st2) ->
  e0 ∈ fl ->
  revisionIs (useRev uri h) e0 = true ->
  exists (d : ChangeDetails) (i : nat) (e : FileLogItem.t),
    getChangeDetails uri cached fb st = (Ok d, st2) /\
    fl !! i = Some e /\
    revisionIs (useRev uri h) e = true /\
    (forall (j : nat) (e' : FileLogItem.t),
       (j < i)%nat -> fl !! j = Some e' ->
       revisionIs (useRev uri h) e' = false) /\
    ((forall e', e' ∈ fl -> revisionIs (useRev uri h) e' = true -> e' = e0) ->
     e = e0) /\
    current d = Some e /\
    currentIndex d = Z.of_nat i /\
    next d = match i with O => None | S j => fl !! j end /\
    prev d = fl !! S i /\
    Some (latest d) = head fl /\
    all d = fl /\
    haveFile d = h.
Proof.
  intros Hh Hrev Hfl Hin Hp.
  destruct (findIndex_first _ _ _ Hin Hp) as (i & e & Hi & He & Hpe & Hfirst).
  destruct fl as [|l rest]; [now apply elem_of_nil in Hin|].
  eexists _, i, e. split; [apply (getChangeDetails_run _ _ _ _ _ _ _ _ _ Hh Hrev Hfl)|].
  cbn zeta. cbn [all current currentIndex next prev latest haveFile].
  rewrite Hi, at_of_nat, at_pred, at_succ.
  repeat split; auto.
  intros Huniq. apply Huniq; [|assumption].
  now apply list_elem_of_lookup_2 in He.
Qed.



End ChangeDetailsClaims.

Section ChangeDetailsScenario.
Import Scenario FileQuickPick.

Example getChangeDetails_have_revision :
  exists d st',
    getChangeDetails (fileUri "") None None (start aWorld) = (Ok d, st') /\
    current d = Some (rev 1 "2" "20") /\ currentIndex d = 1 /\
    next d = Some (rev 0 "3" "30") /\ prev d = Some (rev 2 "1" "10") /\
    latest d = rev 0 "3" "30" /\
    trace st' =
      [ CliHave (fileUri "") (fileUri "");
        CliGetFileHistory (fileUri "") (fileUri "") None ].
Proof. do 2 eexists. split; [lazy; reflexivity|]. repeat split. Qed.

Example getChangeDetails_no_revision :
  exists st',
    getChangeDetails (fileUri "head") None None
      (start {| haveRecord := None; history := threeRevisions;
                described := []; shelvedDescribed := [];
                searchResults := [] |})
    = (Throw (Error "No revision available for perforce:////depot/a.txt#head"),
       st') /\
    trace st' =
      [ CliHave (fileUri "head") (fileUri "head");
        ShowError "Unable to get file details without a revision" ].
Proof. eexists. split; [lazy; reflexivity | reflexivity]. Qed.

(** The states of the scripted world after the have record was asked for,
    and after the history was. *)
Definition afterHave (uri : Uri) : State World :=
  mkState aWorld [CliHave uri uri] 0.

Definition afterHistory (uri : Uri) : State World :=
  mkState aWorld
    [CliHave uri uri; CliGetFileHistory uri (fromUriWithRevision uri "") None]
    0.

Lemma getChangeDetails_pointers_witness :
  exists d,
    getChangeDetails (fileUri "") None None (start aWorld)
    = (Ok d, afterHistory (fileUri "")) /\
    current d = Some (rev 1 "2" "20") /\
    next d = Some (rev 0 "3" "30") /\
    prev d = Some (rev 2 "1" "10").
Proof.
  destruct (getChangeDetails_pointers (fileUri "") None None (start aWorld)
              (afterHave (fileUri "")) (afterHistory (fileUri ""))
              (Some (haveAt "2")) threeRevisions (rev 1 "2" "20"))
    as (d & i & e & Hrun & _); [reflexivity .. | | reflexivity |].
  - apply list_elem_of_lookup_2 with 1%nat. reflexivity.
  - exists d. split; [exact Hrun|].
    vm_compute in Hrun. injection Hrun as <-. repeat split.
Defined.


End ChangeDetailsScenario.

(** ** The quick pick of a file *)

Section FileQuickPickClaims.
Context {VS : Vscode} {PU : PerforceUri} {CO : Collaborators}.
Context {W : Type} {API : PerforceApi W}.
Import FileQuickPick.

(** With a current revision the five builders succeed. *)
Lemma builders_current (uri : Uri) (d : ChangeDetails) (c : FileLogItem.t) :
  current d = Some c ->
  exists a1 a2 a3 a4 a5,
    makeNextAndPrevPicks uri d = Ok a1 /\
    makeClipboardPicks uri d = Ok a2 /\
    makeSyncPicks uri d = Ok a3 /\
    makeDiffPicks uri d = Ok a4 /\
    makeChangelistPicks uri d = Ok a5.
Proof.
  intros Hc.
  unfold makeNextAndPrevPicks, makeClipboardPicks, makeSyncPicks,
    makeDiffPicks, makeChangelistPicks.
  rewrite Hc. cbn [member]. do 5 eexists. repeat split.
Qed.

(** When the details have a current revision, the actions of the file quick
    pick are the next/previous picks, the clipboard picks, the sync picks,
    the diff picks and the changelist picks, in this order, and the place
    holder is the summary of the current revision. *)
Lemma provideActions_concat (uriOrStr : Uri + string)
    (cached : option qp.CachedOutput) (st st' : State W)
    (d : ChangeDetails) (c : FileLogItem.t) :
  let uri := asUri uriOrStr in
  getChangeDetails uri cached None st = (Ok d, st') ->
  current d = Some c ->
  exists a1 a2 a3 a4 a5 summary,
    makeNextAndPrevPicks uri d = Ok a1 /\
    makeClipboardPicks uri d = Ok a2 /\
    makeSyncPicks uri d = Ok a3 /\
    makeDiffPicks uri d = Ok a4 /\
    makeChangelistPicks uri d = Ok a5 /\
    makeRevisionSummary (Some c) = Ok summary /\
    provideActions uriOrStr cached st =
      (Ok {| qp.items := a1 ++ a2 ++ a3 ++ a4 ++ a5;
             qp.excludeFromHistory := None;
             qp.placeHolder := summary;
             qp.recentKey := Some ("file:" ++ fsPathWithoutRev uri)%string |},
       st').
Proof.
  intros uri Hd Hc.
  destruct (builders_current uri d c Hc)
    as (a1 & a2 & a3 & a4 & a5 & H1 & H2 & H3 & H4 & H5).
  exists a1, a2, a3, a4, a5. eexists. repeat (split; [eassumption|]).
  split; [reflexivity|].
  unfold provideActions. fold uri.
  rewrite (bind_ok _ _ _ _ _ Hd).
  rewrite H1, H2, H3, H4, H5, Hc. reflexivity.
Qed.

(** When the details have no current revision, the first builder reads a
    member of [undefined] and the provider throws. *)
Lemma provideActions_no_current (uriOrStr : Uri + string)
    (cached : option qp.CachedOutput) (st st' : State W) (d : ChangeDetails) :
  getChangeDetails (asUri uriOrStr) cached None st = (Ok d, st') ->
  current d = None ->
  provideActions uriOrStr cached st =
    (Throw (TypeError "Cannot read property 'integrations' of undefined"), st').
Proof.
  intros Hd Hc. unfold provideActions.
  rewrite (bind_ok _ _ _ _ _ Hd).
  unfold makeNextAndPrevPicks. rewrite Hc. reflexivity.
Qed.

End FileQuickPickClaims.

Section FileQuickPickScenario.
Import Scenario FileQuickPick.

(** C9 at a URI whose revision is not in the history: the change details
    are obtained, with no current revision, and the provider throws where
    the claim has it return the list of actions. *)
Theorem provideActions_unknown_revision :
  (exists d st',
     getChangeDetails (fileUri "7") None None (start aWorld) = (Ok d, st') /\
     all d = threeRevisions /\ current d = None) /\
  fst (provideActions (inl (fileUri "7")) None (start aWorld)) =
    Throw (TypeError "Cannot read property 'integrations' of undefined").
Proof.
  split; [do 2 eexists; split; [lazy; reflexivity|]; split|]; reflexivity.
Qed.

Example provideActions_known_revision :
  exists q st',
    provideActions (inl (fileUri "2")) None (start aWorld) = (Ok q, st') /\
    map qp.label (qp.items q) =
      [ "$(arrow-small-left) Previous revision";
        "$(arrow-small-right) Next revision";
        "$(symbol-numeric) File history...";
        "$(source-control) Go to integration target...";
        "$(clippy) Copy depot path to clipboard";
        "$(repo-pull) Sync this revision";
        "$(file) Show this revision";
        "$(file) Open workspace file";
        "$(list-ordered) Annotate this revision";
        "$(diff) Diff against previous revision";
        "$(diff) Diff against latest revision";
        "$(diff) Diff against workspace file";
        "$(diff) Diff against...";
        "$(list-flat) Go to changelist details" ] /\
    qp.placeHolder q = "//depot/a.txt#2 edit on ??? by zoe : edit".
Proof. do 2 eexists. split; [lazy; reflexivity|]. split; reflexivity. Qed.

End FileQuickPickScenario.

(** ** The quick pick of a changelist *)


Section ChangeQuickPickClaims.
Context {VS : Vscode} {PU : PerforceUri} {CO : Collaborators}.
Context {W : Type} {API : PerforceApi W}.
Import ChangeQuickPick.

Definition describeOptions (chnum : string) : DescribeOptions.t := {|
  DescribeOptions.chnums := [chnum];
  DescribeOptions.omitDiffs := Some true;
  DescribeOptions.shelved := None;
|}.

Definition shelvedOptions (chnum : string) : DescribeOptions.t := {|
  DescribeOptions.chnums := [chnum];
  DescribeOptions.omitDiffs := Some true;
  DescribeOptions.shelved := Some true;
|}.


Lemma describe_trace (resource : Uri) (options : DescribeOptions.t)
    (st st' : State W) (r : Outcome (list DescribedChangelist.t)) :
  p4.describe resource options st = (r, st') ->
  trace st' = (trace st ++ [CliDescribe resource options])%list.
Proof.
  unfold p4.describe, cli. destruct (answerDescribe _ _ _) as [r' w].
  now intros [= _ <-].
Qed.





End ChangeQuickPickClaims.

Section ChangeQuickPickScenario.
Import Scenario ChangeQuickPick.

Example provideActions_pending_change :
  exists q st',
    provideActions (inl (fileUri "")) "40" (start aWorld) = (Ok q, st') /\
    map qp.label (qp.items q) =
      [ "$(multiple-windows) Focus in changelist search view";
        "$(clippy) Copy change number to clipboard";
        "$(clippy) Copy user to clipboard";
        "$(clippy) Copy change description to clipboard";
        "$(edit) Edit changelist";
        "$(cloud-download) Unshelve changelist...";
        "$(cloud-download) Unshelve via branch mapping...";
        "Jobs fixed: 0";
        "Changed files: 0";
        "Shelved files: 1";
        (repeat_ nbsp 3 ++ "$(diff-modified) //depot/a.txt#3")%string ] /\
    qp.placeHolder q = "Pending change 40 by zoe on ??? : fix" /\
    trace st' =
      [ CliDescribe (fileUri "") (describeOptions "40");
        CliDescribe (fileUri "") (shelvedOptions "40") ].
Proof. do 2 eexists. split; [lazy; reflexivity|]. repeat split. Qed.



End ChangeQuickPickScenario.

(** ** Removing duplicates *)

Section DedupeFacts.
Context {A : Type} (key : A -> string).
Import TsUtils.

Lemma dedupeFrom_keys (seen : gset string) (items : list A) (k : string) :
  k ∈ map key (dedupeFrom key seen items) <->
  k ∈ map key items /\ k ∉ seen.
Proof.
  revert seen. induction items as [|x items IH]; intros seen; cbn.
  - rewrite elem_of_nil. tauto.
  - destruct (decide (key x ∈ seen)) as [Hin|Hnin]; cbn.
    + rewrite IH, elem_of_cons. split; [tauto|].
      intros [[->|H] Hk]; tauto.
    + rewrite !elem_of_cons, IH, not_elem_of_union, not_elem_of_singleton.
      split.
      * intros [->|(H1 & H2 & H3)]; tauto.
      * intros [[->|H] Hk]; [tauto|].
        destruct (decide (k = key x)); tauto.
Qed.

Lemma dedupeFrom_NoDup (seen : gset string) (items : list A) :
  NoDup (map key (dedupeFrom key seen items)).
Proof.
  revert seen. induction items as [|x items IH]; intros seen; cbn.
  - constructor.
  - destruct (decide (key x ∈ seen)); [apply IH|]. cbn. constructor; [|apply IH].
    rewrite dedupeFrom_keys, not_elem_of_union, not_elem_of_singleton. tauto.
Qed.

Lemma dedupeFrom_sublist (seen : gset string) (items : list A) :
  sublist (dedupeFrom key seen items) items.
Proof.
  revert seen. induction items as [|x items IH]; intros seen; cbn.
  - constructor.
  - destruct (decide (key x ∈ seen)); now constructor.
Qed.


Lemma dedupe_NoDup (items : list A) : NoDup (map key (dedupe items key)).
Proof. apply dedupeFrom_NoDup. Qed.

Lemma dedupe_sublist (items : list A) : sublist (dedupe items key) items.
Proof. apply dedupeFrom_sublist. Qed.

End DedupeFacts.

(** ** The allocator *)

Section AllocatorFacts.
Context {W : Type}.

(** A computation that leaves the world alone and only makes objects. *)
Definition grows {A} (m : M W A) : Prop :=
  forall st, (nextOid st <= nextOid (snd (m st)))%nat.

Lemma bind_inv {A B} (m : M W A) (k : A -> M W B) st b st' :
  bind m k st = (Ok b, st') ->
  exists a st1, m st = (Ok a, st1) /\ k a st1 = (Ok b, st').
Proof.
  unfold bind. destruct (m st) as [[a|e] st1]; [eauto | discriminate].
Qed.

Lemma grows_ret {A} (a : A) : grows (ret a).
Proof. intros st. cbn. lia. Qed.

Lemma grows_emit (e : Event) : grows (emit e).
Proof. intros st. cbn. lia. Qed.

Lemma grows_fresh : grows fresh.
Proof. intros st. cbn. lia. Qed.

Lemma grows_bind {A B} (m : M W A) (k : A -> M W B) :
  grows m -> (forall a, grows (k a)) -> grows (bind m k).
Proof.
  intros Hm Hk st. unfold bind. specialize (Hm st).
  destruct (m st) as [[a|e] st1]; cbn in *; [|assumption].
  specialize (Hk a st1). lia.
Qed.

Lemma grows_mapM {A B} (f : A -> M W B) (l : list A) :
  (forall x, grows (f x)) -> grows (TreeView.mapM f l).
Proof.
  intros Hf. induction l as [|x l IH]; cbn [TreeView.mapM].
  - apply grows_ret.
  - apply grows_bind; [apply Hf|]. intros y.
    apply grows_bind; [apply IH|]. intros ys. apply grows_ret.
Qed.

Lemma grows_run {A} (m : M W A) st a st' :
  grows m -> m st = (Ok a, st') -> (nextOid st <= nextOid st')%nat.
Proof. intros Hm H. specialize (Hm st). now rewrite H in Hm. Qed.

Lemma addChild_all {A} (children acc : list A) :
  fold_left TreeView.addChild children acc = (acc ++ children)%list.
Proof.
  revert acc. induction children as [|c children IH]; intros acc; cbn.
  - now rewrite app_nil_r.
  - rewrite IH. unfold TreeView.addChild. now rewrite <- app_assoc.
Qed.

Lemma mapM_emit {A} (event : A -> Event) (l : list A) (st : State W) :
  TreeView.mapM (fun c => emit (event c)) l st =
    (Ok (map (fun _ => tt) l),
     mkState (world st) (trace st ++ map event l) (nextOid st)).
Proof.
  revert st. induction l as [|c l IH]; intros [w t n].
  - cbn. now rewrite app_nil_r.
  - cbn [TreeView.mapM map]. unfold bind at 1. cbn [emit world trace nextOid].
    unfold bind at 1. rewrite IH. cbn. now rewrite <- app_assoc.
Qed.

(** Disposing of the children leaves no child, makes no object and tells of
    every child. *)
Lemma clearChildren_run {A} (oid : A -> nat) (children : list A)
    (st : State W) :
  TreeView.clearChildren oid children st =
    (Ok [], mkState (world st)
              (trace st ++ map (fun c => Disposed (oid c)) children)
              (nextOid st)).
Proof.
  unfold TreeView.clearChildren, bind. now rewrite mapM_emit.
Qed.

End AllocatorFacts.

(** ** The search result tree *)

Section TreeFacts.
Context {W : Type} {API : PerforceApi W} {SA : SearchApi W}.
Import ChangelistTreeView.

(** The items made of a list of results: one per result, in order, with the
    next identities of the allocator. *)
Lemma newItems_run (resource : Uri) (results : list ChangeInfo.t)
    (st : State W) :
  exists items,
    TreeView.mapM (newSearchResultItem resource) results st =
      (Ok items,
       mkState (world st) (trace st) (nextOid st + length results)) /\
    map SearchResultItem._change items = results /\
    map SearchResultItem.oid items = seq (nextOid st) (length results).
Proof.
  revert st. induction results as [|r results IH]; intros [w t n].
  - exists []. cbn. now rewrite Nat.add_0_r.
  - destruct (IH (mkState w t (S n))) as (items & Hrun & Hch & Hoid).
    eexists (_ :: items). cbn [TreeView.mapM]. split; [|split].
    + unfold bind at 1. unfold newSearchResultItem at 1.
      unfold bind at 1. cbn [fresh world trace nextOid ret].
      unfold bind at 1. rewrite Hrun. cbn.
      do 2 f_equal. lia.
    + cbn. now rewrite Hch.
    + cbn. now rewrite Hoid.
Qed.

Definition isCliRequest (e : Event) : bool :=
  match e with
  | CliHave _ _ | CliGetFileHistory _ _ _
  | CliDescribe _ _ | CliGetChangelists _ => true
  | _ => false
  end.

(** Fetching the new results is one request to the command-line client; it
    makes no object. *)
Lemma getNewResults_run (this : SearchResultTree.t) (st st1 : State W)
    (r : Outcome (list ChangeInfo.t)) :
  getNewResults this st = (r, st1) ->
  nextOid st1 = nextOid st /\
  exists e, isCliRequest e = true /\ trace st1 = (trace st ++ [e])%list.
Proof.
  unfold getNewResults. destruct (SearchResultTree.kind this).
  - unfold bind, p4.describe, cli.
    destruct (answerDescribe _ _ _) as [[d|e] w]; intros [= <- <-];
      (split; [reflexivity | eexists; split; [|reflexivity]; reflexivity]).
  - unfold cli. destruct (answerGetChangelists _ _ _ _) as [r' w].
    intros [= <- <-]. split; [reflexivity|]. eexists. split; [|reflexivity].
    reflexivity.
Qed.

Lemma populateChangeDetails_request_run (this : SearchResultTree.t)
    (st : State W) :
  exists t,
    populateChangeDetails_request this st
    = (Ok tt, mkState (world st) (trace st ++ t) (nextOid st)).
Proof.
  unfold populateChangeDetails_request. destruct st as [w t n].
  destruct (_ <? 1)%nat; [exists []; cbn; now rewrite app_nil_r|].
  eexists [_]. reflexivity.
Qed.

Lemma populateShelvedFiles_request_run (this : SearchResultTree.t)
    (st : State W) :
  exists t,
    populateShelvedFiles_request this st
    = (Ok tt, mkState (world st) (trace st ++ t) (nextOid st)).
Proof.
  unfold populateShelvedFiles_request. destruct st as [w t n].
  destruct (_ <? 1)%nat; [exists []; cbn; now rewrite app_nil_r|].
  eexists [_]. reflexivity.
Qed.

(** The run of [refresh] once the new results are there. *)
Lemma refresh_resume_run (this : SearchResultTree.t) (st : State W)
    (newResults : list ChangeInfo.t) :
  exists this' st',
    refresh_resume newResults this st = (Ok this', st') /\
    SearchResultTree._results this' =
      TsUtils.dedupe newResults ChangeInfo.chnum /\
    map SearchResultItem._change (SearchResultTree.children this') =
      SearchResultTree._results this' /\
    map SearchResultItem.oid (SearchResultTree.children this') =
      seq (nextOid st) (length (SearchResultTree._results this')) /\
    nextOid st' =
      (nextOid st + length (SearchResultTree._results this'))%nat /\
    (exists t,
       trace st' =
         (trace st ++
          map (fun c => Disposed (SearchResultItem.oid c))
              (SearchResultTree.children this) ++ t)%list) /\
    SearchResultTree.oid this' = SearchResultTree.oid this /\
    SearchResultTree.kind this' = SearchResultTree.kind this /\
    SearchResultTree._isPinned this' = SearchResultTree._isPinned this.
Proof.
  unfold refresh_resume.
  unfold bind at 1. rewrite clearChildren_run.
  set (results := TsUtils.dedupe newResults ChangeInfo.chnum).
  set (st2 := mkState _ _ _).
  destruct (newItems_run (SearchResultTree._resource this) results st2)
    as (items & Hitems & Hch & Hoid).
  unfold bind at 1. rewrite Hitems.
  set (this' := {| SearchResultTree.oid := _ |}).
  set (st3 := mkState _ _ _).
  unfold bind at 1. unfold TreeView.reveal, emit. cbn [world trace nextOid].
  set (st4 := mkState _ _ _).
  destruct (populateChangeDetails_request_run this' st4) as (t & Ht).
  unfold bind. rewrite Ht. exists this'. eexists. split; [reflexivity|].
  subst this'. cbn [SearchResultTree._results SearchResultTree.children
    SearchResultTree.oid SearchResultTree.kind SearchResultTree._isPinned
    nextOid trace world].
  rewrite addChild_all. cbn [app].
  repeat split; auto.
  eexists. subst st4 st3 st2. cbn [trace]. rewrite <- !app_assoc. reflexivity.
Qed.

(** Identity and changelist of an item survive its updates. *)
Definition keepsIdentity
    (update : SearchResultItem.t -> M W SearchResultItem.t) : Prop :=
  forall c st c' st',
    update c st = (Ok c', st') ->
    SearchResultItem.oid c' = SearchResultItem.oid c /\
    SearchResultItem._change c' = SearchResultItem._change c.

Lemma addDetails_identity (d : DescribedChangelist.t) :
  keepsIdentity (addDetails d).
Proof.
  intros c st c' st' H. unfold addDetails in H.
  apply bind_inv in H as (cleared & st1 & _ & H).
  apply bind_inv in H as (files & st2 & _ & H).
  injection H as <- _. split; reflexivity.
Qed.

Lemma addShelvedFiles_identity (d : DescribedChangelist.t) :
  keepsIdentity (addShelvedFiles d).
Proof.
  intros c st c' st' H. unfold addShelvedFiles in H.
  apply bind_inv in H as (kept & st1 & _ & H).
  apply bind_inv in H as (children & st2 & _ & H).
  injection H as <- _. split; reflexivity.
Qed.

Lemma updateFound_identity (chnum : string) update
    (l l' : list SearchResultItem.t) (st st' : State W) :
  keepsIdentity update ->
  updateFound chnum update l st = (Ok l', st') ->
  map SearchResultItem.oid l' = map SearchResultItem.oid l /\
  map SearchResultItem._change l' = map SearchResultItem._change l.
Proof.
  intros Hk. revert l' st st'. induction l as [|c l IH]; intros l' st st' H.
  - injection H as <- _. split; reflexivity.
  - cbn [updateFound] in H. destruct (String.eqb _ chnum).
    + apply bind_inv in H as (c' & st1 & Hc & H). injection H as <- _.
      destruct (Hk _ _ _ _ Hc) as [Ho Hch]. cbn. now rewrite Ho, Hch.
    + apply bind_inv in H as (rest' & st1 & Hr & H). injection H as <- _.
      destruct (IH _ _ _ Hr) as [Ho Hch]. cbn. now rewrite Ho, Hch.
Qed.

Lemma forEachDescription_identity update
    (descriptions : list DescribedChangelist.t)
    (l l' : list SearchResultItem.t) (st st' : State W) :
  (forall d, keepsIdentity (update d)) ->
  forEachDescription update descriptions l st = (Ok l', st') ->
  map SearchResultItem.oid l' = map SearchResultItem.oid l /\
  map SearchResultItem._change l' = map SearchResultItem._change l.
Proof.
  intros Hk. revert l l' st st'.
  induction descriptions as [|d ds IH]; intros l l' st st' H.
  - injection H as <- _. split; reflexivity.
  - cbn [forEachDescription] in H.
    apply bind_inv in H as (l1 & st1 & H1 & H).
    destruct (updateFound_identity _ _ _ _ _ _ (Hk d) H1) as [Ho Hch].
    destruct (IH _ _ _ _ H) as [Ho' Hch']. split; congruence.
Qed.

Lemma grows_addDetails d c : grows (W:=W) (addDetails d c).
Proof.
  unfold addDetails. apply grows_bind.
  - unfold TreeView.clearChildren. apply grows_bind.
    + apply grows_mapM. intros x. apply grows_emit.
    + intros _. apply grows_ret.
  - intros cleared. apply grows_bind.
    + apply grows_mapM. intros file. unfold newSearchResultFile.
      apply grows_bind; [apply grows_fresh | intros; apply grows_ret].
    + intros files. apply grows_ret.
Qed.

Lemma grows_addShelvedFiles d c : grows (W:=W) (addShelvedFiles d c).
Proof.
  unfold addShelvedFiles. apply grows_bind.
  - unfold TreeView.disposeWhere. apply grows_bind.
    + apply grows_mapM. intros x. apply grows_emit.
    + intros _. apply grows_ret.
  - intros kept. apply grows_bind; [|intros; apply grows_ret].
    destruct (_ <? _)%nat; [|apply grows_ret].
    apply grows_bind; [|intros; apply grows_ret].
    unfold newSearchResultShelvedSubTree.
    apply grows_bind; [apply grows_fresh|]. intros oid.
    apply grows_bind; [|intros; apply grows_ret].
    apply grows_mapM. intros file. unfold newSearchResultShelvedFile.
    apply grows_bind; [apply grows_fresh | intros; apply grows_ret].
Qed.

Lemma grows_updateFound chnum update l :
  (forall c, grows (W:=W) (update c)) -> grows (updateFound chnum update l).
Proof.
  intros Hu. induction l as [|c l IH]; cbn [updateFound].
  - apply grows_ret.
  - destruct (String.eqb _ chnum).
    + apply grows_bind; [apply Hu | intros; apply grows_ret].
    + apply grows_bind; [apply IH | intros; apply grows_ret].
Qed.

Lemma grows_forEachDescription update ds l :
  (forall d c, grows (W:=W) (update d c)) ->
  grows (forEachDescription update ds l).
Proof.
  intros Hu. revert l. induction ds as [|d ds IH]; intros l;
    cbn [forEachDescription].
  - apply grows_ret.
  - apply grows_bind; [apply grows_updateFound, Hu | intros; apply IH].
Qed.

End TreeFacts.

Section TreeClaims.
Context {W : Type} {API : PerforceApi W} {SA : SearchApi W}.
Import ChangelistTreeView.

(** The results hold every changelist once, the children are the items of
    the results, one for one and in order, and they are distinct objects. *)
Definition oneChildPerResult (this : SearchResultTree.t) : Prop :=
  NoDup (map ChangeInfo.chnum (SearchResultTree._results this)) /\
  map SearchResultItem._change (SearchResultTree.children this) =
    SearchResultTree._results this /\
  NoDup (map SearchResultItem.oid (SearchResultTree.children this)).

(** The children are objects made before now. *)
Definition childrenAllocated (this : SearchResultTree.t) (st : State W)
    : Prop :=
  forall c, c ∈ SearchResultTree.children this ->
            (SearchResultItem.oid c < nextOid st)%nat.

Lemma seq_allocated (items : list SearchResultItem.t) (n len : nat) :
  map SearchResultItem.oid items = seq n len ->
  NoDup (map SearchResultItem.oid items) /\
  forall c, c ∈ items ->
            (n <= SearchResultItem.oid c < n + len)%nat.
Proof.
  intros H. split.
  - rewrite H. apply NoDup_ListNoDup, List.seq_NoDup.
  - intros c Hc.
    assert (Hin : SearchResultItem.oid c ∈ map SearchResultItem.oid items)
      by (apply (list_elem_of_fmap_2 SearchResultItem.oid), Hc).
    rewrite H in Hin. apply list_elem_of_In, in_seq in Hin. lia.
Qed.

(** The run of the constructor. *)
Lemma newSearchResultTree_run (kind : Kind) (resource : Uri)
    (results : list ChangeInfo.t) (label : string) (st : State W) :
  exists this st',
    newSearchResultTree kind resource results label st = (Ok this, st') /\
    SearchResultTree._results this =
      TsUtils.dedupe results ChangeInfo.chnum /\
    map SearchResultItem._change (SearchResultTree.children this) =
      SearchResultTree._results this /\
    map SearchResultItem.oid (SearchResultTree.children this) =
      seq (S (nextOid st)) (length (SearchResultTree._results this)) /\
    nextOid st' =
      (S (nextOid st) + length (SearchResultTree._results this))%nat.
Proof.
  unfold newSearchResultTree. unfold bind at 1. cbn [fresh].
  set (results' := TsUtils.dedupe results ChangeInfo.chnum).
  set (st1 := mkState _ _ _).
  destruct (newItems_run resource results' st1) as (items & Hitems & Hch & Hoid).
  unfold bind at 1. rewrite Hitems.
  set (this := {| SearchResultTree.oid := _ |}).
  set (st2 := mkState _ _ _).
  destruct (populateChangeDetails_request_run this st2) as (t & Ht).
  unfold bind. rewrite Ht. exists this. eexists. split; [reflexivity|].
  subst this. cbn [SearchResultTree._results SearchResultTree.children nextOid].
  rewrite addChild_all. cbn [app]. repeat split; auto.
Qed.

Lemma newSearchResultTree_inv kind resource results label
    (st st' : State W) (this : SearchResultTree.t) :
  newSearchResultTree kind resource results label st = (Ok this, st') ->
  SearchResultTree._results this = TsUtils.dedupe results ChangeInfo.chnum /\
  oneChildPerResult this /\ childrenAllocated this st'.
Proof.
  intros H.
  destruct (newSearchResultTree_run kind resource results label st)
    as (this0 & st0 & Hrun & Hres & Hch & Hoid & Hn).
  rewrite H in Hrun. injection Hrun as <- <-.
  destruct (seq_allocated _ _ _ Hoid) as [Hnd Hb].
  split; [assumption|]. split; [split; [|split]; auto|].
  - rewrite Hres. apply dedupe_NoDup.
  - intros c Hc. specialize (Hb c Hc). lia.
Qed.

Lemma setPinned_run (pinned : bool) (this this' : SearchResultTree.t)
    (st st' : State W) :
  setPinned pinned this st = (Ok this', st') ->
  SearchResultTree._results this' = SearchResultTree._results this /\
  SearchResultTree.children this' = SearchResultTree.children this /\
  nextOid st' = nextOid st.
Proof. unfold setPinned, bind. cbn. now intros [= <- <-]. Qed.

Lemma refresh_resume_inv (newResults : list ChangeInfo.t)
    (this this' : SearchResultTree.t) (st st' : State W) :
  childrenAllocated this st ->
  refresh_resume newResults this st = (Ok this', st') ->
  SearchResultTree._results this' =
    TsUtils.dedupe newResults ChangeInfo.chnum /\
  oneChildPerResult this' /\ childrenAllocated this' st' /\
  (forall c c',
     c ∈ SearchResultTree.children this ->
     c' ∈ SearchResultTree.children this' ->
     SearchResultItem.oid c <> SearchResultItem.oid c').
Proof.
  intros Halloc H.
  destruct (refresh_resume_run this st newResults)
    as (this0 & st0 & Hrun & Hres & Hch & Hoid & Hn & _).
  rewrite H in Hrun. injection Hrun as <- <-.
  destruct (seq_allocated _ _ _ Hoid) as [Hnd Hb].
  split; [assumption|].
  split; [split; [|split]; auto|split].
  - rewrite Hres. apply dedupe_NoDup.
  - intros c Hc. specialize (Hb c Hc). lia.
  - intros c c' Hc Hc'. specialize (Halloc c Hc). specialize (Hb c' Hc'). lia.
Qed.

Lemma resume_inv update (ds : list DescribedChangelist.t)
    (this : SearchResultTree.t) (children : list SearchResultItem.t)
    (st st1 st' : State W) :
  (forall d, keepsIdentity (update d)) ->
  (forall d c, grows (W:=W) (update d c)) ->
  forEachDescription update ds (SearchResultTree.children this) st
  = (Ok children, st1) ->
  (nextOid st1 <= nextOid st')%nat ->
  oneChildPerResult this -> childrenAllocated this st ->
  oneChildPerResult (withChildren this children) /\
  childrenAllocated (withChildren this children) st'.
Proof.
  intros Hk Hg Hrun Hle (Hnd & Hch & Hoids) Halloc.
  destruct (forEachDescription_identity _ _ _ _ _ _ Hk Hrun) as [Ho Hc].
  pose proof (grows_run _ _ _ _ (grows_forEachDescription _ ds _ Hg) Hrun).
  split; [split; [|split]; cbn; congruence|].
  intros c Hc'. cbn in Hc'.
  assert (Hin : SearchResultItem.oid c ∈
                map SearchResultItem.oid (SearchResultTree.children this)).
  { rewrite <- Ho. now apply (list_elem_of_fmap_2 SearchResultItem.oid). }
  apply list_elem_of_fmap in Hin as (c0 & -> & Hc0).
  specialize (Halloc c0 Hc0). lia.
Qed.

(** What holds of a result tree all its life. *)
Lemma reachable_inv (this : SearchResultTree.t) (st : State W) :
  reachable this st -> oneChildPerResult this /\ childrenAllocated this st.
Proof.
  induction 1 as
    [ resource result st this st' Hnew
    | resource filters results st this st' Hnew
    | newResults this st this' st' _ [IH1 IH2] Hrun
    | ds this st this' st' _ [IH1 IH2] Hrun
    | ds this st this' st' _ [IH1 IH2] Hrun
    | pinned this st this' st' _ [IH1 IH2] Hrun
    | this st st' _ [IH1 IH2] Hle ].
  - unfold newSingleChangeResultTree in Hnew.
    apply bind_inv in Hnew as (this0 & st0 & Hnew & Hpin).
    apply newSearchResultTree_inv in Hnew as (_ & (Hnd & Hch & Ho) & Halloc).
    apply setPinned_run in Hpin as (Hr & Hc & Hn).
    split; [unfold oneChildPerResult; now rewrite Hr, Hc|].
    intros c Hin. rewrite Hc in Hin. rewrite Hn. now apply Halloc.
  - unfold newMultiSearchResultTree in Hnew.
    now apply newSearchResultTree_inv in Hnew as (_ & ? & ?).
  - destruct (refresh_resume_inv _ _ _ _ _ IH2 Hrun) as (_ & ? & ? & _).
    now split.
  - unfold populateChangeDetails_resume in Hrun.
    apply bind_inv in Hrun as (children & st1 & Hfor & Hrun).
    apply bind_inv in Hrun as ([] & st2 & Hdid & Hrun).
    apply bind_inv in Hrun as ([] & st3 & Hreq & Hrun).
    injection Hrun as <- <-.
    injection Hdid as <-.
    destruct (populateShelvedFiles_request_run (withChildren this children)
                (mkState (world st1) (trace st1 ++ [DidChange (SearchResultTree.oid this)])
                   (nextOid st1))) as (t & Ht).
    rewrite Ht in Hreq. injection Hreq as <-.
    apply (resume_inv addDetails ds this children st st1);
      auto using addDetails_identity, grows_addDetails.
  - unfold populateShelvedFiles_resume in Hrun.
    apply bind_inv in Hrun as (children & st1 & Hfor & Hrun).
    apply bind_inv in Hrun as ([] & st2 & Hdid & Hrun).
    injection Hrun as <- <-. injection Hdid as <-.
    apply (resume_inv addShelvedFiles ds this children st st1);
      auto using addShelvedFiles_identity, grows_addShelvedFiles.
  - apply setPinned_run in Hrun as (Hr & Hc & Hn).
    split; [unfold oneChildPerResult; now rewrite Hr, Hc|].
    intros c Hin. rewrite Hc in Hin. rewrite Hn. now apply IH2.
  - split; [assumption|]. intros c Hc. specialize (IH2 c Hc). lia.
Qed.


(** C6: at its construction, after each [refresh] and all its life, a result
    tree holds every changelist number once in its results (the results are
    the ones given or fetched, without the duplicates of a changelist
    number), and its children are the items of these results, one for one.
    *)
Theorem results_deduped :
  (forall kind resource results label (st st' : State W) this,
     newSearchResultTree kind resource results label st = (Ok this, st') ->
     SearchResultTree._results this =
       TsUtils.dedupe results ChangeInfo.chnum /\
     oneChildPerResult this) /\
  (forall newResults this (st st' : State W) this',
     reachable this st ->
     refresh_resume newResults this st = (Ok this', st') ->
     SearchResultTree._results this' =
       TsUtils.dedupe newResults ChangeInfo.chnum /\
     oneChildPerResult this') /\
  (forall this (st : State W), reachable this st -> oneChildPerResult this).
Proof.
  split; [|split].
  - intros kind resource results label st st' this H.
    now apply newSearchResultTree_inv in H as (? & ? & _).
  - intros newResults this st st' this' Hreach Hrun.
    destruct (reachable_inv this st Hreach) as [_ Halloc].
    now destruct (refresh_resume_inv _ _ _ _ _ Halloc Hrun) as (? & ? & _).
  - intros this st Hreach. now apply reachable_inv in Hreach.
Qed.

End TreeClaims.

Section TreeScenario.
Import Scenario ChangelistTreeView.

(** The results of a first search: changelist 10 comes twice. *)
Definition firstResults : list ChangeInfo.t :=
  map DescribedChangelist.asChangeInfo
    [change "10" false []; change "20" false []; change "10" false []].

Definition firstTree : M World SearchResultTree.t :=
  newMultiSearchResultTree (fileUri "") tt firstResults.

Example firstTree_children :
  exists this st,
    firstTree (start aWorld) = (Ok this, st) /\
    map SearchResultItem.chnum (SearchResultTree.children this) = ["10"; "20"] /\
    map SearchResultItem.oid (SearchResultTree.children this) = [1; 2]%nat /\
    SearchResultTree.label this = "Results (3)" /\
    nextOid st = 3%nat.
Proof. do 2 eexists. split; [vm_compute; reflexivity|]. repeat split. Qed.


Lemma results_deduped_witness :
  exists this st,
    firstTree (start aWorld) = (Ok this, st) /\
    oneChildPerResult this /\
    map ChangeInfo.chnum (SearchResultTree._results this) = ["10"; "20"].
Proof.
  destruct (firstTree (start aWorld)) as [[this|e] st] eqn:Hnew;
    [|vm_compute in Hnew; discriminate Hnew].
  exists this, st. split; [reflexivity|]. split.
  - destruct results_deduped as (_ & _ & H).
    apply (H this st). apply (reach_multi _ _ _ _ _ _ Hnew).
  - vm_compute in Hnew. injection Hnew as <- <-. reflexivity.
Defined.

End TreeScenario.

(** * Further properties *)

(** ** Looking a field up *)

Section GetBasicField.
Import SpecParser.

(** X1: [getBasicField] answers the value of the first field of the given name,
    and [undefined] exactly when no field has that name. *)
Theorem getBasicField_first (fields : list RawField) (field : string) :
  match getBasicField fields field with
  | None => forall f, f ∈ fields -> name f <> field
  | Some v =>
      exists (i : nat) (f : RawField),
        fields !! i = Some f /\ name f = field /\ value f = v /\
        forall (j : nat) (g : RawField),
          (j < i)%nat -> fields !! j = Some g -> name g <> field
  end.
Proof.
  unfold getBasicField. induction fields as [|f fields IH]; cbn.
  - intros f Hf. now apply elem_of_nil in Hf.
  - destruct (String.eqb (name f) field) eqn:E; cbn.
    + apply String.eqb_eq in E. exists 0%nat, f. repeat split; auto.
      intros j g Hj. lia.
    + apply String.eqb_neq in E.
      destruct (find _ fields) as [g|]; cbn in *.
      * destruct IH as (i & f' & Hi & Hn & Hv & Hfirst).
        exists (S i), f'. repeat split; auto.
        intros [|j] g' Hj Hg; cbn in Hg; [congruence|].
        apply (Hfirst j); [lia | assumption].
      * intros g Hg. apply elem_of_cons in Hg as [->|Hg]; auto.
Qed.

End GetBasicField.

(** ** The requests of [getChangeDetails] *)

Section ChangeDetailsRequests.
Context {VS : Vscode} {PU : PerforceUri} {CO : Collaborators}.
Context {W : Type} {API : PerforceApi W}.
Import FileQuickPick.

(** The request for the have record: none when the cache holds one. *)
Definition haveRequest (uri : Uri) (cached : option qp.CachedOutput)
    : list Event :=
  match cached ≫= qp.haveFile with
  | Some _ => []
  | None => [CliHave uri uri]
  end.

Lemma fetchHave_trace (uri : Uri) (cached : option qp.CachedOutput)
    (st st1 : State W) (r : Outcome (option HaveFile.t)) :
  fetchHave uri cached st = (r, st1) ->
  trace st1 = (trace st ++ haveRequest uri cached)%list /\
  nextOid st1 = nextOid st.
Proof.
  unfold fetchHave, haveRequest.
  destruct (cached ≫= qp.haveFile) as [h|].
  - intros [= <- <-]. now rewrite app_nil_r.
  - unfold p4.have, cli. destruct (answerHave _ _ _) as [r' w].
    now intros [= <- <-].
Qed.

(** X2: When no revision is resolved, [getChangeDetails] tells the user and
    throws without asking for the history of the file: the have record is
    the only thing it may have requested. *)
Theorem getChangeDetails_no_revision_requests (uri : Uri)
    (cached : option qp.CachedOutput) (fb : option bool)
    (st st1 : State W) (h : option HaveFile.t) :
  fetchHave uri cached st = (Ok h, st1) ->
  JS.truthy (useRev uri h) = false ->
  exists st',
    getChangeDetails uri cached fb st =
      (Throw (Error ("No revision available for " ++ uriToString uri)), st') /\
    world st' = world st1 /\
    trace st' =
      (trace st ++ haveRequest uri cached ++
       [ShowError "Unable to get file details without a revision"])%list.
Proof.
  intros Hh Hrev. unfold getChangeDetails.
  rewrite (bind_ok _ _ _ _ _ Hh), Hrev. cbn [negb].
  eexists. split; [reflexivity|]. cbn.
  destruct (fetchHave_trace _ _ _ _ _ Hh) as [-> _].
  now rewrite <- app_assoc.
Qed.

(** X3: With a cache that holds the have record and the history,
    [getChangeDetails] asks nothing of the command-line client: the world
    is not touched and no request is recorded, whatever the outcome; the
    details it returns carry the cached history and have record. *)
Theorem getChangeDetails_cached (uri : Uri) (c : qp.CachedOutput)
    (fb : option bool) (st : State W)
    (h : HaveFile.t) (fl : list FileLogItem.t) :
  qp.haveFile c = Some h ->
  qp.filelog c = Some fl ->
  exists r t,
    getChangeDetails uri (Some c) fb st =
      (r, mkState (world st) (trace st ++ t) (nextOid st)) /\
    Forall (fun e => isCliRequest e = false) t /\
    forall d, r = Ok d -> all d = fl /\ haveFile d = Some h.
Proof.
  intros Hh Hfl. unfold getChangeDetails, fetchHave, fetchFilelog.
  cbn [mbind option_bind]. rewrite Hh, Hfl.
  unfold bind at 1. cbn [ret]. destruct st as [w t n].
  destruct (JS.truthy (useRev uri (Some h))); cbn [negb].
  - unfold bind at 1. cbn [ret]. destruct fl as [|l rest].
    + eexists _, [_]. split; [reflexivity|].
      split; [repeat constructor | discriminate].
    + eexists _, []. split; [cbn; now rewrite app_nil_r|].
      split; [constructor|]. intros d [= <-]. now split.
  - eexists _, [_]. split; [reflexivity|].
    split; [repeat constructor | discriminate].
Qed.


End ChangeDetailsRequests.

(** ** The picks of the file quick pick at the ends of the history *)

Section FilePicksAtTheEnds.
Context {VS : Vscode} {PU : PerforceUri} {CO : Collaborators}.
Context {W : Type} {API : PerforceApi W}.
Import FileQuickPick.

(** The details of the entry at position [j] of a history without a
    repeated revision. *)
Definition detailsAt (fl : list FileLogItem.t) (j : nat) (e l : FileLogItem.t)
    (h : option HaveFile.t) : ChangeDetails :=
  {| all := fl; current := Some e; currentIndex := Z.of_nat j;
     next := match j with O => None | S k => fl !! k end;
     prev := fl !! S j; latest := l; haveFile := h |}.

Lemma getChangeDetails_at (uri : Uri) (cached : option qp.CachedOutput)
    (fb : option bool) (st st1 st2 : State W) (h : option HaveFile.t)
    (fl : list FileLogItem.t) (j : nat) (e : FileLogItem.t) :
  fetchHave uri cached st = (Ok h, st1) ->
  JS.truthy (useRev uri h) = true ->
  fetchFilelog uri cached fb st1 = (Ok fl, st2) ->
  fl !! j = Some e ->
  revisionIs (useRev uri h) e = true ->
  NoDup (map FileLogItem.revision fl) ->
  exists l, head fl = Some l /\
    getChangeDetails uri cached fb st = (Ok (detailsAt fl j e l h), st2).
Proof.
  intros Hh Hrev Hfl He Hp Hnd.
  destruct fl as [|l rest]; [discriminate He|]. exists l. split; [reflexivity|].
  rewrite (getChangeDetails_run _ _ _ _ _ _ _ _ _ Hh Hrev Hfl).
  assert (Hin : e ∈ l :: rest) by (eapply list_elem_of_lookup_2, He).
  destruct (findIndex_first _ _ _ Hin Hp) as (i & x & Hi & Hx & Hpx & _).
  assert (i = j) as ->.
  { unfold revisionIs in Hp, Hpx. destruct (useRev uri h) as [r|]; [|discriminate].
    apply String.eqb_eq in Hp, Hpx.
    eapply NoDup_lookup; [exact Hnd| |].
    - rewrite list_lookup_fmap, Hx. cbn. now rewrite Hpx.
    - rewrite list_lookup_fmap, He. cbn. now rewrite Hp. }
  assert (x = e) as -> by congruence.
  cbn zeta. rewrite Hi, at_of_nat, at_pred, at_succ, He. reflexivity.
Qed.

(** X5: In the file quick pick the first two picks are "Previous revision" and
    "Next revision".  "Next revision" does nothing exactly when the current
    revision is the first entry of the history, "Previous revision" exactly
    when it is the last one; otherwise they open the quick pick of the
    neighbouring entry with the history and the have record as cache. *)
Theorem provideActions_navigation (uriOrStr : Uri + string)
    (cached : option qp.CachedOutput) (st st1 st2 : State W)
    (h : option HaveFile.t) (fl : list FileLogItem.t)
    (j : nat) (e : FileLogItem.t) :
  let uri := asUri uriOrStr in
  let open (x : option FileLogItem.t) :=
    match x with
    | Some x =>
        Some (qp.ShowQuickPickForFile
                (depotUri uri (FileLogItem.file x) (FileLogItem.revision x))
                (Some {| qp.filelog := Some fl; qp.haveFile := h |}))
    | None => None
    end in
  fetchHave uri cached st = (Ok h, st1) ->
  JS.truthy (useRev uri h) = true ->
  fetchFilelog uri cached None st1 = (Ok fl, st2) ->
  fl !! j = Some e ->
  revisionIs (useRev uri h) e = true ->
  NoDup (map FileLogItem.revision fl) ->
  exists q p n,
    provideActions uriOrStr cached st = (Ok q, st2) /\
    qp.items q !! 0%nat = Some p /\
    qp.items q !! 1%nat = Some n /\
    qp.label p = "$(arrow-small-left) Previous revision" /\
    qp.label n = "$(arrow-small-right) Next revision" /\
    qp.performAction p = open (fl !! S j) /\
    qp.performAction n = open (match j with O => None | S k => fl !! k end) /\
    (qp.performAction n = None <-> j = 0%nat) /\
    (qp.performAction p = None <-> S j = length fl).
Proof.
  intros uri open Hh Hrev Hfl He Hp Hnd.
  destruct (getChangeDetails_at uri cached None st st1 st2 h fl j e
              Hh Hrev Hfl He Hp Hnd) as (l & Hl & Hd).
  destruct (provideActions_concat uriOrStr cached st st2 _ e Hd eq_refl)
    as (a1 & a2 & a3 & a4 & a5 & s & H1 & _ & _ & _ & _ & _ & Hrun).
  fold uri in H1.
  unfold makeNextAndPrevPicks in H1. cbn [current detailsAt member] in H1.
  injection H1 as <-.
  eexists _, _, _. split; [exact Hrun|]. cbn [qp.items].
  cbn [filterTruthy omap list_omap id app lookup list_lookup].
  split; [reflexivity|]. split; [reflexivity|].
  cbn [prev next detailsAt makeCache all haveFile].
  assert (Hprev : fl !! S j = None <-> S j = length fl).
  { rewrite lookup_ge_None. apply lookup_lt_Some in He. lia. }
  assert (Hnext : match j with O => None | S k => fl !! k end = None
                  <-> j = 0%nat).
  { destruct j as [|k]; [tauto|]. split; [|discriminate].
    intros Hk. apply lookup_ge_None in Hk. apply lookup_lt_Some in He. lia. }
  destruct (fl !! S j) as [x|] eqn:Ex;
    destruct (match j with O => None | S k => fl !! k end) as [y|] eqn:Ey;
    cbn [pick qp.label qp.performAction open];
    repeat split; auto; try discriminate; try tauto;
    try (intros Hj; apply Hprev in Hj; discriminate Hj);
    try (intros Hj; apply Hnext in Hj; discriminate Hj).
Qed.

(** Whether a list of picks has a pick of the given label. *)
Definition hasLabel (label : string) (picks : list qp.ActionableQuickPickItem)
    : bool :=
  existsb (fun p => String.eqb (qp.label p) label) picks.

(** X6: Among the diff picks of the file quick pick, "Diff against latest
    revision" is there exactly when the current revision is not the first
    entry of the history, "Diff against previous revision" exactly when it
    is not the last one, and "Open workspace file" exactly when there is a
    have record; "Diff against workspace file" is always there, and does
    something exactly when there is a have record. *)
Theorem makeDiffPicks_presence (uri : Uri) (fl : list FileLogItem.t)
    (j : nat) (e l : FileLogItem.t) (h : option HaveFile.t) :
  fl !! j = Some e ->
  head fl = Some l ->
  NoDup (map FileLogItem.oid fl) ->
  exists picks w,
    makeDiffPicks uri (detailsAt fl j e l h) = Ok picks /\
    hasLabel "$(diff) Diff against latest revision" picks
      = negb (Nat.eqb j 0) /\
    hasLabel "$(diff) Diff against previous revision" picks
      = negb (Nat.eqb (S j) (length fl)) /\
    hasLabel "$(file) Open workspace file" picks = bool_decide (h <> None) /\
    In w picks /\
    qp.label w = "$(diff) Diff against workspace file" /\
    (qp.performAction w = None <-> h = None).
Proof.
  intros He Hl Hnd.
  assert (Hlatest : Nat.eqb (FileLogItem.oid l) (FileLogItem.oid e)
                    = Nat.eqb j 0).
  { destruct fl as [|l' rest]; [discriminate|]. injection Hl as ->.
    destruct j as [|k]; [cbn in He; injection He as ->; apply Nat.eqb_refl|].
    cbn [Nat.eqb]. apply Nat.eqb_neq. intros Ho.
    assert (0 = S k)%nat; [|discriminate].
    eapply NoDup_lookup; [exact Hnd| |].
    - rewrite list_lookup_fmap. cbn. reflexivity.
    - rewrite list_lookup_fmap, He. cbn. now rewrite Ho. }
  assert (Hprev : match fl !! S j with Some _ => true | None => false end
                  = negb (Nat.eqb (S j) (length fl))).
  { pose proof (lookup_lt_Some _ _ _ He) as Hlt.
    destruct (fl !! S j) eqn:E.
    - apply lookup_lt_Some in E. symmetry. apply negb_true_iff, Nat.eqb_neq. lia.
    - apply lookup_ge_None in E. symmetry. apply negb_false_iff, Nat.eqb_eq. lia. }
  unfold makeDiffPicks. cbn [current detailsAt member prev latest haveFile].
  rewrite Hlatest. rewrite <- Hprev.
  eexists.
  exists (pick "$(diff) Diff against workspace file"
            (Some match h with
                  | Some _ => ""
                  | None => "No matching workspace file found"
                  end)
            match h with
            | Some have =>
                Some (qp.DiffFiles
                        (depotUri uri (FileLogItem.file e)
                           (FileLogItem.revision e))
                        (HaveFile.localUri have))
            | None => None
            end).
  split; [reflexivity|].
  destruct (Nat.eqb j 0); destruct (fl !! S j) as [x|]; destruct h as [hv|];
    cbn [negb filterTruthy omap list_omap id];
    (split; [reflexivity|]); (split; [reflexivity|]);
    (split; [reflexivity|]);
    (split; [cbn [In]; repeat (first [left; reflexivity | right])|]);
    (split; [reflexivity|]); cbn; split; congruence.
Qed.

End FilePicksAtTheEnds.

(** ** The revision choosers *)

Section RevisionChoosers.
Context {VS : Vscode} {PU : PerforceUri} {CO : Collaborators} {RS : RevStrings}.
Import FileQuickPick FileRevisionPicks.

Lemma arraySlice_nat {A} (a : list A) (k : nat) :
  (k <= length a)%nat -> arraySlice a (Z.of_nat k) = drop k a.
Proof.
  intros Hk. unfold arraySlice, JS.relIndex.
  destruct (Z.ltb_spec (Z.of_nat k) 0); [lia|].
  rewrite Z.min_l by lia. now rewrite Nat2Z.id.
Qed.

(** The revisions shown when the newer ones are hidden: the history from
    the first entry of the changelist of the current revision on; this
    entry is the current revision or a newer one. *)
Lemma ageFiltered_hidden (d : ChangeDetails) (i : nat) (cur : FileLogItem.t) :
  current d = Some cur ->
  all d !! i = Some cur ->
  exists k,
    (k <= i)%nat /\
    findIndex (fun c => String.eqb (FileLogItem.chnum c)
                                   (FileLogItem.chnum cur)) (all d)
    = Z.of_nat k /\
    ageFiltered d false = Ok (drop k (all d)).
Proof.
  intros Hc Hi. unfold ageFiltered. rewrite Hc. cbn [member].
  assert (Hin : cur ∈ all d) by (eapply list_elem_of_lookup_2, Hi).
  destruct (findIndex_first
              (fun c => String.eqb (FileLogItem.chnum c) (FileLogItem.chnum cur))
              (all d) cur Hin (String.eqb_refl _))
    as (k & y & Hk & Hy & Hpy & Hfirst).
  exists k. split; [|split; [assumption|]].
  - destruct (Nat.le_gt_cases k i) as [|Hlt]; [assumption|].
    specialize (Hfirst i cur Hlt Hi). cbn in Hfirst.
    now rewrite String.eqb_refl in Hfirst.
  - destruct (all d) as [|x rest] eqn:Hall; [discriminate Hi|].
    rewrite Hk, arraySlice_nat; [reflexivity|].
    apply lookup_lt_Some in Hy. lia.
Qed.

Lemma flat_map_single {A B} (f : A -> list B) (g : A -> B) (l : list A) :
  (forall x, f x = [g x]) -> flat_map f l = map g l.
Proof.
  intros H. induction l as [|x l IH]; cbn; [reflexivity|].
  now rewrite H, IH.
Qed.

(** The label of a revision in the chooser of revisions. *)
Definition revisionLabel (cur c : FileLogItem.t) : string :=
  ((if Nat.eqb (FileLogItem.oid c) (FileLogItem.oid cur)
    then "$(location)" else "$(debug-stackframe-dot)") ++
   " #" ++ FileLogItem.revision c)%string.

(** X7: Without integrations the chooser of revisions holds its three controls
    and then one pick per shown revision, in the order of the history, that
    opens the quick pick of that revision.  All revisions are shown when the
    newer ones are included; when they are hidden, the shown revisions still
    start at the current revision or before it, so that neither the current
    revision nor an older one is ever hidden. *)
Theorem makeAllRevisionPicks_shown (uri : Uri) (d : ChangeDetails)
    (i : nat) (cur : FileLogItem.t) (includeNewerRevisions : bool) :
  current d = Some cur ->
  all d !! i = Some cur ->
  exists (k : nat) picks,
    (k <= i)%nat /\
    (includeNewerRevisions = true -> k = 0%nat) /\
    makeAllRevisionPicks uri d false false includeNewerRevisions = Ok picks /\
    map label (take 3 picks) =
      [ "$(gear) Show integration target files";
        "$(gear) Show integration source files";
        if includeNewerRevisions
        then "$(exclude) Hide newer revisions"
        else "$(gear) Show newer revisions" ] /\
    map label (drop 3 picks) = map (revisionLabel cur) (drop k (all d)) /\
    map performAction (drop 3 picks) =
      map (fun c =>
             Some (Plain (qp.ShowQuickPickForFile
                     (depotUri uri (FileLogItem.file c)
                        (FileLogItem.revision c))
                     (Some (makeCache d)))))
          (drop k (all d)).
Proof.
  intros Hc Hi.
  assert (Hage : exists k,
            (k <= i)%nat /\ (includeNewerRevisions = true -> k = 0%nat) /\
            ageFiltered d includeNewerRevisions = Ok (drop k (all d))).
  { destruct includeNewerRevisions.
    - exists 0%nat. split; [lia|]. split; [reflexivity|]. reflexivity.
    - destruct (ageFiltered_hidden d i cur Hc Hi) as (k & Hk & _ & Ha).
      exists k. split; [assumption|]. split; [discriminate | assumption]. }
  destruct Hage as (k & Hk & H0 & Ha). exists k.
  unfold makeAllRevisionPicks. rewrite Ha.
  eexists. split; [assumption|]. split; [assumption|].
  split; [reflexivity|].
  cbn [app take drop map control label].
  split; [reflexivity|].
  rewrite (flat_map_single _
             (fun c => {|
                label := revisionLabel cur c;
                description := Some (FileLogItem.description c);
                detail :=
                  Some (repeat_ nbsp 10 ++ FileLogItem.operation c ++
                        " $(person) " ++ FileLogItem.user c ++ nbsp ++
                        " $(calendar) " ++ nbsp ++
                        DateFormatter.toReadableDateTime (FileLogItem.date c))%string;
                performAction :=
                  Some (Plain (qp.ShowQuickPickForFile
                          (depotUri uri (FileLogItem.file c)
                             (FileLogItem.revision c))
                          (Some (makeCache d)))) |})).
  - rewrite !drop_0, !List.map_map. cbn [label performAction].
    split; reflexivity.
  - intros c. unfold revisionPicks, revisionLabel, isCurrent. rewrite Hc.
    reflexivity.
Qed.

(** The two sides of the diff that the pick of an entry opens, in the
    chooser of a revision to diff against. *)
Definition diffOf (uri : Uri) (left right : FileLogItem.t)
    : option ChooserAction :=
  Some (Plain (qp.DiffFiles
          (depotUri uri (FileLogItem.file left) (FileLogItem.revision left))
          (depotUri uri (FileLogItem.file right)
             (FileLogItem.revision right)))).

(** X8: In the chooser of a revision to diff against, after its control, the
    pick at position [j] of the shown list is for the entry [k + j] of the
    history, [k] being the number of hidden newer entries.  It diffs that
    entry (left) against the current revision (right) when [j] is greater
    than [currentIndex], and the current revision (left) against that entry
    (right) otherwise: the position in the shown list is what the code
    compares with the index of the current revision in the history. *)
Theorem makeDiffRevisionPicks_sides (uri : Uri) (d : ChangeDetails)
    (i : nat) (cur : FileLogItem.t) (includeNewerRevisions : bool) :
  current d = Some cur ->
  currentIndex d = Z.of_nat i ->
  all d !! i = Some cur ->
  exists (k : nat) picks,
    (k <= i)%nat /\
    (includeNewerRevisions = true -> k = 0%nat) /\
    makeDiffRevisionPicks uri d includeNewerRevisions = Ok picks /\
    length picks = S (length (all d) - k) /\
    forall (j : nat) (c : FileLogItem.t),
      all d !! (k + j)%nat = Some c ->
      exists p,
        picks !! S j = Some p /\
        ((i < j)%nat -> performAction p = diffOf uri c cur) /\
        ((j <= i)%nat -> performAction p = diffOf uri cur c).
Proof.
  intros Hc Hci Hi.
  assert (Hage : exists k,
            (k <= i)%nat /\ (includeNewerRevisions = true -> k = 0%nat) /\
            ageFiltered d includeNewerRevisions = Ok (drop k (all d))).
  { destruct includeNewerRevisions.
    - exists 0%nat. split; [lia|]. split; [reflexivity|]. reflexivity.
    - destruct (ageFiltered_hidden d i cur Hc Hi) as (k & Hk & _ & Ha).
      exists k. split; [assumption|]. split; [discriminate | assumption]. }
  destruct Hage as (k & Hk & H0 & Ha). exists k.
  unfold makeDiffRevisionPicks. rewrite Hc. cbn [member]. rewrite Ha.
  eexists. split; [assumption|]. split; [assumption|].
  split; [reflexivity|]. split.
  - cbn [app length]. now rewrite length_imap, length_drop.
  - intros j c Hj. cbn [app]. rewrite lookup_cons.
    rewrite list_lookup_imap, lookup_drop, Hj. cbn [fmap option_fmap option_map].
    eexists. split; [reflexivity|].
    unfold diffRevisionPick, diffOf. cbn [performAction]. rewrite Hci.
    split; intros Hij.
    + destruct (Z.ltb_spec (Z.of_nat i) (Z.of_nat j)); [reflexivity | lia].
    + destruct (Z.ltb_spec (Z.of_nat i) (Z.of_nat j)); [lia | reflexivity].
Qed.

(** X9: With the newer revisions shown, the chooser of a revision to diff
    against has one pick per entry of the history, and each diffs the older
    of the entry and the current revision (left) against the newer one
    (right), the history running from the newest entry to the oldest. *)
Theorem makeDiffRevisionPicks_older_left (uri : Uri) (d : ChangeDetails)
    (i : nat) (cur : FileLogItem.t) :
  current d = Some cur ->
  currentIndex d = Z.of_nat i ->
  exists picks,
    makeDiffRevisionPicks uri d true = Ok picks /\
    length picks = S (length (all d)) /\
    forall (j : nat) (c : FileLogItem.t),
      all d !! j = Some c ->
      exists p,
        picks !! S j = Some p /\
        performAction p =
          if (i <? j)%nat then diffOf uri c cur else diffOf uri cur c.
Proof.
  intros Hc Hci. unfold makeDiffRevisionPicks. rewrite Hc. cbn [member ageFiltered].
  eexists. split; [reflexivity|]. split.
  - cbn [app length]. now rewrite length_imap.
  - intros j c Hj. cbn [app]. rewrite lookup_cons.
    rewrite list_lookup_imap, Hj. cbn [fmap option_fmap option_map].
    eexists. split; [reflexivity|].
    unfold diffRevisionPick, diffOf. cbn [performAction]. rewrite Hci.
    destruct (Z.ltb_spec (Z.of_nat i) (Z.of_nat j));
      destruct (Nat.ltb_spec i j); try lia; reflexivity.
Qed.

End RevisionChoosers.

(** ** The quick pick of a changelist that cannot be described *)

Section ChangeNotFound.
Context {VS : Vscode} {PU : PerforceUri} {CO : Collaborators}.
Context {W : Type} {API : PerforceApi W}.
Import ChangeQuickPick.

(** X10: When the command-line client describes no change for the number, the
    quick pick of the changelist tells the user, throws, and makes no other
    request (the shelved files are not asked for); when the description
    itself fails, the failure is passed on and nothing is shown. *)
Theorem provideActions_no_change (resourceOrStr : Uri + string)
    (chnum : string) (st st1 : State W) :
  let resource := asUri resourceOrStr in
  (p4.describe resource (describeOptions chnum) st = (Ok [], st1) ->
   exists st',
     provideActions resourceOrStr chnum st
     = (Throw (Error "Unable to find change details"), st') /\
     world st' = world st1 /\
     trace st' =
       (trace st ++
        [ CliDescribe resource (describeOptions chnum);
          ShowImportantError "Unable to find change details" ])%list) /\
  (forall e,
     p4.describe resource (describeOptions chnum) st = (Throw e, st1) ->
     provideActions resourceOrStr chnum st = (Throw e, st1) /\
     trace st1 =
       (trace st ++ [CliDescribe resource (describeOptions chnum)])%list).
Proof.
  intros resource. split.
  - intros Hd. unfold provideActions. fold resource.
    change {| DescribeOptions.chnums := [chnum];
              DescribeOptions.omitDiffs := Some true;
              DescribeOptions.shelved := None |} with (describeOptions chnum).
    rewrite (bind_ok _ _ _ _ _ Hd). eexists. split; [reflexivity|].
    cbn. rewrite (describe_trace _ _ _ _ _ Hd). split; [reflexivity|].
    now rewrite <- app_assoc.
  - intros e Hd. split; [|exact (describe_trace _ _ _ _ _ Hd)].
    unfold provideActions. fold resource.
    change {| DescribeOptions.chnums := [chnum];
              DescribeOptions.omitDiffs := Some true;
              DescribeOptions.shelved := None |} with (describeOptions chnum).
    now rewrite (bind_throw _ _ _ _ _ Hd).
Qed.

End ChangeNotFound.

(** ** Making the items of the search tree *)

Section MakingItems.
Context {W : Type} {API : PerforceApi W} {SA : SearchApi W}.
Import ChangelistTreeView.

(** Making one object per element of a list: the objects get the next
    identities of the allocator, in order. *)
Lemma mapM_fresh {A B} (make : nat -> A -> B) (l : list A) (st : State W) :
  TreeView.mapM (fun x => bind fresh (fun oid => ret (make oid x))) l st =
    (Ok (imap (fun i x => make (nextOid st + i)%nat x) l),
     mkState (world st) (trace st) (nextOid st + length l)).
Proof.
  revert st make. induction l as [|x l IH]; intros [w t n] make.
  - cbn. now rewrite Nat.add_0_r.
  - cbn [TreeView.mapM]. unfold bind at 1. unfold bind at 1.
    cbn [fresh world trace nextOid ret].
    unfold bind at 1. rewrite IH. cbn [world trace nextOid imap length].
    unfold ret. rewrite Nat.add_0_r. f_equal; [f_equal; f_equal|f_equal; lia].
    apply imap_ext. intros i y _. cbn. f_equal. lia.
Qed.

Lemma imap_seq_oid {A B} (make : nat -> A -> B) (oid : B -> nat)
    (n : nat) (l : list A) :
  (forall i x, oid (make i x) = i) ->
  map oid (imap (fun i x => make (n + i)%nat x) l) = seq n (length l).
Proof.
  intros H. revert n make H. induction l as [|x l IH]; intros n make H.
  - reflexivity.
  - cbn [imap map length seq]. rewrite H, Nat.add_0_r. f_equal.
    rewrite <- (IH (S n) make H). f_equal.
    apply imap_ext. intros i y _. cbn. f_equal. lia.
Qed.

Lemma imap_map_inner {A B C} (make : nat -> A -> B) (f : B -> C) (g : A -> C)
    (l : list A) :
  (forall i x, f (make i x) = g x) -> map f (imap make l) = map g l.
Proof.
  intros H. revert make H. induction l as [|x l IH]; intros make H.
  - reflexivity.
  - cbn [imap map]. rewrite H. f_equal. apply IH. intros i y. apply H.
Qed.

(** The file item made for an affected file. *)
Definition fileItem (resource : Uri) (detail : DescribedChangelist.t)
    (oid : nat) (file : DepotFileOperation.t) : SearchResultFile.t :=
  {| SearchResultFile.oid := oid;
     SearchResultFile._resource := resource;
     SearchResultFile._file := file;
     SearchResultFile._change := detail;
     SearchResultFile.label :=
       (DepotFileOperation.depotPath file ++ "#" ++
        DepotFileOperation.revision file)%string;
     SearchResultFile.description := DepotFileOperation.operation file |}.

(** The files of an item after [addDetails]. *)
Definition detailFiles (detail : DescribedChangelist.t)
    (this : SearchResultItem.t) (n : nat) : list SearchResultFile.t :=
  imap (fun i file =>
          fileItem (SearchResultItem._resource this) detail (n + i)%nat file)
       (DescribedChangelist.affectedFiles detail).

Lemma addDetails_run (detail : DescribedChangelist.t)
    (this : SearchResultItem.t) (st : State W) :
  exists this',
    addDetails detail this st =
      (Ok this',
       mkState (world st)
         (trace st ++
          map (fun c => Disposed (childOid c)) (SearchResultItem.children this))
         (nextOid st + length (DescribedChangelist.affectedFiles detail))) /\
    SearchResultItem.children this' =
      map FileChild (detailFiles detail this (nextOid st)) /\
    SearchResultItem.collapsibleState this' =
      (if isExpanded (SearchResultItem.collapsibleState this)
       then SearchResultItem.collapsibleState this else Collapsed) /\
    SearchResultItem.oid this' = SearchResultItem.oid this /\
    SearchResultItem._change this' = SearchResultItem._change this.
Proof.
  unfold addDetails. unfold bind at 1. rewrite clearChildren_run.
  unfold bind at 1. unfold newSearchResultFile.
  rewrite (mapM_fresh
             (fun oid file =>
                fileItem (SearchResultItem._resource this) detail oid file)).
  cbn [world trace nextOid ret]. eexists. split; [reflexivity|].
  cbn [SearchResultItem.children SearchResultItem.collapsibleState
       SearchResultItem.oid SearchResultItem._change].
  rewrite addChild_all. cbn [app]. unfold detailFiles. repeat split.
Qed.

Lemma detailFiles_files (detail : DescribedChangelist.t)
    (this : SearchResultItem.t) (n : nat) :
  map SearchResultFile._file (detailFiles detail this n) =
    DescribedChangelist.affectedFiles detail.
Proof.
  unfold detailFiles.
  rewrite (imap_map_inner _ _ id); [apply List.map_id | reflexivity].
Qed.

(** X11: [addDetails] never fails.  It disposes of all the children the item
    had, makes one file child per affected file of the description, in
    order, leaves an expanded item expanded and makes any other item
    collapsed. *)
Theorem addDetails_files (detail : DescribedChangelist.t)
    (this : SearchResultItem.t) (st : State W) :
  exists this',
    addDetails detail this st =
      (Ok this',
       mkState (world st)
         (trace st ++
          map (fun c => Disposed (childOid c)) (SearchResultItem.children this))
         (nextOid st + length (DescribedChangelist.affectedFiles detail))) /\
    SearchResultItem.children this' =
      map FileChild (detailFiles detail this (nextOid st)) /\
    map SearchResultFile._file (detailFiles detail this (nextOid st)) =
      DescribedChangelist.affectedFiles detail /\
    map SearchResultFile.oid (detailFiles detail this (nextOid st)) =
      seq (nextOid st) (length (DescribedChangelist.affectedFiles detail)) /\
    SearchResultItem.collapsibleState this' =
      (if isExpanded (SearchResultItem.collapsibleState this)
       then Expanded else Collapsed) /\
    SearchResultItem.oid this' = SearchResultItem.oid this /\
    SearchResultItem._change this' = SearchResultItem._change this.
Proof.
  destruct (addDetails_run detail this st) as (this' & Hrun & Hch & Hs & Ho & Hc).
  exists this'. split; [exact Hrun|]. split; [exact Hch|].
  split; [apply detailFiles_files|]. split.
  - unfold detailFiles. now apply imap_seq_oid.
  - rewrite Hs. destruct (SearchResultItem.collapsibleState this); repeat split; auto.
Qed.

(** A child that [addShelvedFiles] takes for a group of shelved files. *)
Definition isShelvedGroup (child : ItemChild) : bool :=
  JS.startsWith (labelText child) "Shelved Files".

Lemma disposeWhere_run {A} (oid : A -> nat) (p : A -> bool)
    (children : list A) (st : State W) :
  TreeView.disposeWhere oid p children st =
    (Ok (List.filter (fun c => negb (p c)) children),
     mkState (world st)
       (trace st ++ map (fun c => Disposed (oid c)) (List.filter p children))
       (nextOid st)).
Proof. unfold TreeView.disposeWhere, bind. now rewrite mapM_emit. Qed.

Lemma filter_filter_negb {A} (p : A -> bool) (l : list A) :
  List.filter p (List.filter (fun c => negb (p c)) l) = [] /\
  List.filter (fun c => negb (p c)) (List.filter (fun c => negb (p c)) l)
  = List.filter (fun c => negb (p c)) l.
Proof.
  induction l as [|x l [IH1 IH2]]; [now split|]. cbn.
  destruct (p x) eqn:E; cbn; [now split|]. rewrite E. cbn.
  now rewrite IH1, IH2.
Qed.

(** The run of [addShelvedFiles]. *)
Lemma addShelvedFiles_run (detail : DescribedChangelist.t)
    (this : SearchResultItem.t) (st : State W) :
  let kept :=
    List.filter (fun c => negb (isShelvedGroup c))
      (SearchResultItem.children this) in
  let n := length (DescribedChangelist.shelvedFiles detail) in
  exists this' st',
    addShelvedFiles detail this st = (Ok this', st') /\
    SearchResultItem.oid this' = SearchResultItem.oid this /\
    SearchResultItem._change this' = SearchResultItem._change this /\
    List.filter (fun c => negb (isShelvedGroup c))
      (SearchResultItem.children this') = kept /\
    length (List.filter isShelvedGroup (SearchResultItem.children this'))
    = (if (0 <? n)%nat then 1 else 0)%nat /\
    (n = 0%nat -> SearchResultItem.children this' = kept) /\
    ((0 < n)%nat ->
     exists group,
       SearchResultItem.children this' = ShelvedChild group :: kept /\
       SearchResultShelvedSubTree.label group =
         ("Shelved Files (" ++ JS.ofNat n ++ ")")%string /\
       map SearchResultShelvedFile._file
           (SearchResultShelvedSubTree.children group) =
         DescribedChangelist.shelvedFiles detail).
Proof.
  intros kept n. unfold addShelvedFiles.
  change (fun child => JS.startsWith (labelText child) "Shelved Files")
    with isShelvedGroup.
  unfold bind at 1. rewrite disposeWhere_run.
  destruct (filter_filter_negb isShelvedGroup (SearchResultItem.children this))
    as [Hnone Hkept].
  change (List.filter (fun c => negb (isShelvedGroup c))
            (SearchResultItem.children this)) with kept in Hnone, Hkept |- *.
  change (length (DescribedChangelist.shelvedFiles detail)) with n.
  destruct (0 <? n)%nat eqn:En.
  - unfold newSearchResultShelvedSubTree.
    unfold bind at 1. unfold bind at 1. unfold bind at 1.
    cbn [fresh world trace nextOid].
    unfold bind at 1. unfold newSearchResultShelvedFile.
    rewrite (mapM_fresh
               (fun oid file => {|
                  SearchResultShelvedFile.oid := oid;
                  SearchResultShelvedFile._resource :=
                    SearchResultItem._resource this;
                  SearchResultShelvedFile._file := file;
                  SearchResultShelvedFile._chnum :=
                    DescribedChangelist.chnum detail;
                  SearchResultShelvedFile.label :=
                    (DepotFileOperation.depotPath file ++ "#" ++
                     DepotFileOperation.revision file)%string;
                  SearchResultShelvedFile.description :=
                    DepotFileOperation.operation file |})).
    unfold ret. do 2 eexists. split; [reflexivity|].
    split; [reflexivity|]. split; [reflexivity|].
    unfold TreeView.insertChild.
    cbn [SearchResultItem.children].
    assert (Hgroup : forall g,
              SearchResultShelvedSubTree.label g =
                ("Shelved Files (" ++ JS.ofNat n ++ ")")%string ->
              isShelvedGroup (ShelvedChild g) = true).
    { intros g Hg. unfold isShelvedGroup. cbn [labelText]. now rewrite Hg. }
    cbn [List.filter]. rewrite Hgroup by reflexivity.
    cbn [negb length]. rewrite Hkept, Hnone.
    split; [reflexivity|]. split; [reflexivity|].
    split; [apply Nat.ltb_lt in En; lia|].
    intros _. eexists. split; [reflexivity|].
    cbn [SearchResultShelvedSubTree.label SearchResultShelvedSubTree.children].
    split; [reflexivity|].
    rewrite addChild_all. cbn [app].
    rewrite (imap_map_inner _ _ id); [apply List.map_id | reflexivity].
  - unfold ret, bind. do 2 eexists. split; [reflexivity|].
    split; [reflexivity|]. split; [reflexivity|].
    cbn [SearchResultItem.children]. rewrite Hkept, Hnone.
    apply Nat.ltb_ge in En.
    repeat split; auto. lia.
Qed.

(** X12: [addShelvedFiles] never fails and leaves at most one group of shelved
    files on the item, whatever groups it had: the children that are not
    such groups are kept, in order, and one new group, with one child per
    shelved file, is put before them when the description lists a shelved
    file. *)
Theorem addShelvedFiles_one_group (detail : DescribedChangelist.t)
    (this : SearchResultItem.t) (st : State W) :
  let kept :=
    List.filter (fun c => negb (isShelvedGroup c))
      (SearchResultItem.children this) in
  let n := length (DescribedChangelist.shelvedFiles detail) in
  exists this' st',
    addShelvedFiles detail this st = (Ok this', st') /\
    List.filter (fun c => negb (isShelvedGroup c))
      (SearchResultItem.children this') = kept /\
    length (List.filter isShelvedGroup (SearchResultItem.children this'))
    = (if (0 <? n)%nat then 1 else 0)%nat /\
    (n = 0%nat -> SearchResultItem.children this' = kept) /\
    ((0 < n)%nat ->
     exists group,
       SearchResultItem.children this' = ShelvedChild group :: kept /\
       SearchResultShelvedSubTree.label group =
         ("Shelved Files (" ++ JS.ofNat n ++ ")")%string /\
       map SearchResultShelvedFile._file
           (SearchResultShelvedSubTree.children group) =
         DescribedChangelist.shelvedFiles detail).
Proof.
  intros kept n.
  destruct (addShelvedFiles_run detail this st)
    as (this' & st' & Hrun & _ & _ & H).
  exists this', st'. split; [exact Hrun | exact H].
Qed.

End MakingItems.

(** ** The requests and the answers of a result tree *)

Section TreeRequests.
Context {W : Type} {API : PerforceApi W} {SA : SearchApi W}.
Import ChangelistTreeView.

(** The request for the details of the changelists of a list of results. *)
Definition detailsRequest (resource : Uri) (results : list ChangeInfo.t)
    : list Event :=
  match results with
  | [] => []
  | _ :: _ =>
      [CliDescribe resource {|
         DescribeOptions.chnums := map ChangeInfo.chnum results;
         DescribeOptions.omitDiffs := Some true;
         DescribeOptions.shelved := None |}]
  end.

Lemma newSearchResultTree_trace (kind : Kind) (resource : Uri)
    (results : list ChangeInfo.t) (label : string) (st : State W) :
  exists this st',
    newSearchResultTree kind resource results label st = (Ok this, st') /\
    world st' = world st /\
    trace st' =
      (trace st ++ detailsRequest resource (SearchResultTree._results this))%list /\
    SearchResultTree._results this = TsUtils.dedupe results ChangeInfo.chnum.
Proof.
  unfold newSearchResultTree. unfold bind at 1. cbn [fresh].
  unfold bind at 1. unfold newSearchResultItem.
  rewrite (mapM_fresh (fun oid change => {|
             SearchResultItem.oid := oid;
             SearchResultItem._resource := resource;
             SearchResultItem._change := change;
             SearchResultItem.label :=
               (ChangeInfo.chnum change ++ ": " ++
                JS.slice (JS.join " " (ChangeInfo.description change))
                  0 (Some 32))%string;
             SearchResultItem.description := ChangeInfo.user change;
             SearchResultItem.tooltip :=
               JS.join " " (ChangeInfo.description change);
             SearchResultItem.collapsibleState := NoneState;
             SearchResultItem.children := [] |})).
  cbn [world trace nextOid]. unfold bind at 1.
  unfold populateChangeDetails_request.
  cbn [SearchResultTree._results SearchResultTree._resource].
  destruct (TsUtils.dedupe results ChangeInfo.chnum) as [|r rs] eqn:Hd.
  - cbn. do 2 eexists. split; [reflexivity|]. cbn.
    rewrite app_nil_r. repeat split; auto.
  - cbn [length Nat.ltb Nat.leb]. unfold emit, bind, ret. cbn [world trace nextOid].
    do 2 eexists. split; [reflexivity|].
    cbn [world trace SearchResultTree._results detailsRequest].
    repeat split; auto.
Qed.

(** X13: The constructor of a result tree never fails, and all it does to the
    outside is to ask once for the description of the changelists of its
    results, each number once; it asks nothing when there is no result. *)
Theorem newSearchResultTree_request (kind : Kind) (resource : Uri)
    (results : list ChangeInfo.t) (label : string) (st : State W) :
  exists this st',
    newSearchResultTree kind resource results label st = (Ok this, st') /\
    world st' = world st /\
    trace st' =
      (trace st ++ detailsRequest resource (SearchResultTree._results this))%list /\
    SearchResultTree._results this = TsUtils.dedupe results ChangeInfo.chnum /\
    NoDup (map ChangeInfo.chnum (SearchResultTree._results this)) /\
    (results = [] -> trace st' = trace st).
Proof.
  destruct (newSearchResultTree_trace kind resource results label st)
    as (this & st' & Hrun & Hw & Ht & Hres).
  exists this, st'. repeat split; auto.
  - rewrite Hres. apply dedupe_NoDup.
  - intros ->. rewrite Ht, Hres. cbn. now rewrite app_nil_r.
Qed.

(** The last description of a changelist in a list of descriptions. *)
Fixpoint lastDescription (chnum : string)
    (descriptions : list DescribedChangelist.t)
    : option DescribedChangelist.t :=
  match descriptions with
  | [] => None
  | d :: rest =>
      match lastDescription chnum rest with
      | Some d' => Some d'
      | None =>
          if String.eqb chnum (DescribedChangelist.chnum d) then Some d
          else None
      end
  end.

(** An item shows the files of a description. *)
Definition showsFilesOf (d : DescribedChangelist.t) (c : SearchResultItem.t)
    : Prop :=
  exists files,
    SearchResultItem.children c = map FileChild files /\
    map SearchResultFile._file files = DescribedChangelist.affectedFiles d /\
    Forall (fun f => SearchResultFile._change f = d) files.

Lemma addDetails_shows (d : DescribedChangelist.t) (c : SearchResultItem.t)
    (st : State W) :
  exists c' st',
    addDetails d c st = (Ok c', st') /\
    SearchResultItem.oid c' = SearchResultItem.oid c /\
    SearchResultItem._change c' = SearchResultItem._change c /\
    showsFilesOf d c'.
Proof.
  destruct (addDetails_run d c st) as (c' & Hrun & Hch & _ & Ho & Hc).
  exists c'. eexists. split; [exact Hrun|]. repeat split; auto.
  eexists. split; [exact Hch|]. split; [apply detailFiles_files|].
  unfold detailFiles. apply Forall_lookup_2. intros i f Hf.
  rewrite list_lookup_imap in Hf.
  destruct (DescribedChangelist.affectedFiles d !! i); [|discriminate Hf].
  injection Hf as <-. reflexivity.
Qed.

Lemma updateFound_addDetails (d : DescribedChangelist.t)
    (l : list SearchResultItem.t) (st : State W) :
  NoDup (map SearchResultItem.chnum l) ->
  exists l' st',
    updateFound (DescribedChangelist.chnum d) (addDetails d) l st
    = (Ok l', st') /\
    map SearchResultItem.chnum l' = map SearchResultItem.chnum l /\
    forall i c,
      l !! i = Some c ->
      exists c',
        l' !! i = Some c' /\
        SearchResultItem.oid c' = SearchResultItem.oid c /\
        SearchResultItem._change c' = SearchResultItem._change c /\
        if String.eqb (SearchResultItem.chnum c) (DescribedChangelist.chnum d)
        then showsFilesOf d c' else c' = c.
Proof.
  revert st. induction l as [|x l IH]; intros st Hnd.
  - exists [], st. split; [reflexivity|]. split; [reflexivity|].
    intros i c Hi. discriminate Hi.
  - cbn [updateFound].
    destruct (String.eqb (SearchResultItem.chnum x) (DescribedChangelist.chnum d))
      eqn:E.
    + destruct (addDetails_shows d x st) as (x' & st' & Hrun & Ho & Hc & Hs).
      exists (x' :: l), st'. unfold bind. rewrite Hrun. split; [reflexivity|].
      assert (Hk : SearchResultItem.chnum x' = SearchResultItem.chnum x)
        by (unfold SearchResultItem.chnum; now rewrite Hc).
      split; [cbn; now rewrite Hk|].
      intros [|i] c Hi; cbn in Hi.
      * injection Hi as <-. exists x'. rewrite E. repeat split; auto.
      * exists c. cbn. repeat split; auto.
        destruct (String.eqb (SearchResultItem.chnum c)
                    (DescribedChangelist.chnum d)) eqn:E'; [|reflexivity].
        exfalso. apply String.eqb_eq in E, E'.
        apply NoDup_cons in Hnd as [Hnin _]. apply Hnin.
        rewrite E, <- E'.
        apply (list_elem_of_fmap_2 SearchResultItem.chnum).
        eapply list_elem_of_lookup_2, Hi.
    + apply NoDup_cons in Hnd as [_ Hnd].
      destruct (IH st Hnd) as (l' & st' & Hrun & Hk & Hl).
      exists (x :: l'), st'. unfold bind. rewrite Hrun. split; [reflexivity|].
      split; [cbn; now rewrite Hk|].
      intros [|i] c Hi; cbn in Hi.
      * injection Hi as <-. exists x. rewrite E. repeat split; auto.
      * apply (Hl i c Hi).
Qed.

Lemma forEachDescription_addDetails (ds : list DescribedChangelist.t)
    (l : list SearchResultItem.t) (st : State W) :
  NoDup (map SearchResultItem.chnum l) ->
  exists l' st',
    forEachDescription addDetails ds l st = (Ok l', st') /\
    forall i c,
      l !! i = Some c ->
      exists c',
        l' !! i = Some c' /\
        SearchResultItem.oid c' = SearchResultItem.oid c /\
        SearchResultItem._change c' = SearchResultItem._change c /\
        match lastDescription (SearchResultItem.chnum c) ds with
        | Some d => showsFilesOf d c'
        | None => c' = c
        end.
Proof.
  revert l st. induction ds as [|d ds IH]; intros l st Hnd.
  - exists l, st. split; [reflexivity|]. intros i c Hi. exists c. now repeat split.
  - cbn [forEachDescription].
    destruct (updateFound_addDetails d l st Hnd) as (l1 & st1 & Hrun1 & Hk & H1).
    assert (Hnd1 : NoDup (map SearchResultItem.chnum l1)) by now rewrite Hk.
    destruct (IH l1 st1 Hnd1) as (l' & st' & Hrun & H2).
    exists l', st'. unfold bind. rewrite Hrun1. split; [exact Hrun|].
    intros i c Hi.
    destruct (H1 i c Hi) as (c1 & Hi1 & Ho1 & Hc1 & Hs1).
    destruct (H2 i c1 Hi1) as (c' & Hi' & Ho' & Hc' & Hs').
    exists c'. split; [assumption|]. split; [congruence|]. split; [congruence|].
    assert (Hk1 : SearchResultItem.chnum c1 = SearchResultItem.chnum c)
      by (unfold SearchResultItem.chnum; now rewrite Hc1).
    rewrite Hk1 in Hs'. cbn [lastDescription].
    destruct (lastDescription (SearchResultItem.chnum c) ds); [assumption|].
    destruct (String.eqb (SearchResultItem.chnum c) (DescribedChangelist.chnum d));
      [now subst c'|congruence].
Qed.

(** X14: When the descriptions of the changelists arrive, [populateChangeDetails]
    goes on without failing: every result whose changelist is described gets
    the affected files of the (last) description of its changelist as
    children, one per file and in order, and every other result is left as
    it is; a description of a changelist that is not among the results
    changes nothing.  All results keep their identity and their place. *)
Theorem populateChangeDetails_resume_files
    (descriptions : list DescribedChangelist.t)
    (this : SearchResultTree.t) (st : State W) :
  reachable this st ->
  exists this' st',
    populateChangeDetails_resume descriptions this st = (Ok this', st') /\
    SearchResultTree._results this' = SearchResultTree._results this /\
    forall i c,
      SearchResultTree.children this !! i = Some c ->
      exists c',
        SearchResultTree.children this' !! i = Some c' /\
        SearchResultItem.oid c' = SearchResultItem.oid c /\
        SearchResultItem._change c' = SearchResultItem._change c /\
        match lastDescription (SearchResultItem.chnum c) descriptions with
        | Some d => showsFilesOf d c'
        | None => c' = c
        end.
Proof.
  intros Hreach.
  destruct (reachable_inv this st Hreach) as [(Hnd & Hch & _) _].
  assert (Hndc : NoDup (map SearchResultItem.chnum (SearchResultTree.children this))).
  { unfold SearchResultItem.chnum.
    rewrite <- (List.map_map SearchResultItem._change ChangeInfo.chnum).
    now rewrite Hch. }
  destruct (forEachDescription_addDetails descriptions _ st Hndc)
    as (l' & st1 & Hrun & Hl).
  unfold populateChangeDetails_resume. unfold bind at 1. rewrite Hrun.
  unfold bind at 1. unfold TreeView.didChange, emit. cbn [world trace nextOid].
  set (st2 := mkState _ _ _).
  destruct (populateShelvedFiles_request_run (withChildren this l') st2)
    as (t & Ht).
  unfold bind. rewrite Ht. do 2 eexists. split; [reflexivity|].
  split; [reflexivity|]. exact Hl.
Qed.

(** The children of an item that are not groups of shelved files. *)
Definition keptChildren (c : SearchResultItem.t) : list ItemChild :=
  List.filter (fun child => negb (isShelvedGroup child))
    (SearchResultItem.children c).

(** Item [c'] is item [c] with the shelved files of a description: its own
    group of shelved files, if the description lists any, and then the
    children of [c] that are not such groups. *)
Definition showsShelvedOf (d : DescribedChangelist.t)
    (c c' : SearchResultItem.t) : Prop :=
  keptChildren c' = keptChildren c /\
  match DescribedChangelist.shelvedFiles d with
  | [] => SearchResultItem.children c' = keptChildren c
  | _ :: _ =>
      exists group,
        SearchResultItem.children c' = ShelvedChild group :: keptChildren c /\
        map SearchResultShelvedFile._file
            (SearchResultShelvedSubTree.children group) =
          DescribedChangelist.shelvedFiles d
  end.

Lemma addShelvedFiles_shows (d : DescribedChangelist.t)
    (c : SearchResultItem.t) (st : State W) :
  exists c' st',
    addShelvedFiles d c st = (Ok c', st') /\
    SearchResultItem.oid c' = SearchResultItem.oid c /\
    SearchResultItem._change c' = SearchResultItem._change c /\
    showsShelvedOf d c c'.
Proof.
  destruct (addShelvedFiles_run d c st)
    as (c' & st' & Hrun & Ho & Hc & Hkept & _ & Hnone & Hsome).
  exists c', st'. split; [exact Hrun|]. split; [exact Ho|].
  split; [exact Hc|]. split; [exact Hkept|].
  destruct (DescribedChangelist.shelvedFiles d) as [|f fs] eqn:E.
  - now apply Hnone.
  - destruct Hsome as (group & Hch & _ & Hfiles); [cbn; lia|].
    exists group. split; [exact Hch | exact Hfiles].
Qed.

Lemma showsShelvedOf_again (d d' : DescribedChangelist.t)
    (c c1 c' : SearchResultItem.t) :
  showsShelvedOf d c c1 -> showsShelvedOf d' c1 c' -> showsShelvedOf d' c c'.
Proof.
  intros [Hk _] [Hk' H]. unfold showsShelvedOf in *.
  rewrite Hk in Hk', H. now split.
Qed.

Lemma updateFound_addShelvedFiles (d : DescribedChangelist.t)
    (l : list SearchResultItem.t) (st : State W) :
  NoDup (map SearchResultItem.chnum l) ->
  exists l' st',
    updateFound (DescribedChangelist.chnum d) (addShelvedFiles d) l st
    = (Ok l', st') /\
    map SearchResultItem.chnum l' = map SearchResultItem.chnum l /\
    forall i c,
      l !! i = Some c ->
      exists c',
        l' !! i = Some c' /\
        SearchResultItem.oid c' = SearchResultItem.oid c /\
        SearchResultItem._change c' = SearchResultItem._change c /\
        if String.eqb (SearchResultItem.chnum c) (DescribedChangelist.chnum d)
        then showsShelvedOf d c c' else c' = c.
Proof.
  revert st. induction l as [|x l IH]; intros st Hnd.
  - exists [], st. split; [reflexivity|]. split; [reflexivity|].
    intros i c Hi. discriminate Hi.
  - cbn [updateFound].
    destruct (String.eqb (SearchResultItem.chnum x) (DescribedChangelist.chnum d))
      eqn:E.
    + destruct (addShelvedFiles_shows d x st)
        as (x' & st' & Hrun & Ho & Hc & Hs).
      exists (x' :: l), st'. unfold bind. rewrite Hrun. split; [reflexivity|].
      assert (Hk : SearchResultItem.chnum x' = SearchResultItem.chnum x)
        by (unfold SearchResultItem.chnum; now rewrite Hc).
      split; [cbn; now rewrite Hk|].
      intros [|i] c Hi; cbn in Hi.
      * injection Hi as <-. exists x'. rewrite E. repeat split; auto;
          apply Hs.
      * exists c. cbn. repeat split; auto.
        destruct (String.eqb (SearchResultItem.chnum c)
                    (DescribedChangelist.chnum d)) eqn:E'; [|reflexivity].
        exfalso. apply String.eqb_eq in E, E'.
        apply NoDup_cons in Hnd as [Hnin _]. apply Hnin.
        rewrite E, <- E'.
        apply (list_elem_of_fmap_2 SearchResultItem.chnum).
        eapply list_elem_of_lookup_2, Hi.
    + apply NoDup_cons in Hnd as [_ Hnd].
      destruct (IH st Hnd) as (l' & st' & Hrun & Hk & Hl).
      exists (x :: l'), st'. unfold bind. rewrite Hrun. split; [reflexivity|].
      split; [cbn; now rewrite Hk|].
      intros [|i] c Hi; cbn in Hi.
      * injection Hi as <-. exists x. rewrite E. repeat split; auto.
      * apply (Hl i c Hi).
Qed.

Lemma forEachDescription_addShelvedFiles (ds : list DescribedChangelist.t)
    (l : list SearchResultItem.t) (st : State W) :
  NoDup (map SearchResultItem.chnum l) ->
  exists l' st',
    forEachDescription addShelvedFiles ds l st = (Ok l', st') /\
    forall i c,
      l !! i = Some c ->
      exists c',
        l' !! i = Some c' /\
        SearchResultItem.oid c' = SearchResultItem.oid c /\
        SearchResultItem._change c' = SearchResultItem._change c /\
        match lastDescription (SearchResultItem.chnum c) ds with
        | Some d => showsShelvedOf d c c'
        | None => c' = c
        end.
Proof.
  revert l st. induction ds as [|d ds IH]; intros l st Hnd.
  - exists l, st. split; [reflexivity|]. intros i c Hi. exists c. now repeat split.
  - cbn [forEachDescription].
    destruct (updateFound_addShelvedFiles d l st Hnd)
      as (l1 & st1 & Hrun1 & Hk & H1).
    assert (Hnd1 : NoDup (map SearchResultItem.chnum l1)) by now rewrite Hk.
    destruct (IH l1 st1 Hnd1) as (l' & st' & Hrun & H2).
    exists l', st'. unfold bind. rewrite Hrun1. split; [exact Hrun|].
    intros i c Hi.
    destruct (H1 i c Hi) as (c1 & Hi1 & Ho1 & Hc1 & Hs1).
    destruct (H2 i c1 Hi1) as (c' & Hi' & Ho' & Hc' & Hs').
    exists c'. split; [assumption|]. split; [congruence|]. split; [congruence|].
    assert (Hk1 : SearchResultItem.chnum c1 = SearchResultItem.chnum c)
      by (unfold SearchResultItem.chnum; now rewrite Hc1).
    rewrite Hk1 in Hs'. cbn [lastDescription].
    destruct (lastDescription (SearchResultItem.chnum c) ds) as [d'|].
    + destruct (String.eqb (SearchResultItem.chnum c)
                  (DescribedChangelist.chnum d));
        [exact (showsShelvedOf_again d d' c c1 c' Hs1 Hs') | now subst c1].
    + destruct (String.eqb (SearchResultItem.chnum c)
                  (DescribedChangelist.chnum d)); [now subst c'|congruence].
Qed.

(** X15: When the descriptions of the shelved files arrive,
    [populateShelvedFiles] goes on without failing.  Every result whose
    changelist is described gets, according to the last description of its
    changelist, one group of shelved files before its other children when
    that description lists shelved files, and no such group when it lists
    none; the other children stay, in order, and any group the result had
    before is gone.  A result whose changelist is not described is left as
    it is, and all results keep their identity and their place. *)
Theorem populateShelvedFiles_resume_groups
    (shelvedDescriptions : list DescribedChangelist.t)
    (this : SearchResultTree.t) (st : State W) :
  reachable this st ->
  exists this' st',
    populateShelvedFiles_resume shelvedDescriptions this st = (Ok this', st') /\
    SearchResultTree._results this' = SearchResultTree._results this /\
    forall i c,
      SearchResultTree.children this !! i = Some c ->
      exists c',
        SearchResultTree.children this' !! i = Some c' /\
        SearchResultItem.oid c' = SearchResultItem.oid c /\
        SearchResultItem._change c' = SearchResultItem._change c /\
        match lastDescription (SearchResultItem.chnum c) shelvedDescriptions with
        | Some d => showsShelvedOf d c c'
        | None => c' = c
        end.
Proof.
  intros Hreach.
  destruct (reachable_inv this st Hreach) as [(Hnd & Hch & _) _].
  assert (Hndc : NoDup (map SearchResultItem.chnum (SearchResultTree.children this))).
  { unfold SearchResultItem.chnum.
    rewrite <- (List.map_map SearchResultItem._change ChangeInfo.chnum).
    now rewrite Hch. }
  destruct (forEachDescription_addShelvedFiles shelvedDescriptions _ st Hndc)
    as (l' & st1 & Hrun & Hl).
  unfold populateShelvedFiles_resume. unfold bind at 1. rewrite Hrun.
  unfold bind, TreeView.didChange, emit, ret. cbn [world trace nextOid].
  do 2 eexists. split; [reflexivity|]. split; [reflexivity|]. exact Hl.
Qed.

(** X16: When the new results cannot be fetched, [refresh] fails with the error
    of the fetch after its one request: no child is disposed of and the
    tree is not revealed. *)
Theorem refresh_fetch_fails (this : SearchResultTree.t) (st st1 : State W)
    (e : JsError) :
  getNewResults this st = (Throw e, st1) ->
  refresh this st = (Throw e, st1) /\
  exists request,
    isCliRequest request = true /\
    trace st1 = (trace st ++ [request])%list.
Proof.
  intros H. split.
  - unfold refresh. now rewrite (bind_throw _ _ _ _ _ H).
  - apply (getNewResults_run _ _ _ _ H).
Qed.

(** X17: The context value of a result tree is computed once, in the
    constructor and before the tree can be pinned: it is "results-unpinned"
    on every tree, also on a pinned one, for neither [pin] nor [unpin] nor a
    refresh computes it again. *)
Theorem contextValue_never_pinned (this : SearchResultTree.t) (st : State W) :
  reachable this st ->
  SearchResultTree.contextValue this = "results-unpinned".
Proof.
  assert (Hnew : forall kind resource results label s this0 s',
            newSearchResultTree kind resource results label s = (Ok this0, s') ->
            SearchResultTree.contextValue this0 = "results-unpinned").
  { intros kind resource results label s this0 s' H.
    unfold newSearchResultTree in H.
    apply bind_inv in H as (oid & st1 & _ & H).
    apply bind_inv in H as (children & st2 & _ & H).
    apply bind_inv in H as ([] & st3 & _ & H).
    now injection H as <- _. }
  induction 1 as
    [ resource result st this st' Hrun
    | resource filters results st this st' Hrun
    | newResults this st this' st' _ IH Hrun
    | ds this st this' st' _ IH Hrun
    | ds this st this' st' _ IH Hrun
    | pinned this st this' st' _ IH Hrun
    | this st st' _ IH Hle ].
  - unfold newSingleChangeResultTree in Hrun.
    apply bind_inv in Hrun as (this0 & st0 & Hrun & Hpin).
    apply Hnew in Hrun.
    unfold pin, setPinned, bind in Hpin. cbn in Hpin.
    now injection Hpin as <- _.
  - exact (Hnew _ _ _ _ _ _ _ Hrun).
  - unfold refresh_resume in Hrun.
    apply bind_inv in Hrun as (cleared & st1 & _ & Hrun).
    apply bind_inv in Hrun as (children & st2 & _ & Hrun).
    apply bind_inv in Hrun as ([] & st3 & _ & Hrun).
    apply bind_inv in Hrun as ([] & st4 & _ & Hrun).
    now injection Hrun as <- _.
  - unfold populateChangeDetails_resume in Hrun.
    apply bind_inv in Hrun as (children & st1 & _ & Hrun).
    apply bind_inv in Hrun as ([] & st2 & _ & Hrun).
    apply bind_inv in Hrun as ([] & st3 & _ & Hrun).
    now injection Hrun as <- _.
  - unfold populateShelvedFiles_resume in Hrun.
    apply bind_inv in Hrun as (children & st1 & _ & Hrun).
    apply bind_inv in Hrun as ([] & st2 & _ & Hrun).
    now injection Hrun as <- _.
  - unfold setPinned, bind in Hrun. cbn in Hrun. now injection Hrun as <- _.
  - exact IH.
Qed.

End TreeRequests.

(** ** The list of all results *)

Section AllResults.
Context {W : Type} {API : PerforceApi W} {SA : SearchApi W}.
Import ChangelistTreeView AllResultsTree.

Lemma newSearchResultTree_fields (kind : Kind) (resource : Uri)
    (results : list ChangeInfo.t) (label : string)
    (st st' : State W) (this : SearchResultTree.t) :
  newSearchResultTree kind resource results label st = (Ok this, st') ->
  SearchResultTree._isPinned this = false /\
  SearchResultTree.kind this = kind /\
  SearchResultTree.label this = label /\
  SearchResultTree._results this = TsUtils.dedupe results ChangeInfo.chnum.
Proof.
  intros H. unfold newSearchResultTree in H.
  apply bind_inv in H as (oid & st1 & _ & H).
  apply bind_inv in H as (children & st2 & _ & H).
  apply bind_inv in H as ([] & st3 & _ & H).
  injection H as <- _. repeat split.
Qed.

(** The run of [addResults]. *)
Lemma addResults_run (client : ClientRoot) (filters : Filters)
    (results : list ChangeInfo.t) (this : AllResultsTree.t) (st : State W) :
  exists child st',
    addResults client filters results this st =
      (Ok {| oid := oid this;
             children :=
               (List.filter SearchResultTree._isPinned (children this)
                ++ [child])%list |}, st') /\
    SearchResultTree._isPinned child = false /\
    SearchResultTree.kind child = MultiSearch filters /\
    SearchResultTree._results child =
      TsUtils.dedupe results ChangeInfo.chnum /\
    world st' = world st /\
    exists t,
      trace st' =
        (trace st ++
         map (fun c => Disposed (SearchResultTree.oid c))
             (List.filter isUnpinned (children this)) ++ t)%list.
Proof.
  unfold addResults, removeUnpinned.
  unfold bind at 1. unfold bind at 1. rewrite disposeWhere_run.
  cbn [ret]. set (st1 := mkState _ _ _).
  pose proof (newSearchResultTree_trace (MultiSearch filters)
                (configSource client) results
                (makeFilterLabelText filters (length results)) st1)
    as (child & st2 & Hnew & Hw & Ht & _).
  destruct (newSearchResultTree_fields _ _ _ _ _ _ _ Hnew)
    as (Hpin & Hkind & _ & Hres).
  unfold newMultiSearchResultTree. unfold bind at 1. rewrite Hnew.
  unfold bind, TreeView.didChange, TreeView.reveal, emit, ret.
  cbn [world trace nextOid oid children]. unfold TreeView.addChild.
  exists child. eexists. split.
  { do 3 f_equal. f_equal. apply List.filter_ext. intros c.
    unfold isUnpinned. now rewrite negb_involutive. }
  repeat split; auto. cbn [trace]. rewrite Ht. subst st1. cbn [trace].
  eexists. rewrite <- !app_assoc. reflexivity.
Qed.

(** X18: A search from the root of the view.  Without a selected context it
    tells the user and throws, and nothing is asked of the command-line
    client.  With a context and an answer of the client, it disposes of the
    result trees that are not pinned, keeps the pinned ones in their order,
    and adds after them one tree, not pinned, for the answered changelists
    without duplicates. *)
Theorem rootExecuteSearch_results (root : nat) (filters : Filters)
    (this : AllResultsTree.t) (st : State W) :
  rootExecuteSearch root None filters this st =
    (Throw (Error "No context for changelist search"),
     mkState (world st)
       (trace st ++
        [ShowImportantError "Please choose a context before searching"])
       (nextOid st)) /\
  forall (client : ClientRoot) (results : list ChangeInfo.t) (w : W),
    answerGetChangelists (configSource client) filters
      changelistSearchMaxResults (world st) = (Ok results, w) ->
    exists this' child st',
      rootExecuteSearch root (Some client) filters this st = (Ok this', st') /\
      children this' =
        (List.filter SearchResultTree._isPinned (children this) ++ [child])%list /\
      SearchResultTree._isPinned child = false /\
      SearchResultTree._results child =
        TsUtils.dedupe results ChangeInfo.chnum /\
      world st' = w /\
      (exists t,
         trace st' =
           (trace st ++ CliGetChangelists (configSource client) :: t)%list) /\
      forall c, c ∈ children this ->
                SearchResultTree._isPinned c = false ->
                Disposed (SearchResultTree.oid c) ∈ trace st'.
Proof.
  split; [reflexivity|].
  intros client results w Hans.
  unfold rootExecuteSearch, executeSearch.
  unfold bind at 1. unfold cli. rewrite Hans. set (st1 := mkState _ _ _).
  destruct (addResults_run client filters results this st1)
    as (child & st2 & Hrun & Hpin & _ & Hres & Hw & t & Ht).
  unfold bind at 1. rewrite Hrun.
  unfold bind, TreeView.didChange, emit, ret.
  do 3 eexists. split; [reflexivity|].
  cbn [children world trace]. repeat split; auto.
  - rewrite Ht. subst st1. cbn [trace]. eexists.
    rewrite <- !app_assoc. cbn [app]. reflexivity.
  - intros c Hc Hu. rewrite Ht. rewrite !elem_of_app. left. right. left.
    apply (list_elem_of_fmap_2 (fun c => Disposed (SearchResultTree.oid c))).
    apply list_elem_of_In, filter_In. split; [now apply list_elem_of_In|].
    unfold isUnpinned. now rewrite Hu.
Qed.

(** X19: A changelist brought into focus stays in the view through a later
    search: its tree is pinned from its construction, and a search only
    removes the trees that are not pinned. *)
Theorem focusChangelist_survives_search (root : nat) (resource : Uri)
    (described : DescribedChangelist.t) (client : ClientRoot)
    (filters : Filters) (this this1 this2 : AllResultsTree.t)
    (st st1 st2 : State W) :
  focusChangelist root resource described this st = (Ok this1, st1) ->
  rootExecuteSearch root (Some client) filters this1 st1 = (Ok this2, st2) ->
  exists child,
    children this1 = (children this ++ [child])%list /\
    child ∈ children this2 /\
    SearchResultTree._isPinned child = true /\
    SearchResultTree.kind child = SingleChange described /\
    SearchResultTree.label child =
      ("Focused changelist " ++ DescribedChangelist.chnum described)%string.
Proof.
  intros Hfocus Hsearch.
  unfold focusChangelist, addSingleResult in Hfocus.
  apply bind_inv in Hfocus as (this1' & st1' & Hadd & Hfocus).
  apply bind_inv in Hfocus as ([] & ? & _ & Hfocus). injection Hfocus as <- _.
  apply bind_inv in Hadd as (child & st0 & Hnew & Hadd).
  apply bind_inv in Hadd as ([] & ? & _ & Hadd).
  apply bind_inv in Hadd as ([] & ? & _ & Hadd). injection Hadd as <- _.
  unfold newSingleChangeResultTree in Hnew.
  apply bind_inv in Hnew as (child0 & st00 & Hnew & Hpin).
  apply newSearchResultTree_fields in Hnew as (_ & Hkind & Hlabel & _).
  unfold pin, setPinned, bind in Hpin. cbn in Hpin. injection Hpin as <- _.
  unfold rootExecuteSearch in Hsearch.
  apply bind_inv in Hsearch as (results & st3 & _ & Hsearch).
  apply bind_inv in Hsearch as (this2' & st4 & Hres & Hsearch).
  apply bind_inv in Hsearch as ([] & ? & _ & Hsearch).
  injection Hsearch as <- _.
  match type of Hres with
  | addResults _ _ _ ?a _ = _ =>
      destruct (addResults_run client filters results a st3)
        as (new & st5 & Hrun & _)
  end.
  rewrite Hres in Hrun. injection Hrun as -> _.
  eexists. split; [reflexivity|]. cbn [children]. unfold TreeView.addChild.
  split; [|repeat split; auto].
  rewrite List.filter_app. cbn [List.filter SearchResultTree._isPinned].
  rewrite !elem_of_app. left. right. apply elem_of_cons. now left.
Qed.

End AllResults.

(** ** The file items and the labels of the results *)

Section FileItems.
Context {ST : StatusApi}.
Import ChangelistTreeView ResultFiles.

(** X20: The context value of the item of an affected file: a file of a pending
    changelist can be neither diffed nor opened, a file of a submitted one
    can always be diffed, and opened unless its operation deletes it.  An
    item that can be opened can thus always be diffed. *)
Theorem contextValue_cases (this : SearchResultFile.t) :
  contextValue this =
    (if DescribedChangelist.isPending (SearchResultFile._change this)
     then "fileResult"
     else if operationDeletesFile
               (GetStatus (DepotFileOperation.operation
                             (SearchResultFile._file this)))
     then "fileResult-diffable"
     else "fileResult-diffable-openable") /\
  (canOpen this = true -> canDiff this = true).
Proof.
  unfold contextValue, canOpen, canDiff.
  destruct (DescribedChangelist.isPending _); cbn; [split; [reflexivity|discriminate]|].
  destruct (operationDeletesFile _); cbn; split; auto.
Qed.

End FileItems.

Section ItemLabels.
Context {W : Type}.
Import ChangelistTreeView.

Lemma slice_prefix (s : string) (n : nat) :
  JS.slice s 0 (Some (Z.of_nat n)) = JS.take n s.
Proof.
  unfold JS.slice, JS.relIndex, JS.len. cbn [Z.ltb Z.compare].
  destruct (Z.ltb_spec (Z.of_nat n) 0); [lia|].
  rewrite (Z.min_l 0) by lia. change (Z.to_nat 0) with 0%nat.
  cbn [JS.drop]. rewrite Z.sub_0_r.
  destruct (Z.le_gt_cases (Z.of_nat n) (Z.of_nat (String.length s))).
  - rewrite Z.min_l, Z.max_l by lia. now rewrite Nat2Z.id.
  - rewrite Z.min_r by lia. rewrite Z.max_l by lia. rewrite Nat2Z.id.
    rewrite !take_length_ge by lia. reflexivity.
Qed.

Lemma take_length_le (n : nat) (s : string) :
  (String.length (JS.take n s) <= n)%nat.
Proof.
  revert s. induction n as [|n IH]; intros [|c s]; cbn; try lia.
  specialize (IH s). lia.
Qed.

Lemma append_length (a b : string) :
  String.length (a ++ b)%string = (String.length a + String.length b)%nat.
Proof. induction a as [|c a IH]; simpl; [reflexivity | now rewrite IH]. Qed.

(** X21: The label of a search result is the changelist number, a colon and a
    space, and the first 32 code units of its tooltip, the description on
    one line; it is never longer than the number and 34 code units. *)
Theorem newSearchResultItem_label (resource : Uri) (change : ChangeInfo.t)
    (st : State W) :
  exists item,
    newSearchResultItem resource change st =
      (Ok item, mkState (world st) (trace st) (S (nextOid st))) /\
    SearchResultItem.oid item = nextOid st /\
    SearchResultItem.tooltip item = JS.join " " (ChangeInfo.description change) /\
    SearchResultItem.label item =
      (ChangeInfo.chnum change ++ ": " ++
       JS.take 32 (SearchResultItem.tooltip item))%string /\
    (String.length (SearchResultItem.label item)
     <= String.length (ChangeInfo.chnum change) + 34)%nat.
Proof.
  unfold newSearchResultItem, bind. cbn [fresh ret].
  eexists. split; [reflexivity|].
  cbn [SearchResultItem.oid SearchResultItem.tooltip SearchResultItem.label].
  change 32 with (Z.of_nat 32). rewrite slice_prefix.
  repeat split.
  rewrite !append_length. cbn [String.length].
  pose proof (take_length_le 32 (JS.join " " (ChangeInfo.description change))).
  lia.
Qed.

End ItemLabels.

(** ** The further properties on the scripted world *)

Section FurtherScenario.
Import Scenario.

#[local] Existing Instance CommandUtilsModel.model.

Lemma getBasicField_first_witness :
  exists (i : nat) (f : RawField),
    SpecParser.parseSpecOutput sampleSpec !! i = Some f /\
    name f = "Files" /\ value f = ["//depot/a"; ""] /\
    forall (j : nat) (g : RawField),
      (j < i)%nat -> SpecParser.parseSpecOutput sampleSpec !! j = Some g ->
      name g <> "Files".
Proof.
  exact (getBasicField_first (SpecParser.parseSpecOutput sampleSpec) "Files").
Defined.

Definition noHave : World := {|
  haveRecord := None;
  history := threeRevisions;
  described := [];
  shelvedDescribed := [];
  searchResults := [];
|}.

Lemma getChangeDetails_no_revision_requests_witness :
  exists st',
    FileQuickPick.getChangeDetails (fileUri "head") None None (start noHave) =
      (Throw (Error "No revision available for perforce:////depot/a.txt#head"),
       st') /\
    world st' = noHave /\
    trace st' =
      [ CliHave (fileUri "head") (fileUri "head");
        ShowError "Unable to get file details without a revision" ].
Proof.
  destruct (getChangeDetails_no_revision_requests (fileUri "head") None None
              (start noHave)
              (mkState noHave [CliHave (fileUri "head") (fileUri "head")] 0)
              None)
    as (st' & Hrun & Hw & Ht); [reflexivity | reflexivity |].
  exists st'. split; [exact Hrun|]. split; [exact Hw | exact Ht].
Defined.

Definition fullCache : qp.CachedOutput := {|
  qp.filelog := Some threeRevisions;
  qp.haveFile := Some (haveAt "2");
|}.

Lemma getChangeDetails_cached_witness :
  exists r t,
    FileQuickPick.getChangeDetails (fileUri "3") (Some fullCache) None
      (start aWorld)
    = (r, mkState aWorld ([] ++ t) 0) /\
    Forall (fun e => isCliRequest e = false) t /\
    forall d, r = Ok d ->
      FileQuickPick.all d = threeRevisions /\
      FileQuickPick.haveFile d = Some (haveAt "2").
Proof.
  destruct (getChangeDetails_cached (fileUri "3") fullCache None
              (start aWorld) (haveAt "2") threeRevisions)
    as (r & t & Hrun & Ht & Hd); [reflexivity | reflexivity |].
  exists r, t. split; [exact Hrun|]. split; [exact Ht | exact Hd].
Defined.

(** The details of revision 2 on the scripted history. *)
Definition atRevision2 : FileQuickPick.ChangeDetails :=
  detailsAt threeRevisions 1 (rev 1 "2" "20") (rev 0 "3" "30")
    (Some (haveAt "2")).

Lemma NoDup_three_revisions :
  NoDup (map FileLogItem.revision threeRevisions) /\
  NoDup (map FileLogItem.oid threeRevisions).
Proof.
  split; cbn; repeat constructor;
    rewrite ?elem_of_cons, ?elem_of_nil; intros H;
    repeat (destruct H as [H|H]; try discriminate H); exact H.
Defined.


Lemma provideActions_navigation_witness :
  exists q p n,
    FileQuickPick.provideActions (inl (fileUri "3")) None (start aWorld)
    = (Ok q, afterHistory (fileUri "3")) /\
    qp.items q !! 0%nat = Some p /\
    qp.items q !! 1%nat = Some n /\
    qp.performAction n = None /\
    qp.performAction p =
      Some (qp.ShowQuickPickForFile (fileUri "2")
              (Some {| qp.filelog := Some threeRevisions;
                       qp.haveFile := Some (haveAt "2") |})).
Proof.
  destruct (provideActions_navigation (inl (fileUri "3")) None (start aWorld)
              (afterHave (fileUri "3")) (afterHistory (fileUri "3"))
              (Some (haveAt "2")) threeRevisions 0 (rev 0 "3" "30"))
    as (q & p & n & Hrun & Hp & Hn & _ & _ & Hpa & Hna & _);
    [reflexivity | reflexivity | reflexivity | reflexivity | reflexivity
    | apply NoDup_three_revisions |].
  exists q, p, n. repeat split; assumption.
Defined.

Lemma makeDiffPicks_presence_witness :
  exists picks,
    FileQuickPick.makeDiffPicks (fileUri "3")
      (detailsAt threeRevisions 0 (rev 0 "3" "30") (rev 0 "3" "30") None)
    = Ok picks /\
    hasLabel "$(diff) Diff against latest revision" picks = false /\
    hasLabel "$(diff) Diff against previous revision" picks = true /\
    hasLabel "$(file) Open workspace file" picks = false.
Proof.
  destruct (makeDiffPicks_presence (fileUri "3") threeRevisions 0
              (rev 0 "3" "30") (rev 0 "3" "30") None)
    as (picks & w & Hrun & H1 & H2 & H3 & _);
    [reflexivity | reflexivity | apply NoDup_three_revisions |].
  exists picks. repeat split; assumption.
Defined.

#[local] Instance revStrings : RevStrings := {|
  toRevString := fun startRev endRev =>
    match startRev with
    | Some s => (s ++ "," ++ endRev)%string
    | None => endRev
    end;
|}.

Lemma makeAllRevisionPicks_shown_witness :
  exists picks,
    FileRevisionPicks.makeAllRevisionPicks (fileUri "2") atRevision2
      false false false = Ok picks /\
    map FileRevisionPicks.label (drop 3 picks) =
      ["$(location) #2"; "$(debug-stackframe-dot) #1"].
Proof.
  destruct (makeAllRevisionPicks_shown (fileUri "2") atRevision2 1
              (rev 1 "2" "20") false)
    as (k & picks & _ & _ & Hrun & _); [reflexivity | reflexivity |].
  exists picks. split; [exact Hrun|].
  vm_compute in Hrun. injection Hrun as <-. reflexivity.
Defined.

Lemma makeDiffRevisionPicks_sides_witness :
  exists picks p,
    FileRevisionPicks.makeDiffRevisionPicks (fileUri "2") atRevision2 false
    = Ok picks /\
    picks !! 2%nat = Some p /\
    FileRevisionPicks.performAction p =
      diffOf (fileUri "2") (rev 1 "2" "20") (rev 2 "1" "10").
Proof.
  destruct (makeDiffRevisionPicks_sides (fileUri "2") atRevision2 1
              (rev 1 "2" "20") false)
    as (k & picks & Hk & _ & Hrun & Hlen & Hpicks);
    [reflexivity | reflexivity | reflexivity |].
  assert (k = 1%nat) as ->.
  { assert (Hl : length picks = 3%nat).
    { pose proof Hrun as Hc. vm_compute in Hc. now injection Hc as <-. }
    rewrite Hl in Hlen. cbn in Hlen. lia. }
  destruct (Hpicks 1%nat (rev 2 "1" "10") eq_refl) as (p & Hp & _ & Hside).
  exists picks, p. split; [exact Hrun|]. split; [exact Hp|].
  apply Hside. lia.
Defined.

Lemma makeDiffRevisionPicks_older_left_witness :
  exists picks p,
    FileRevisionPicks.makeDiffRevisionPicks (fileUri "2") atRevision2 true
    = Ok picks /\
    picks !! 3%nat = Some p /\
    FileRevisionPicks.performAction p =
      diffOf (fileUri "2") (rev 2 "1" "10") (rev 1 "2" "20").
Proof.
  destruct (makeDiffRevisionPicks_older_left (fileUri "2") atRevision2 1
              (rev 1 "2" "20"))
    as (picks & Hrun & _ & Hpicks); [reflexivity | reflexivity |].
  destruct (Hpicks 2%nat (rev 2 "1" "10") eq_refl) as (p & Hp & Hside).
  exists picks, p. split; [exact Hrun|]. split; [exact Hp|]. exact Hside.
Defined.

(** The search of the scenario has no filter. *)
Definition noFilters : @Filters World searchApi := tt.

(** A world in which no changelist is described. *)
Definition emptyWorld : World := {|
  haveRecord := None;
  history := [];
  described := [];
  shelvedDescribed := [];
  searchResults := [];
|}.

Lemma provideActions_no_change_witness :
  exists st',
    ChangeQuickPick.provideActions (inl (fileUri "")) "99" (start emptyWorld)
    = (Throw (Error "Unable to find change details"), st') /\
    trace st' =
      [ CliDescribe (fileUri "") (describeOptions "99");
        ShowImportantError "Unable to find change details" ].
Proof.
  destruct (provideActions_no_change (inl (fileUri "")) "99"
              (start emptyWorld)
              (mkState emptyWorld
                 [CliDescribe (fileUri "") (describeOptions "99")] 0))
    as [H _].
  destruct H as (st' & Hrun & _ & Ht); [reflexivity|].
  exists st'. split; [exact Hrun | exact Ht].
Defined.

Import ChangelistTreeView.

(** A search result with a stale group of shelved files and one file. *)
Definition staleItem : SearchResultItem.t := {|
  SearchResultItem.oid := 1;
  SearchResultItem._resource := fileUri "";
  SearchResultItem._change :=
    DescribedChangelist.asChangeInfo (change "40" true []);
  SearchResultItem.label := "40: fix";
  SearchResultItem.description := "zoe";
  SearchResultItem.tooltip := "fix";
  SearchResultItem.collapsibleState := Expanded;
  SearchResultItem.children :=
    [ ShelvedChild {|
        SearchResultShelvedSubTree.oid := 2;
        SearchResultShelvedSubTree.label := "Shelved Files (2)";
        SearchResultShelvedSubTree.collapsibleState := Collapsed;
        SearchResultShelvedSubTree.children := [] |};
      FileChild (fileItem (fileUri "") (change "40" true []) 3 shelvedFile) ];
|}.

Lemma addShelvedFiles_one_group_witness :
  exists this' st' group,
    addShelvedFiles (change "40" true [shelvedFile]) staleItem
      (mkState aWorld [] 4)
    = (Ok this', st') /\
    SearchResultItem.children this' =
      [ ShelvedChild group;
        FileChild (fileItem (fileUri "") (change "40" true []) 3 shelvedFile) ] /\
    SearchResultShelvedSubTree.label group = "Shelved Files (1)".
Proof.
  destruct (addShelvedFiles_one_group (change "40" true [shelvedFile])
              staleItem (mkState aWorld [] 4))
    as (this' & st' & Hrun & _ & _ & _ & H).
  destruct H as (group & Hch & Hl & _); [cbn; lia|].
  exists this', st', group. split; [exact Hrun|]. split; [exact Hch | exact Hl].
Defined.

Lemma newSearchResultTree_request_witness :
  exists this st',
    newSearchResultTree (MultiSearch noFilters) (fileUri "") [] "Results (0)"
      (start aWorld)
    = (Ok this, st') /\
    trace st' = [].
Proof.
  destruct (newSearchResultTree_request (MultiSearch noFilters) (fileUri "") []
              "Results (0)" (start aWorld))
    as (this & st' & Hrun & _ & _ & _ & _ & Hnone).
  exists this, st'. split; [exact Hrun|]. now apply Hnone.
Defined.

(** The description of changelist 20, with one affected file. *)
Definition described20 : DescribedChangelist.t := {|
  DescribedChangelist.chnum := "20";
  DescribedChangelist.description := ["fix"];
  DescribedChangelist.date := None;
  DescribedChangelist.user := "zoe";
  DescribedChangelist.client := "ws";
  DescribedChangelist.isPending := false;
  DescribedChangelist.affectedFiles := [shelvedFile];
  DescribedChangelist.shelvedFiles := [];
  DescribedChangelist.fixedJobs := [];
|}.

Lemma populateChangeDetails_resume_files_witness :
  exists this st this' st' c10 c20,
    firstTree (start aWorld) = (Ok this, st) /\
    populateChangeDetails_resume [described20] this st = (Ok this', st') /\
    SearchResultTree.children this !! 0%nat = Some c10 /\
    SearchResultTree.children this' !! 0%nat = Some c10 /\
    SearchResultTree.children this' !! 1%nat = Some c20 /\
    showsFilesOf described20 c20.
Proof.
  destruct (firstTree (start aWorld)) as [[this|e] st] eqn:Hnew;
    [|vm_compute in Hnew; discriminate Hnew].
  destruct (populateChangeDetails_resume_files [described20] this st
              (reach_multi _ _ _ _ _ _ Hnew))
    as (this' & st' & Hrun & _ & Hc).
  vm_compute in Hnew. injection Hnew as <- <-.
  edestruct (Hc 0%nat) as (c0 & H0 & _ & _ & Hs0); [reflexivity|].
  edestruct (Hc 1%nat) as (c1 & H1 & _ & _ & Hs1); [reflexivity|].
  cbn in Hs0, Hs1. subst c0.
  do 5 eexists. exists c1. split; [reflexivity|].
  split; [exact Hrun|]. split; [reflexivity|].
  split; [exact H0|]. split; [exact H1 | exact Hs1].
Defined.

(** A command-line client that fails to describe changelists. *)
Definition failingApi : PerforceApi World := {|
  answerHave := fun _ _ w => (Ok (haveRecord w), w);
  answerGetFileHistory := fun _ _ _ w => (Ok (history w), w);
  answerDescribe := fun _ _ w => (Throw (Error "Connect to server failed"), w);
|}.

Definition focusedTree : SearchResultTree.t := {|
  SearchResultTree.oid := 0;
  SearchResultTree.kind := SingleChange (change "40" true []);
  SearchResultTree._resource := fileUri "";
  SearchResultTree._isPinned := true;
  SearchResultTree._results :=
    [DescribedChangelist.asChangeInfo (change "40" true [])];
  SearchResultTree.label := "Focused changelist 40";
  SearchResultTree.collapsibleState := Expanded;
  SearchResultTree.contextValue := "results-unpinned";
  SearchResultTree.children := [staleItem];
|}.

Lemma refresh_fetch_fails_witness :
  exists st1,
    refresh (API:=failingApi) focusedTree (mkState aWorld [] 4)
    = (Throw (Error "Connect to server failed"), st1) /\
    exists request,
      isCliRequest request = true /\ trace st1 = [request].
Proof.
  eexists.
  apply (refresh_fetch_fails (API:=failingApi) focusedTree
           (mkState aWorld [] 4)).
  reflexivity.
Defined.

Definition aClient : AllResultsTree.ClientRoot := {|
  AllResultsTree.configSource := fileUri "";
  AllResultsTree.clientName := "ws";
  AllResultsTree.userName := "zoe";
|}.

Definition noResults : AllResultsTree.t := {|
  AllResultsTree.oid := 0;
  AllResultsTree.children := [];
|}.

Lemma rootExecuteSearch_results_witness :
  exists this' child st',
    AllResultsTree.rootExecuteSearch 9 (Some aClient) noFilters noResults
      (mkState aWorld [] 1)
    = (Ok this', st') /\
    AllResultsTree.children this' = [child] /\
    SearchResultTree._isPinned child = false /\
    map ChangeInfo.chnum (SearchResultTree._results child) = ["20"; "30"].
Proof.
  destruct (rootExecuteSearch_results 9 noFilters noResults (mkState aWorld [] 1))
    as [_ H].
  destruct (H aClient (searchResults aWorld) aWorld eq_refl)
    as (this' & child & st' & Hrun & Hch & Hpin & Hres & _).
  exists this', child, st'. split; [exact Hrun|]. split; [exact Hch|].
  split; [exact Hpin|]. rewrite Hres. reflexivity.
Defined.

Lemma focusChangelist_survives_search_witness :
  exists this1 st1 this2 st2 child,
    AllResultsTree.focusChangelist 9 (fileUri "") (change "40" true [])
      noResults (mkState aWorld [] 1)
    = (Ok this1, st1) /\
    AllResultsTree.rootExecuteSearch 9 (Some aClient) noFilters this1 st1
    = (Ok this2, st2) /\
    child ∈ AllResultsTree.children this2 /\
    SearchResultTree._isPinned child = true /\
    SearchResultTree.label child = "Focused changelist 40".
Proof.
  destruct (AllResultsTree.focusChangelist 9 (fileUri "") (change "40" true [])
              noResults (mkState aWorld [] 1)) as [[this1|e] st1] eqn:H1;
    [|vm_compute in H1; discriminate H1].
  destruct (AllResultsTree.rootExecuteSearch 9 (Some aClient) noFilters this1 st1)
    as [[this2|e] st2] eqn:H2.
  - destruct (focusChangelist_survives_search 9 (fileUri "")
                (change "40" true []) aClient noFilters noResults this1 this2
                (mkState aWorld [] 1) st1 st2 H1 H2)
      as (child & _ & Hin & Hpin & _ & Hl).
    exists this1, st1, this2, st2, child. repeat split; assumption.
  - vm_compute in H1. injection H1 as <- <-.
    vm_compute in H2. discriminate H2.
Defined.

#[local] Instance statusApi : StatusApi := {|
  Status := string;
  GetStatus := fun operation => operation;
  operationCreatesFile := fun s =>
    String.eqb s "add" || String.eqb s "move/add" || String.eqb s "branch";
  operationDeletesFile := fun s =>
    String.eqb s "delete" || String.eqb s "move/delete";
|}.

Lemma contextValue_cases_witness :
  ResultFiles.canDiff (fileItem (fileUri "") described20 5 shelvedFile) = true.
Proof.
  destruct (contextValue_cases
              (fileItem (fileUri "") described20 5 shelvedFile)) as [_ H].
  apply H. reflexivity.
Defined.

(** The tree of the pending changelist 40 brought into focus. *)
Definition focusTree : M World SearchResultTree.t :=
  newSingleChangeResultTree (fileUri "") (change "40" true []).

Lemma populateShelvedFiles_resume_groups_witness :
  exists this st this' st' c c' group,
    focusTree (start aWorld) = (Ok this, st) /\
    populateShelvedFiles_resume [change "40" true [shelvedFile]] this st
    = (Ok this', st') /\
    SearchResultTree.children this = [c] /\
    SearchResultTree.children this' !! 0%nat = Some c' /\
    SearchResultItem.children c' = [ShelvedChild group] /\
    map SearchResultShelvedFile._file
        (SearchResultShelvedSubTree.children group) = [shelvedFile].
Proof.
  destruct (focusTree (start aWorld)) as [[this|e] st] eqn:Hnew;
    [|vm_compute in Hnew; discriminate Hnew].
  destruct (populateShelvedFiles_resume_groups
              [change "40" true [shelvedFile]] this st
              (reach_single _ _ _ _ _ Hnew))
    as (this' & st' & Hrun & _ & Hc).
  vm_compute in Hnew. injection Hnew as <- <-.
  edestruct (Hc 0%nat) as (c' & H0 & _ & _ & Hs); [reflexivity|].
  unfold showsShelvedOf in Hs. cbn in Hs.
  destruct Hs as (_ & group & Hch & Hfiles).
  do 5 eexists. exists c', group. split; [reflexivity|].
  split; [exact Hrun|]. split; [reflexivity|]. split; [exact H0|].
  split; [exact Hch | exact Hfiles].
Defined.

Lemma contextValue_never_pinned_witness :
  exists this st,
    focusTree (start aWorld) = (Ok this, st) /\
    SearchResultTree._isPinned this = true /\
    SearchResultTree.contextValue this = "results-unpinned".
Proof.
  destruct (focusTree (start aWorld)) as [[this|e] st] eqn:Hnew;
    [|vm_compute in Hnew; discriminate Hnew].
  pose proof (contextValue_never_pinned this st (reach_single _ _ _ _ _ Hnew))
    as Hc.
  exists this, st. split; [reflexivity|]. split; [|exact Hc].
  vm_compute in Hnew. now injection Hnew as <- _.
Defined.

End FurtherScenario.
